(** * quant-demo: signal ensemble, risk rules, ledger and back-test drivers

    A shallow embedding of the Python sources
    - [position_manager.py]  (RiskManager, Position, Portfolio),
    - [strategy_ensemble.py] (TrendStrategy, MeanReversionStrategy,
      MarketRegimeDetector, StrategyEnsemble),
    - [backtest.py]          (BacktestEngine and its report),
    - [backtest_v3.py]       (MAStrategy, backtest_with_chart),
    - [scanner.py]           (ScannerEngine.analyze, OpportunityFinder),
    followed by the properties of the specification that concern them and
    by further properties of the code.

    Numbers.  The sources compute with binary floating point.  In the
    first part a finite number is an exact rational ([Q]) and a cell of a
    pandas column that holds NaN is [None]: rounding, overflow and signed
    zeros are outside that model, [==] on [Q] stands for numeric equality,
    and what is proved there is about the structure of the computation (what
    is recorded, what is mutated, which call raises, which branch follows
    from which answer).  Where Python raises [ZeroDivisionError] the model
    returns an explicit error; where numpy would produce NaN or an infinity
    from a division by zero the model produces an undefined cell.

    A decision that sits on a threshold is another matter: it is taken on
    rounded numbers.  The second part embeds the code of such decisions
    again on binary64 numbers ([Binary64]), with the column operations of
    pandas as parameters, and states the claims about them there. *)

From Stdlib Require Import QArith Qround Lqa ZArith Bool.
From Stdlib Require Import Floats.SpecFloat.
From stdpp Require Import gmap strings list option.

Local Open Scope Q_scope.

(** ** Comparisons on numbers, as booleans *)

Definition Qltb (x y : Q) : bool := negb (Qle_bool y x).
Definition Qgtb (x y : Q) : bool := Qltb y x.
Definition Qleb (x y : Q) : bool := Qle_bool x y.
Definition Qgeb (x y : Q) : bool := Qle_bool y x.

(** Python's [min(a, b)]: the second argument only when it is smaller. *)
Definition pymin (a b : Q) : Q := if Qltb b a then b else a.

(** ** Enumerations of [strategy_ensemble.py] *)

Inductive Signal := BUY | SELL | HOLD.

Definition Signal_value (s : Signal) : Q :=
  match s with BUY => 1 | SELL => -1 | HOLD => 0 end.

Inductive MarketRegime := TREND_UP | TREND_DOWN | MEAN_REVERSION.

Definition MarketRegime_value (r : MarketRegime) : string :=
  match r with
  | TREND_UP => "trend_up"
  | TREND_DOWN => "trend_down"
  | MEAN_REVERSION => "mean_reversion"
  end.

(** ** Exceptions and results of calls that mutate a ledger *)

Inductive exn := ZeroDivisionError | IndexError.

(** ** [position_manager.py] *)

Module RiskManager.

Record t := mk {
  max_position_pct : Q;
  max_loss_pct : Q;
  take_profit_pct : Q;
  trailing_stop_pct : Q
}.

(** [RiskManager()] with its default arguments. *)
Definition default : t := mk (3 # 10) (- (7 # 100)) (15 # 100) (5 # 100).

(** [calculate_position_size]: the regime is compared as a string. *)
Definition calculate_position_size
    (self : t) (signal_strength : Q) (market_regime : string)
    (account_balance : Q) : Q :=
  let base_pct :=
    if Qgeb signal_strength (8 # 10) then max_position_pct self
    else if Qgeb signal_strength (5 # 10) then max_position_pct self * (75 # 100)
    else max_position_pct self * (5 # 10) in
  let base_pct :=
    if String.eqb market_regime "mean_reversion" then base_pct * (7 # 10)
    else if String.eqb market_regime "trend_down" then base_pct * (5 # 10)
    else base_pct in
  let position_value := account_balance * base_pct in
  pymin position_value (account_balance * max_position_pct self).

(** [(current_price - entry_price) / entry_price]; Python raises
    [ZeroDivisionError] when the entry price is zero. *)
Definition pct (entry_price current_price : Q) : option Q :=
  if Qeq_bool entry_price 0 then None
  else Some ((current_price - entry_price) / entry_price).

Definition check_stop_loss (self : t) (entry_price current_price : Q)
    : option bool :=
  match pct entry_price current_price with
  | None => None
  | Some loss_pct => Some (Qleb loss_pct (max_loss_pct self))
  end.

Definition check_take_profit
    (self : t) (entry_price current_price highest_price : Q) : option bool :=
  match pct entry_price current_price with
  | None => None
  | Some profit_pct =>
      if Qgeb profit_pct (take_profit_pct self) then
        let trailing_stop_price := highest_price * (1 - trailing_stop_pct self) in
        Some (Qleb current_price trailing_stop_price)
      else Some false
  end.

(** [should_add_position]; [None] is the [ZeroDivisionError] of a zero
    average cost under a higher price.  The current position is not read. *)
Definition should_add_position
    (self : t) (current_position signal_strength current_price avg_cost : Q)
    : option bool :=
  if Qleb current_price avg_cost then Some false
  else
    match pct avg_cost current_price with
    | None => None
    | Some profit_pct =>
        Some (Qgtb profit_pct (5 # 100) && Qgtb signal_strength (7 # 10))
    end.

End RiskManager.

Module Position.

Record t := mk {
  code : string;
  name : string;
  quantity : Q;
  avg_cost : Q;
  entry_date : string;
  highest_price : Q
}.

(** [Position(code, name, quantity, avg_cost, entry_date)]: the high-water
    price starts at the cost. *)
Definition init (code name : string) (quantity avg_cost : Q)
    (entry_date : string) : t :=
  mk code name quantity avg_cost entry_date avg_cost.

Definition set_quantity (p : t) (q : Q) : t :=
  mk (code p) (name p) q (avg_cost p) (entry_date p) (highest_price p).

Definition set_avg_cost (p : t) (c : Q) : t :=
  mk (code p) (name p) (quantity p) c (entry_date p) (highest_price p).

Definition update_price (p : t) (current_price : Q) : t :=
  if Qgtb current_price (highest_price p)
  then mk (code p) (name p) (quantity p) (avg_cost p) (entry_date p) current_price
  else p.

Definition get_value (p : t) (current_price : Q) : Q :=
  quantity p * current_price.

End Position.

Module Portfolio.

Record t := mk {
  initial_balance : Q;
  cash : Q;
  positions : gmap string Position.t
}.

(** [Portfolio(initial_balance)] *)
Definition init (initial_balance : Q) : t := mk initial_balance initial_balance ∅.

Definition set_positions (self : t) (m : gmap string Position.t) : t :=
  mk (initial_balance self) (cash self) m.

(** What a call leaves behind: the value it returns, or the exception it
    raises, and in both cases the ledger as mutated so far. *)
Inductive outcome (A : Type) :=
| Returned (a : A) (self : t)
| Raised (e : exn) (self : t).
Arguments Returned {A} a self.
Arguments Raised {A} e self.

Definition state_of {A} (o : outcome A) : t :=
  match o with Returned _ s => s | Raised _ s => s end.

(** [buy].  [today] is the date read from the clock for a new position.
    Adding to a position updates the quantity in place before the average
    cost is divided by it. *)
Definition buy (self : t) (code name : string) (price quantity : Q)
    (today : string) : outcome bool :=
  let cost := price * quantity in
  if Qgtb cost (cash self) then Returned false self
  else
    match positions self !! code with
    | Some pos =>
        let total_cost :=
          Position.avg_cost pos * Position.quantity pos + price * quantity in
        let pos := Position.set_quantity pos (Position.quantity pos + quantity) in
        if Qeq_bool (Position.quantity pos) 0 then
          Raised ZeroDivisionError
                 (set_positions self (<[code := pos]> (positions self)))
        else
          let pos := Position.set_avg_cost pos (total_cost / Position.quantity pos) in
          Returned true
            (mk (initial_balance self) (cash self - cost)
                (<[code := pos]> (positions self)))
    | None =>
        Returned true
          (mk (initial_balance self) (cash self - cost)
              (<[code := Position.init code name quantity price today]>
                 (positions self)))
    end.

(** The quantity that [sell] gives up: everything by default and when the
    request reaches the holding. *)
Definition sell_quantity (pos : Position.t) (quantity : option Q) : Q :=
  match quantity with
  | None => Position.quantity pos
  | Some q => if Qgeb q (Position.quantity pos) then Position.quantity pos else q
  end.

(** [sell]; [quantity = None] is the default argument. *)
Definition sell (self : t) (code : string) (price : Q) (quantity : option Q)
    : Q * t :=
  match positions self !! code with
  | None => (0, self)
  | Some pos =>
      let quantity := sell_quantity pos quantity in
      let proceeds := price * quantity in
      let pos := Position.set_quantity pos (Position.quantity pos - quantity) in
      let positions' :=
        if Qleb (Position.quantity pos) 0 then delete code (positions self)
        else <[code := pos]> (positions self) in
      (proceeds, mk (initial_balance self) (cash self + proceeds) positions')
  end.

(** [update_positions]: the high-water price of every quoted holding. *)
Definition update_positions (self : t) (market_data : gmap string Q) : t :=
  map_fold (λ code price self,
            match positions self !! code with
            | Some pos =>
                set_positions self
                  (<[code := Position.update_price pos price]> (positions self))
            | None => self
            end)
           self market_data.

(** [get_portfolio_value]: cash plus the value of the quoted holdings. *)
Definition get_portfolio_value (self : t) (market_data : gmap string Q) : Q :=
  let positions_value :=
    map_fold (λ code price acc,
              match positions self !! code with
              | Some pos => acc + Position.get_value pos price
              | None => acc
              end)
             0 market_data in
  cash self + positions_value.

(** A call on the ledger, and a finite sequence of calls run in order.  A
    call that raises leaves the ledger as mutated so far, and the calls
    after it run on that ledger. *)
Inductive call :=
| Buy (code name : string) (price quantity : Q) (today : string)
| Sell (code : string) (price : Q) (quantity : option Q).

Definition do_call (self : t) (c : call) : t :=
  match c with
  | Buy code name price quantity today =>
      state_of (buy self code name price quantity today)
  | Sell code price quantity => snd (sell self code price quantity)
  end.

Definition run_calls (self : t) (cs : list call) : t := fold_left do_call cs self.

End Portfolio.

(** ** Price bars and pandas columns *)

Module Bar.
Record t := mk {
  date : nat;
  open : Q;
  high : Q;
  low : Q;
  close : Q;
  volume : Q
}.
End Bar.

(** The square root of numpy, which the rolling standard deviation uses. *)
Class Sqrt := sqrt : Q → Q.

Module Series.

(** A cell of a float column; [None] is NaN. *)
Definition cell := option Q.

(** Comparisons of cells: any comparison with NaN is false. *)
Definition lt (a b : cell) : bool :=
  match a, b with Some x, Some y => Qltb x y | _, _ => false end.
Definition gt (a b : cell) : bool := lt b a.

Definition add (a b : cell) : cell :=
  match a, b with Some x, Some y => Some (x + y) | _, _ => None end.
Definition sub (a b : cell) : cell :=
  match a, b with Some x, Some y => Some (x - y) | _, _ => None end.
Definition mul (a b : cell) : cell :=
  match a, b with Some x, Some y => Some (x * y) | _, _ => None end.
Definition scale (k : Q) (a : cell) : cell := mul (Some k) a.
Definition div (a b : cell) : cell :=
  match a, b with
  | Some x, Some y => if Qeq_bool y 0 then None else Some (x / y)
  | _, _ => None
  end.

(** Sum of the observations; the running sum is kept in lowest terms,
    which does not change its value. *)
Definition total (xs : list Q) : Q := fold_left (λ acc x, Qred (acc + x)) xs 0.

Definition count (xs : list Q) : Q := inject_Z (Z.of_nat (length xs)).

Definition mean (xs : list Q) : cell :=
  match xs with
  | [] => None
  | _ => Some (total xs / count xs)
  end.

(** Sample standard deviation ([ddof = 1]), undefined for one observation. *)
Definition std `{Sqrt} (xs : list Q) : cell :=
  match mean xs with
  | None => None
  | Some m =>
      if (length xs <=? 1)%nat then None
      else Some (sqrt (total (map (λ x, (x - m) * (x - m)) xs) / (count xs - 1)))
  end.

(** The [w] observations that end at row [i]; undefined while fewer than
    [w] rows exist or when one of them is NaN ([min_periods = window]). *)
Definition window (w : nat) (col : list cell) (i : nat) : option (list Q) :=
  if ((w =? 0) || (i + 1 <? w))%nat then None
  else mapM id (take w (drop (i + 1 - w) col)).

(** [col.rolling(w).agg()] *)
Definition rolling (w : nat) (agg : list Q → cell) (col : list cell) : list cell :=
  map (λ i, window w col i ≫= agg) (seq 0 (length col)).

(** [col.pct_change()] *)
Definition pct_change (col : list cell) : list cell :=
  map (λ i, match i with
            | O => None
            | S j => sub (div (col !!! i) (col !!! j)) (Some 1)
            end)
      (seq 0 (length col)).

(** [col.diff()] on a column of integers. *)
Definition diff (col : list Z) : list (option Z) :=
  map (λ i, match i with
            | O => None
            | S j => Some (col !!! i - col !!! j)%Z
            end)
      (seq 0 (length col)).

(** [col.mean()]: NaN cells are skipped; NaN when nothing is left. *)
Definition mean_skipna (col : list cell) : cell := mean (omap id col).

(** [col.iloc[-1]] *)
Definition iloc_last {A} (col : list A) : option A := col !! (length col - 1)%nat.

(** [col.cummax()] on a column without NaN. *)
Definition cummax (col : list Q) : list Q :=
  match col with
  | [] => []
  | x :: rest =>
      x :: snd (foldl (λ (acc : Q * list Q) y,
                       let top := if Qgtb y (fst acc) then y else fst acc in
                       (top, snd acc ++ [top]))
                      (x, []) rest)
  end.

(** [col.min()]: NaN cells are skipped; NaN when nothing is left. *)
Definition min_skipna (col : list cell) : cell :=
  match omap id col with
  | [] => None
  | x :: rest => Some (foldl (λ low y, if Qltb y low then y else low) x rest)
  end.

(** [col.std()]: NaN cells are skipped. *)
Definition std_skipna `{Sqrt} (col : list cell) : cell := std (omap id col).

(** A function of numbers applied to a cell; NaN stays NaN. *)
Definition map_cell (f : Q → Q) (a : cell) : cell :=
  match a with Some x => Some (f x) | None => None end.

End Series.

(** ** [strategy_ensemble.py] *)

Module Config.
Definition SHORT_MA : nat := 5.
Definition LONG_MA : nat := 20.
Definition REVERSION_WINDOW : nat := 20.
Definition REVERSION_STD : Q := 2.
End Config.

Module TrendStrategy.

Record t := mk { short_ma : nat; long_ma : nat }.

Definition default : t := mk Config.SHORT_MA Config.LONG_MA.

(** The frame returned by [calculate]: the bars and the new columns. *)
Record frame := mkframe {
  bars : list Bar.t;
  ma_short : list Series.cell;
  ma_long : list Series.cell;
  ma_cross : list Z;
  ma_signal : list (option Z)
}.

(** The sign written over a difference: [> 0] becomes 1, [< 0] becomes -1;
    0 and NaN stay. *)
Definition clip (d : option Z) : option Z :=
  match d with
  | None => None
  | Some z => Some (if (0 <? z)%Z then 1 else if (z <? 0)%Z then -1 else z)%Z
  end.

Definition calculate (self : t) (df : list Bar.t) : frame :=
  let close := map (λ b, Some (Bar.close b)) df in
  let ma_short := Series.rolling (short_ma self) Series.mean close in
  let ma_long := Series.rolling (long_ma self) Series.mean close in
  let ma_cross :=
    zip_with (λ s l,
              let c := 0%Z in
              let c := if Series.gt s l then 1%Z else c in
              let c := if Series.lt s l then (-1)%Z else c in
              c)
             ma_short ma_long in
  let ma_signal := map clip (Series.diff ma_cross) in
  mkframe df ma_short ma_long ma_cross ma_signal.

(** [get_signal]; [None] is the [IndexError] of [df.iloc[-1]] on an empty
    frame. *)
Definition get_signal (self : t) (df : list Bar.t) : option Signal :=
  let df := calculate self df in
  if (length (bars df) <? long_ma self)%nat then Some HOLD
  else
    match Series.iloc_last (ma_signal df), Series.iloc_last (ma_cross df) with
    | Some ma_signal, Some ma_cross =>
        if bool_decide (ma_signal = Some 1%Z) then Some BUY
        else if bool_decide (ma_signal = Some (-1)%Z) then Some SELL
        else if bool_decide (ma_cross = 1%Z) then Some HOLD
        else Some HOLD
    | _, _ => None
    end.

End TrendStrategy.

Module MeanReversionStrategy.

Record t := mk { window : nat; std_multiplier : Q }.

Definition default : t := mk Config.REVERSION_WINDOW Config.REVERSION_STD.

Record frame := mkframe {
  bars : list Bar.t;
  ma : list Series.cell;
  std : list Series.cell;
  upper : list Series.cell;
  lower : list Series.cell;
  position : list Series.cell
}.

Section with_sqrt.
Context `{Sqrt}.

Definition calculate (self : t) (df : list Bar.t) : frame :=
  let close := map (λ b, Some (Bar.close b)) df in
  let ma := Series.rolling (window self) Series.mean close in
  let std := Series.rolling (window self) Series.std close in
  let upper := zip_with (λ m s, Series.add m (Series.scale (std_multiplier self) s)) ma std in
  let lower := zip_with (λ m s, Series.sub m (Series.scale (std_multiplier self) s)) ma std in
  let position :=
    zip_with (λ c ul, Series.div (Series.sub c (snd ul)) (Series.sub (fst ul) (snd ul)))
             close (zip upper lower) in
  mkframe df ma std upper lower position.

Definition get_signal (self : t) (df : list Bar.t) : option Signal :=
  let df := calculate self df in
  if (length (bars df) <? window self)%nat then Some HOLD
  else
    match Series.iloc_last (bars df), Series.iloc_last (upper df),
          Series.iloc_last (lower df), Series.iloc_last (position df) with
    | Some bar, Some upper, Some lower, Some position =>
        let close := Some (Bar.close bar) in
        if Series.lt close lower then Some BUY
        else if Series.gt close upper then Some SELL
        else if Series.lt position (Some (2 # 10)) then Some BUY
        else if Series.gt position (Some (8 # 10)) then Some SELL
        else Some HOLD
    | _, _, _, _ => None
    end.

End with_sqrt.

End MeanReversionStrategy.

Module MarketRegimeDetector.

Section with_sqrt.
Context `{Sqrt}.

(** The rolling volatility that [detect] computes: the 20-day standard
    deviation of the daily returns. *)
Definition volatility (df : list Bar.t) : list Series.cell :=
  let close := map (λ b, Some (Bar.close b)) df in
  let returns := Series.pct_change close in
  Series.rolling 20 Series.std returns.

(** [detect]; after the length guard the frame is not empty, so the
    reads of the last row cannot fail: a missing last cell reads as NaN. *)
Definition detect (df : list Bar.t) : MarketRegime :=
  if (length df <? 20)%nat then MEAN_REVERSION
  else
    let close := map (λ b, Some (Bar.close b)) df in
    let volatility := volatility df in
    let ma20 := Series.rolling 20 Series.mean close in
    let ma60 := Series.rolling 60 Series.mean close in
    let current_vol := default None (Series.iloc_last volatility) in
    let avg_vol := Series.mean_skipna volatility in
    if Series.gt current_vol (Series.mul avg_vol (Some (12 # 10))) then MEAN_REVERSION
    else if Series.gt (default None (Series.iloc_last ma20))
                      (default None (Series.iloc_last ma60))
         then TREND_UP
         else TREND_DOWN.

End with_sqrt.

End MarketRegimeDetector.

Module StrategyEnsemble.

Record weights := mkweights { trend : Q; reversion : Q; llm : Q }.

(** The engine holds the two built-in strategies with their default
    windows and the advisory strategy: its API key and what the remote
    service answers for a frame ([analyze_technical] catches its own
    failures and then answers HOLD). *)
Record t := mk {
  trend_strategy : TrendStrategy.t;
  reversion_strategy : MeanReversionStrategy.t;
  llm_api_key : string;
  llm_analyze_technical : list Bar.t → Signal
}.

Definition init (api_key : string) (advisor : list Bar.t → Signal) : t :=
  mk TrendStrategy.default MeanReversionStrategy.default api_key advisor.

Record result := mkresult {
  signal : Signal;
  score : Q;
  market_regime : string;
  trend_signal : Signal;
  reversion_signal : Signal;
  llm_signal : Signal;
  result_weights : weights
}.

Definition regime_weights (market_regime : MarketRegime) : weights :=
  match market_regime with
  | TREND_UP => mkweights (5 # 10) (2 # 10) (3 # 10)
  | TREND_DOWN => mkweights (5 # 10) (1 # 10) (4 # 10)
  | MEAN_REVERSION => mkweights (2 # 10) (5 # 10) (3 # 10)
  end.

(** The part of [get_ensemble_signal] that follows the three signals:
    weights by regime, weighted score, thresholds. *)
Definition combine (market_regime : MarketRegime)
    (trend_signal reversion_signal llm_signal : Signal) : result :=
  let weights := regime_weights market_regime in
  let score :=
    Signal_value trend_signal * trend weights
    + Signal_value reversion_signal * reversion weights
    + Signal_value llm_signal * llm weights in
  let final_signal :=
    if Qgtb score (3 # 10) then BUY
    else if Qltb score (- (3 # 10)) then SELL
    else HOLD in
  mkresult final_signal score (MarketRegime_value market_regime)
           trend_signal reversion_signal llm_signal weights.

Section with_sqrt.
Context `{Sqrt}.

(** [get_ensemble_signal]; [None] is an exception of a strategy. *)
Definition get_ensemble_signal (self : t) (df : list Bar.t)
    (market_regime : option MarketRegime) : option result :=
  let market_regime :=
    match market_regime with
    | None => MarketRegimeDetector.detect df
    | Some r => r
    end in
  trend_signal ← TrendStrategy.get_signal (trend_strategy self) df;
  reversion_signal ← MeanReversionStrategy.get_signal (reversion_strategy self) df;
  let llm_signal :=
    if String.eqb (llm_api_key self) "" then HOLD
    else llm_analyze_technical self df in
  Some (combine market_regime trend_signal reversion_signal llm_signal).

End with_sqrt.

End StrategyEnsemble.

(** ** Python's [int()] and [round()] on numbers *)

(** [int(x)]: truncation toward zero. *)
Definition pyint (x : Q) : Z := Z.quot (Qnum x) (Z.pos (Qden x)).

(** [round(x, ndigits)]: to the nearest multiple of [10^-ndigits], ties to
    even. *)
Definition pyround (x : Q) (ndigits : nat) : Q :=
  let scale := inject_Z (10 ^ Z.of_nat ndigits) in
  let y := x * scale in
  let f := Qfloor y in
  let r := y - inject_Z f in
  let n := if Qltb r (1 # 2) then f
           else if Qgtb r (1 # 2) then (f + 1)%Z
           else if Z.even f then f else (f + 1)%Z in
  inject_Z n / scale.

(** ** [position_manager.py]: the trade recommendation *)

Module TradeRecommendation.

(** The text of the reason, by the branch that writes it, with the
    percentage that the stop-loss and take-profit texts print. *)
Inductive reason :=
| StopLoss (pct : Q)
| SignalTurnedShort
| TakeProfitOrTrailing (pct : Q)
| HoldAndWait
| Watch.

Record t := mk {
  action : string;
  why : reason;
  profit_pct : Q;
  stop_loss_price : Q;
  take_profit_price : Q;
  trailing_stop_price : Q
}.

(** [RiskManager.get_trade_recommendation]; [None] is the
    [ZeroDivisionError] of the two checks.  The gain that is reported is
    guarded against a non-positive entry price, the checks are not. *)
Definition get_trade_recommendation
    (self : RiskManager.t) (entry_price current_price highest_price : Q)
    (signal : string) : option t :=
  let profit_pct :=
    if Qgtb entry_price 0 then (current_price - entry_price) / entry_price else 0 in
  trigger_stop_loss ← RiskManager.check_stop_loss self entry_price current_price;
  trigger_take_profit ←
    RiskManager.check_take_profit self entry_price current_price highest_price;
  let '(action, why) :=
    if String.eqb signal "SELL" || (trigger_stop_loss : bool) then
      ("SELL"%string, if (trigger_stop_loss : bool) then StopLoss (profit_pct * 100)
               else SignalTurnedShort)
    else if (trigger_take_profit : bool) then
      ("SELL"%string, TakeProfitOrTrailing (profit_pct * 100))
    else if String.eqb signal "BUY" then ("HOLD"%string, HoldAndWait)
    else ("HOLD"%string, Watch) in
  Some (mk action why
           (pyround (profit_pct * 100) 2)
           (pyround (entry_price * (1 + RiskManager.max_loss_pct self)) 2)
           (pyround (entry_price * (1 + RiskManager.take_profit_pct self)) 2)
           (pyround (highest_price * (1 - RiskManager.trailing_stop_pct self)) 2)).

End TradeRecommendation.

(** ** [backtest.py] *)

Module BacktestConfig.
Definition INITIAL_CAPITAL : Q := 100000.
Definition COMMISSION_RATE : Q := 15 # 10000.
Definition SLIPPAGE : Q := 1 # 1000.
Definition STOP_LOSS : Q := - (10 # 100).
Definition TAKE_PROFIT : Q := 20 # 100.
Definition TRAILING_STOP : Q := 8 # 100.
End BacktestConfig.

Module BacktestEngine.

Record trade := mktrade {
  trade_date : nat;
  action : Signal;
  price : Q;
  shares : Z;
  profit_pct : option Q
}.

Record equity_point := mkpoint { date : nat; equity : Q }.

Record t := mk {
  symbol : string;
  name : string;
  initial_capital : Q;
  trend : TrendStrategy.t;
  reversion : MeanReversionStrategy.t;
  trades : list trade;
  equity_curve : list equity_point;
  current_position : Z;
  entry_price : Q;
  total_trades : nat;
  winning_trades : nat;
  losing_trades : nat
}.

(** [BacktestEngine(symbol, name, initial_capital)]; the risk manager and
    the portfolio built by the constructor are never read afterwards. *)
Definition init (symbol name : string) (initial_capital : Q) : t :=
  mk symbol name initial_capital TrendStrategy.default
     MeanReversionStrategy.default [] [] 0 0 0 0 0.

(** [execute_trade]; [None] is the [OverflowError] of [int()] on the
    infinite quotient by a zero buy price. *)
Definition execute_trade (self : t) (signal : Signal) (price : Q) (date : nat)
    : option t :=
  let commission := price * BacktestConfig.COMMISSION_RATE in
  let slippage := price * BacktestConfig.SLIPPAGE in
  match signal with
  | BUY =>
      if bool_decide (current_position self = 0%Z) then
        let buy_price := price + commission + slippage in
        if Qeq_bool buy_price 0 then None
        else
          let max_shares := pyint (initial_capital self * (3 # 10) / buy_price) in
          if (0 <? max_shares)%Z then
            Some (mk (symbol self) (name self) (initial_capital self)
                     (trend self) (reversion self)
                     (trades self ++
                        [mktrade date BUY (pyround buy_price 2) max_shares None])
                     (equity_curve self) 1 buy_price
                     (S (total_trades self)) (winning_trades self)
                     (losing_trades self))
          else Some self
      else Some self
  | SELL =>
      if bool_decide (current_position self = 1%Z) then
        let sell_price := price - commission - slippage in
        let profit_pct := (sell_price - entry_price self) / entry_price self in
        let win := Qgtb profit_pct 0 in
        Some (mk (symbol self) (name self) (initial_capital self)
                 (trend self) (reversion self)
                 (trades self ++
                    [mktrade date SELL (pyround sell_price 2) 0
                             (Some (pyround (profit_pct * 100) 2))])
                 (equity_curve self) 0 0
                 (total_trades self)
                 (if win then S (winning_trades self) else winning_trades self)
                 (if win then losing_trades self else S (losing_trades self)))
      else Some self
  | HOLD => Some self
  end.

(** [check_stop_loss_take_profit]: the answer and the engine after it. *)
Definition check_stop_loss_take_profit (self : t) (price : Q) (date : nat)
    : option (bool * t) :=
  if bool_decide (current_position self = 0%Z) then Some (false, self)
  else
    let profit_pct := (price - entry_price self) / entry_price self in
    if Qleb profit_pct BacktestConfig.STOP_LOSS then
      self ← execute_trade self SELL price date; Some (true, self)
    else if Qgeb profit_pct BacktestConfig.TAKE_PROFIT then
      let trailing_stop_price := price * (1 - BacktestConfig.TRAILING_STOP) in
      if Qltb (entry_price self) trailing_stop_price then
        self ← execute_trade self SELL price date; Some (true, self)
      else Some (false, self)
    else Some (false, self).

(** The equity recorded for a day, from the state after its trades. *)
Definition equity_of (self : t) (close : Q) : Q :=
  if bool_decide (current_position self = 1%Z) then
    initial_capital self * (3 # 10)
    + (close - entry_price self)
      * (initial_capital self * (3 # 10) / entry_price self)
  else initial_capital self.

Definition record_equity (self : t) (date : nat) (equity : Q) : t :=
  mk (symbol self) (name self) (initial_capital self) (trend self)
     (reversion self) (trades self)
     (equity_curve self ++ [mkpoint date equity])
     (current_position self) (entry_price self) (total_trades self)
     (winning_trades self) (losing_trades self).

Section with_sqrt.
Context `{Sqrt}.

Definition get_signal (self : t) (df : list Bar.t) (i : nat) : option Signal :=
  if (i <? 60)%nat then Some HOLD
  else
    let subset := take (i + 1) df in
    trend_signal ← TrendStrategy.get_signal (trend self) subset;
    reversion_signal ← MeanReversionStrategy.get_signal (reversion self) subset;
    let regime := MarketRegimeDetector.detect subset in
    let score :=
      match regime with
      | TREND_UP =>
          Signal_value trend_signal * (7 # 10) + Signal_value reversion_signal * (3 # 10)
      | TREND_DOWN =>
          Signal_value trend_signal * (7 # 10) + Signal_value reversion_signal * (3 # 10)
      | MEAN_REVERSION =>
          Signal_value reversion_signal * (8 # 10) + Signal_value trend_signal * (2 # 10)
      end in
    if Qgtb score (5 # 10) then Some BUY
    else if Qltb score (- (5 # 10)) then Some SELL
    else Some HOLD.

(** One turn of the daily loop of [run], for row [i]. *)
Definition day (df : list Bar.t) (self : t) (i : nat) : option t :=
  bar ← df !! i;
  let date := Bar.date bar in
  let close := Bar.close bar in
  '(_, self) ← check_stop_loss_take_profit self close date;
  self ← (if bool_decide (current_position self = 0%Z) then
            signal ← get_signal self df i;
            execute_trade self signal close date
          else Some self);
  Some (record_equity self date (equity_of self close)).

(** [run] up to the report: the daily loop, then the forced sale of an
    open position at the last close.  The indicator columns that [run]
    computes first are recomputed by the strategies on every subset and
    are not read otherwise.  An empty frame raises [IndexError] when the
    period is printed. *)
Definition loop (self : t) (df : list Bar.t) : option t :=
  foldl (λ acc i, self ← acc; day df self i) (Some self) (seq 0 (length df)).

Definition run (self : t) (df : list Bar.t) : option t :=
  last_bar ← Series.iloc_last df;
  self ← loop self df;
  if bool_decide (current_position self = 1%Z) then
    execute_trade self SELL (Bar.close last_bar) (Bar.date last_bar)
  else Some self.

End with_sqrt.

End BacktestEngine.

(** ** [backtest.py]: the report *)

(** The power [x ** y] on floats, which the annualised return uses; NaN is
    [None]. *)
Class Power := power : Q → Q → Series.cell.

Module BacktestReport.

Record t := mk {
  symbol : string;
  name : string;
  period_start : nat;
  period_end : nat;
  trading_days : nat;
  initial_capital : Q;
  final_equity : Q;
  total_return : Series.cell;
  annual_return : Series.cell;
  sharpe_ratio : Series.cell;
  max_drawdown : Series.cell;
  total_trades : nat;
  winning_trades : nat;
  losing_trades : nat;
  win_rate : Q;
  trades : list BacktestEngine.trade
}.

(** The draw-down column: [(equity - cummax) / cummax]. *)
Definition drawdown (equity : list Q) : list Series.cell :=
  zip_with (λ e top, Series.div (Series.sub (Some e) (Some top)) (Some top))
           equity (Series.cummax equity).

(** [winning_trades / total_trades if total_trades > 0 else 0] *)
Definition win_rate_of (self : BacktestEngine.t) : Q :=
  if (0 <? BacktestEngine.total_trades self)%nat
  then inject_Z (Z.of_nat (BacktestEngine.winning_trades self))
       / inject_Z (Z.of_nat (BacktestEngine.total_trades self))
  else 0.

Section with_numpy.
Context `{Sqrt} `{Power}.

(** [BacktestEngine.generate_report]; [None] is the empty report [{}] of an
    engine without equity points.  A figure is an undefined cell where
    numpy has NaN or an infinity (a quotient by a zero capital or equity, a
    power without a real value). *)
Definition generate_report (self : BacktestEngine.t) : option t :=
  match BacktestEngine.equity_curve self with
  | [] => None
  | first :: _ =>
      let equity := map BacktestEngine.equity (BacktestEngine.equity_curve self) in
      let dates := map BacktestEngine.date (BacktestEngine.equity_curve self) in
      let returns := Series.pct_change (map Some equity) in
      let last_equity := default 0 (Series.iloc_last equity) in
      let total_return :=
        Series.div (Some (last_equity - BacktestEngine.initial_capital self))
                   (Some (BacktestEngine.initial_capital self)) in
      let years := inject_Z (Z.of_nat (length equity)) / 252 in
      let annual_return :=
        if Qgtb years 0 then
          match total_return with
          | Some r => Series.sub (power (1 + r) (1 / years)) (Some 1)
          | None => None
          end
        else Some 0 in
      let sharpe_ratio :=
        if Series.gt (Series.std_skipna returns) (Some 0) then
          Series.mul (Series.div (Series.mean_skipna returns) (Series.std_skipna returns))
                     (Some (sqrt 252))
        else Some 0 in
      let max_drawdown := Series.min_skipna (drawdown equity) in
      let win_rate := win_rate_of self in
      Some (mk (BacktestEngine.symbol self) (BacktestEngine.name self)
               (BacktestEngine.date first)
               (default 0%nat (Series.iloc_last dates))
               (length equity)
               (BacktestEngine.initial_capital self)
               (pyround last_equity 2)
               (Series.map_cell (λ x, pyround (x * 100) 2) total_return)
               (Series.map_cell (λ x, pyround (x * 100) 2) annual_return)
               (Series.map_cell (λ x, pyround x 2) sharpe_ratio)
               (Series.map_cell (λ x, pyround (x * 100) 2) max_drawdown)
               (BacktestEngine.total_trades self)
               (BacktestEngine.winning_trades self)
               (BacktestEngine.losing_trades self)
               (pyround (win_rate * 100) 2)
               (drop (length (BacktestEngine.trades self) - 20)
                     (BacktestEngine.trades self)))
  end.

(** [BacktestEngine.run] with its return value, the report of the engine
    after the loop and the forced sale.  The outer [None] is an exception of
    the run. *)
Definition run (self : BacktestEngine.t) (df : list Bar.t) : option (option t) :=
  final ← BacktestEngine.run self df;
  Some (generate_report final).

End with_numpy.

End BacktestReport.

(** ** [scanner.py] *)

Definition Signal_name (s : Signal) : string :=
  match s with BUY => "BUY" | SELL => "SELL" | HOLD => "HOLD" end.

Module Scanner.

(** What [str(e)] or the shortage message stand for in an error result. *)
Inductive failure :=
| InsufficientData (rows : nat)
| Exception (e : exn).

(** A successful analysis.  The [pct_change] entry, a copy of a column of
    the fetched frame that bars do not carry, is left out. *)
Record analysis := mkanalysis {
  code : string;
  name : string;
  close : Q;
  regime : string;
  trend : string;
  reversion : string;
  llm : string;
  llm_reason : string;
  signal : string;
  score : Q;
  ma_cross : string
}.

Inductive result :=
| Error (code name : string) (error : failure)
| Analysis (a : analysis).

(** [ScannerEngine()]: the two strategies with their default windows. *)
Record engine := mkengine {
  trend_strategy : TrendStrategy.t;
  reversion_strategy : MeanReversionStrategy.t
}.

Definition init : engine := mkengine TrendStrategy.default MeanReversionStrategy.default.

Section with_sqrt.
Context `{Sqrt}.

(** [ScannerEngine.analyze] on the frame that the fetcher returned.  An
    exception of a strategy is caught and reported as an error result. *)
Definition analyze (self : engine) (code name : string) (df : list Bar.t) : result :=
  if (length df <? 5)%nat then Error code name (InsufficientData (length df))
  else
    let frame := TrendStrategy.calculate (trend_strategy self) df in
    let regime := MarketRegimeDetector.detect df in
    match TrendStrategy.get_signal (trend_strategy self) df,
          MeanReversionStrategy.get_signal (reversion_strategy self) df,
          Series.iloc_last df,
          Series.iloc_last (TrendStrategy.ma_short frame),
          Series.iloc_last (TrendStrategy.ma_long frame) with
    | Some trend_signal, Some reversion_signal, Some latest, Some ma_short, Some ma_long =>
        let score :=
          Signal_value trend_signal * (5 # 10) + Signal_value reversion_signal * (5 # 10) in
        let signal :=
          if Qgtb score (3 # 10) then "BUY"
          else if Qltb score (- (3 # 10)) then "SELL"
          else "HOLD" in
        Analysis
          (mkanalysis code name
             (pyround (Bar.close latest) 2)
             (MarketRegime_value regime)
             (Signal_name trend_signal)
             (Signal_name reversion_signal)
             "SKIP" ""
             signal
             (pyround score 2)
             (if Series.gt ma_short ma_long then "金叉" else "死叉"))
    | _, _, _, _, _ => Error code name (Exception IndexError)
    end.

End with_sqrt.

(** An entry of the watch list. *)
Record watch := mkwatch {
  watch_code : string;
  watch_name : string;
  watch_signal : string;
  watch_score : Q
}.

Record opportunities := mkopportunities {
  buy_signals : list analysis;
  sell_signals : list analysis;
  watch_list : list watch
}.

(** The body of the loop of [find_opportunities]: an error result is
    skipped; an analysis goes to the buy or the sell list by its signal, and
    to the watch list in any case. *)
Definition note (acc : opportunities) (r : result) : opportunities :=
  match r with
  | Error _ _ _ => acc
  | Analysis a =>
      let acc :=
        if String.eqb (signal a) "BUY"
        then mkopportunities (buy_signals acc ++ [a]) (sell_signals acc)
                             (watch_list acc)
        else if String.eqb (signal a) "SELL"
        then mkopportunities (buy_signals acc) (sell_signals acc ++ [a])
                             (watch_list acc)
        else acc in
      mkopportunities (buy_signals acc) (sell_signals acc)
        (watch_list acc ++ [mkwatch (code a) (name a) (signal a) (score a)])
  end.

(** [OpportunityFinder.find_opportunities] *)
Definition find_opportunities (results : list result) : opportunities :=
  foldl note (mkopportunities [] [] []) results.

End Scanner.

(** ** [backtest_v3.py] *)

Module MAStrategy.

Record t := mk { short_ma : nat; long_ma : nat }.

Record frame := mkframe {
  bars : list Bar.t;
  ma_short : list Series.cell;
  ma_long : list Series.cell;
  golden_cross : list Z;
  cross_change : list (option Z)
}.

Definition calculate (self : t) (df : list Bar.t) : frame :=
  let close := map (λ b, Some (Bar.close b)) df in
  let ma_short := Series.rolling (short_ma self) Series.mean close in
  let ma_long := Series.rolling (long_ma self) Series.mean close in
  let golden_cross :=
    zip_with (λ s l, if Series.gt s l then 1%Z else 0%Z) ma_short ma_long in
  mkframe df ma_short ma_long golden_cross (Series.diff golden_cross).

(** [get_signal(df, i)] on a calculated frame; [None] is the [IndexError]
    of [df.iloc[i]]. *)
Definition get_signal (self : t) (df : frame) (i : nat) : option Z :=
  if (i <? long_ma self + 10)%nat then Some 0%Z
  else
    cross_change ← cross_change df !! i;
    if bool_decide (cross_change = Some 1%Z) then Some 1%Z
    else if bool_decide (cross_change = Some (-1)%Z) then Some (-1)%Z
    else Some 0%Z.

End MAStrategy.

Module BacktestV3.

Record trade := mktrade {
  trade_date : nat;
  action : Signal;
  price : Q;
  profit : option Q
}.

Record equity_point := mkpoint { date : nat; equity : Q }.

(** The local variables of [backtest_with_chart]. *)
Record t := mk {
  capital : Q;
  position : Z;
  shares : Z;
  entry_price : Q;
  trades : list trade;
  equity_curve : list equity_point
}.

Definition start : t := mk 100000 0 0 0 [] [].

(** One turn of the loop, for row [i]; [None] is an exception ([int()] of
    the quotient by a zero price, or a row out of range). *)
Definition day (strategy : MAStrategy.t) (df : MAStrategy.frame)
    (st : t) (i : nat) : option t :=
  bar ← MAStrategy.bars df !! i;
  let date := Bar.date bar in
  let price := Bar.close bar in
  signal ← MAStrategy.get_signal strategy df i;
  st ← (if bool_decide (signal = 1%Z) && bool_decide (position st = 0%Z) then
          if Qeq_bool price 0 then None
          else
            let shares := pyint (capital st / price) in
            let cost := inject_Z shares * price in
            Some (mk (capital st - cost) 1 shares price
                     (trades st ++ [mktrade date BUY price None])
                     (equity_curve st))
        else if bool_decide (signal = (-1)%Z) && bool_decide (position st = 1%Z) then
          let revenue := inject_Z (shares st) * price in
          let profit_pct := (price - entry_price st) / entry_price st * 100 in
          Some (mk (capital st + revenue) 0 (shares st) (entry_price st)
                   (trades st ++ [mktrade date SELL price (Some profit_pct)])
                   (equity_curve st))
        else Some st);
  let equity :=
    if bool_decide (position st = 1%Z)
    then capital st + inject_Z (shares st) * price
    else capital st in
  Some (mk (capital st) (position st) (shares st) (entry_price st) (trades st)
           (equity_curve st ++ [mkpoint date equity])).

(** [backtest_with_chart] from the fetched frame to the final capital:
    the loop over rows 70.., then the closing sale.  Charting and the
    printed summary are not part of the model. *)
Definition loop (strategy : MAStrategy.t) (df : MAStrategy.frame) (st : t)
    : option t :=
  foldl (λ acc i, st ← acc; day strategy df st i) (Some st)
        (seq 70 (length (MAStrategy.bars df) - 70)).

Definition backtest_with_chart (df : list Bar.t) : option t :=
  last_bar ← Series.iloc_last df;
  let strategy := MAStrategy.mk 20 60 in
  let df := MAStrategy.calculate strategy df in
  st ← loop strategy df start;
  if bool_decide (position st = 1%Z) then
    let final := inject_Z (shares st) * Bar.close last_bar in
    Some (mk (capital st + final) (position st) (shares st) (entry_price st)
             (trades st) (equity_curve st))
  else Some st.

End BacktestV3.

(** ** A computable square root, for running the model on data

    [Qsqrt x] is the square root of [x] truncated to twelve decimals. *)

Definition Qsqrt : Sqrt :=
  λ x, if Qle_bool x 0 then 0
       else Z.sqrt (Qnum x * 10 ^ 24 / Z.pos (Qden x)) # 10 ^ 12.

(** A power function for running the model on data: [x ** y] where the
    exponent is an integer and the result a number, undefined elsewhere. *)

Definition power_of_integer : Power :=
  λ x y,
    let e := Qred y in
    if negb (Z.pos (Qden e) =? 1)%Z then None
    else if Qeq_bool x 0 && (Qnum e <? 0)%Z then None
    else Some (Qpower x (Qnum e)).

(** * The decisions of the program in binary64

    A comparison that sits on a threshold is decided by the rounding of the
    numbers compared.  The code whose claims depend on such a comparison is
    embedded a second time here, on IEEE 754 binary64 numbers and operation
    by operation as Python evaluates it: [spec_float] of the Standard
    Library with a precision of 53 bits, round to nearest even, NaN,
    infinities and signed zeros.  The operations of pandas on a column are
    parameters. *)

Module F64.

Definition t := spec_float.

Definition prec : Z := 53.
Definition emax : Z := 1024.

Definition nan : t := S754_nan.
Definition zero : t := S754_zero false.

Definition is_nan (x : t) : bool :=
  match x with S754_nan => true | _ => false end.

(** The float of an integer, as Python converts an [int] operand. *)
Definition of_Z (n : Z) : t := binary_normalize prec emax n 0 false.
Definition of_nat (n : nat) : t := of_Z (Z.of_nat n).

Definition add : t → t → t := SFadd prec emax.
Definition sub : t → t → t := SFsub prec emax.
Definition mul : t → t → t := SFmul prec emax.
Definition div : t → t → t := SFdiv prec emax.
Definition sqrt : t → t := SFsqrt prec emax.
Definition opp : t → t := SFopp.

(** Comparisons: false when an operand is NaN. *)
Definition lt (x y : t) : bool := SFltb x y.
Definition gt (x y : t) : bool := SFltb y x.
Definition eq (x y : t) : bool := SFeqb x y.

(** The decimal literal [n / d] of the source, for [d] a power of ten:
    the double nearest to it. *)
Definition dec (n d : Z) : t := div (of_Z n) (of_Z d).

(** The number that a finite float stands for. *)
Definition to_Q (x : t) : option Q :=
  match x with
  | S754_zero _ => Some 0
  | S754_finite s m e => Some (inject_Z (cond_Zopp s (Z.pos m)) * Qpower 2 e)
  | S754_infinity _ => None
  | S754_nan => None
  end.

End F64.

(** The operations of pandas that the strategies call on a float column;
    NaN is [F64.nan]. *)
Class Pandas := {
  rolling_mean : nat → list F64.t → list F64.t;
  rolling_std : nat → list F64.t → list F64.t;
  pct_change : list F64.t → list F64.t;
  mean : list F64.t → F64.t
}.

Module Binary64.

Module Bar.
Record t := mk {
  date : nat;
  open : F64.t;
  high : F64.t;
  low : F64.t;
  close : F64.t;
  volume : F64.t
}.
End Bar.

(** [Signal.value], an [int]. *)
Definition Signal_value (s : Signal) : Z :=
  match s with BUY => 1 | SELL => -1 | HOLD => 0 end.

(** The sign written over a difference of the cross column. *)
Definition clip : option Z → option Z := TrendStrategy.clip.

Module TrendStrategy.

Record t := mk { short_ma : nat; long_ma : nat }.

Definition default : t := mk Config.SHORT_MA Config.LONG_MA.

Record frame := mkframe {
  bars : list Bar.t;
  ma_short : list F64.t;
  ma_long : list F64.t;
  ma_cross : list Z;
  ma_signal : list (option Z)
}.

Section with_pandas.
Context `{Pandas}.

Definition calculate (self : t) (df : list Bar.t) : frame :=
  let close := map Bar.close df in
  let ma_short := rolling_mean (short_ma self) close in
  let ma_long := rolling_mean (long_ma self) close in
  let ma_cross :=
    zip_with (λ s l,
              let c := 0%Z in
              let c := if F64.gt s l then 1%Z else c in
              let c := if F64.lt s l then (-1)%Z else c in
              c)
             ma_short ma_long in
  let ma_signal := map clip (Series.diff ma_cross) in
  mkframe df ma_short ma_long ma_cross ma_signal.

(** [get_signal]; [None] is the [IndexError] of [df.iloc[-1]] on an empty
    frame. *)
Definition get_signal (self : t) (df : list Bar.t) : option Signal :=
  let df := calculate self df in
  if (length (bars df) <? long_ma self)%nat then Some HOLD
  else
    match Series.iloc_last (ma_signal df), Series.iloc_last (ma_cross df) with
    | Some ma_signal, Some ma_cross =>
        if bool_decide (ma_signal = Some 1%Z) then Some BUY
        else if bool_decide (ma_signal = Some (-1)%Z) then Some SELL
        else if bool_decide (ma_cross = 1%Z) then Some HOLD
        else Some HOLD
    | _, _ => None
    end.

End with_pandas.

End TrendStrategy.

Module MeanReversionStrategy.

Record t := mk { window : nat; std_multiplier : F64.t }.

Definition default : t := mk Config.REVERSION_WINDOW (F64.of_Z 2).

Record frame := mkframe {
  bars : list Bar.t;
  ma : list F64.t;
  std : list F64.t;
  upper : list F64.t;
  lower : list F64.t;
  position : list F64.t
}.

Section with_pandas.
Context `{Pandas}.

Definition calculate (self : t) (df : list Bar.t) : frame :=
  let close := map Bar.close df in
  let ma := rolling_mean (window self) close in
  let std := rolling_std (window self) close in
  let upper := zip_with (λ m s, F64.add m (F64.mul (std_multiplier self) s)) ma std in
  let lower := zip_with (λ m s, F64.sub m (F64.mul (std_multiplier self) s)) ma std in
  let position :=
    zip_with (λ c ul, F64.div (F64.sub c (snd ul)) (F64.sub (fst ul) (snd ul)))
             close (zip upper lower) in
  mkframe df ma std upper lower position.

Definition get_signal (self : t) (df : list Bar.t) : option Signal :=
  let df := calculate self df in
  if (length (bars df) <? window self)%nat then Some HOLD
  else
    match Series.iloc_last (bars df), Series.iloc_last (upper df),
          Series.iloc_last (lower df), Series.iloc_last (position df) with
    | Some bar, Some upper, Some lower, Some position =>
        let close := Bar.close bar in
        if F64.lt close lower then Some BUY
        else if F64.gt close upper then Some SELL
        else if F64.lt position (F64.dec 2 10) then Some BUY
        else if F64.gt position (F64.dec 8 10) then Some SELL
        else Some HOLD
    | _, _, _, _ => None
    end.

End with_pandas.

End MeanReversionStrategy.

Module MarketRegimeDetector.

Section with_pandas.
Context `{Pandas}.

(** [detect]; after the length guard the frame is not empty: a missing
    last cell reads as NaN. *)
Definition detect (df : list Bar.t) : MarketRegime :=
  if (length df <? 20)%nat then MEAN_REVERSION
  else
    let close := map Bar.close df in
    let returns := pct_change close in
    let volatility := rolling_std 20 returns in
    let ma20 := rolling_mean 20 close in
    let ma60 := rolling_mean 60 close in
    let current_vol := default F64.nan (Series.iloc_last volatility) in
    let avg_vol := mean volatility in
    if F64.gt current_vol (F64.mul avg_vol (F64.dec 12 10)) then MEAN_REVERSION
    else if F64.gt (default F64.nan (Series.iloc_last ma20))
                   (default F64.nan (Series.iloc_last ma60))
         then TREND_UP
         else TREND_DOWN.

End with_pandas.

End MarketRegimeDetector.

Module StrategyEnsemble.

Record weights := mkweights { trend : F64.t; reversion : F64.t; llm : F64.t }.

(** The engine: the two strategies with their default windows, the API key
    of the advisory strategy and what the remote service answers for a
    frame ([analyze_technical] catches its own failures and then answers
    HOLD). *)
Record t := mk {
  trend_strategy : TrendStrategy.t;
  reversion_strategy : MeanReversionStrategy.t;
  llm_api_key : string;
  llm_analyze_technical : list Bar.t → Signal
}.

Definition init (api_key : string) (advisor : list Bar.t → Signal) : t :=
  mk TrendStrategy.default MeanReversionStrategy.default api_key advisor.

Record result := mkresult {
  signal : Signal;
  score : F64.t;
  market_regime : string;
  trend_signal : Signal;
  reversion_signal : Signal;
  llm_signal : Signal;
  result_weights : weights
}.

Section with_pandas.
Context `{Pandas}.

(** [get_ensemble_signal]; [None] is an exception of a strategy.  The
    value of a signal is an [int], converted when it meets its weight; the
    sum is taken from the left. *)
Definition get_ensemble_signal (self : t) (df : list Bar.t)
    (market_regime : option MarketRegime) : option result :=
  let market_regime :=
    match market_regime with
    | None => MarketRegimeDetector.detect df
    | Some r => r
    end in
  trend_signal ← TrendStrategy.get_signal (trend_strategy self) df;
  reversion_signal ← MeanReversionStrategy.get_signal (reversion_strategy self) df;
  let weights :=
    match market_regime with
    | TREND_UP => mkweights (F64.dec 5 10) (F64.dec 2 10) (F64.dec 3 10)
    | TREND_DOWN => mkweights (F64.dec 5 10) (F64.dec 1 10) (F64.dec 4 10)
    | MEAN_REVERSION => mkweights (F64.dec 2 10) (F64.dec 5 10) (F64.dec 3 10)
    end in
  let llm_signal :=
    if String.eqb (llm_api_key self) "" then HOLD
    else llm_analyze_technical self df in
  let score :=
    F64.add
      (F64.add (F64.mul (F64.of_Z (Signal_value trend_signal)) (trend weights))
               (F64.mul (F64.of_Z (Signal_value reversion_signal)) (reversion weights)))
      (F64.mul (F64.of_Z (Signal_value llm_signal)) (llm weights)) in
  let final_signal :=
    if F64.gt score (F64.dec 3 10) then BUY
    else if F64.lt score (F64.opp (F64.dec 3 10)) then SELL
    else HOLD in
  Some (mkresult final_signal score (MarketRegime_value market_regime)
                 trend_signal reversion_signal llm_signal weights).

End with_pandas.

End StrategyEnsemble.

Module Position.

Record t := mk {
  code : string;
  name : string;
  quantity : F64.t;
  avg_cost : F64.t;
  entry_date : string;
  highest_price : F64.t
}.

Definition init (code name : string) (quantity avg_cost : F64.t)
    (entry_date : string) : t :=
  mk code name quantity avg_cost entry_date avg_cost.

Definition set_quantity (p : t) (q : F64.t) : t :=
  mk (code p) (name p) q (avg_cost p) (entry_date p) (highest_price p).

Definition set_avg_cost (p : t) (c : F64.t) : t :=
  mk (code p) (name p) (quantity p) c (entry_date p) (highest_price p).

End Position.

Module Portfolio.

Record t := mk {
  initial_balance : F64.t;
  cash : F64.t;
  positions : gmap string Position.t
}.

Definition init (initial_balance : F64.t) : t := mk initial_balance initial_balance ∅.

Definition set_positions (self : t) (m : gmap string Position.t) : t :=
  mk (initial_balance self) (cash self) m.

Inductive outcome (A : Type) :=
| Returned (a : A) (self : t)
| Raised (e : exn) (self : t).
Arguments Returned {A} a self.
Arguments Raised {A} e self.

(** [buy]: the cost is the rounded product, and it is the rounded product
    that the guard compares with the cash. *)
Definition buy (self : t) (code name : string) (price quantity : F64.t)
    (today : string) : outcome bool :=
  let cost := F64.mul price quantity in
  if F64.gt cost (cash self) then Returned false self
  else
    match positions self !! code with
    | Some pos =>
        let total_cost :=
          F64.add (F64.mul (Position.avg_cost pos) (Position.quantity pos))
                  (F64.mul price quantity) in
        let pos := Position.set_quantity pos (F64.add (Position.quantity pos) quantity) in
        if F64.eq (Position.quantity pos) F64.zero then
          Raised ZeroDivisionError
                 (set_positions self (<[code := pos]> (positions self)))
        else
          let pos :=
            Position.set_avg_cost pos (F64.div total_cost (Position.quantity pos)) in
          Returned true
            (mk (initial_balance self) (F64.sub (cash self) cost)
                (<[code := pos]> (positions self)))
    | None =>
        Returned true
          (mk (initial_balance self) (F64.sub (cash self) cost)
              (<[code := Position.init code name quantity price today]>
                 (positions self)))
    end.

End Portfolio.

End Binary64.

(** ** The operations of pandas, for running the model on data

    Every window is summed from its first row, each step rounded; the
    standard deviation has [ddof = 1].  pandas keeps running sums instead:
    the two give the same cells where the sums are exact. *)

Definition windowed_cells (w : nat) (agg : list F64.t → F64.t) (col : list F64.t)
    : list F64.t :=
  map (λ i, if ((w =? 0) || (i + 1 <? w))%nat then F64.nan
            else agg (take w (drop (i + 1 - w) col)))
      (seq 0 (length col)).

Definition windowed_sum (xs : list F64.t) : F64.t := foldl F64.add F64.zero xs.

Definition windowed_mean (xs : list F64.t) : F64.t :=
  F64.div (windowed_sum xs) (F64.of_nat (length xs)).

Definition windowed_std (xs : list F64.t) : F64.t :=
  let m := windowed_mean xs in
  F64.sqrt (F64.div (windowed_sum (map (λ x, F64.mul (F64.sub x m) (F64.sub x m)) xs))
                    (F64.of_Z (Z.of_nat (length xs) - 1))).

Definition windowed : Pandas := {|
  rolling_mean w col := windowed_cells w windowed_mean col;
  rolling_std w col := windowed_cells w windowed_std col;
  pct_change col :=
    map (λ i, match i with
              | O => F64.nan
              | S j =>
                  F64.sub (F64.div (default F64.nan (col !! i))
                                   (default F64.nan (col !! j)))
                          (F64.of_Z 1)
              end)
        (seq 0 (length col));
  mean col :=
    windowed_mean (omap (λ x, if F64.is_nan x then None else Some x) col)
|}.

(** * Notions used in the statements *)

(** ** Ledger *)


Definition quantities_nonneg (pf : Portfolio.t) : Prop :=
  ∀ code pos, Portfolio.positions pf !! code = Some pos → 0 <= Position.quantity pos.

(** A call whose quantity is not negative and, for a sale, whose price is
    not negative either. *)
Definition nonneg_call (c : Portfolio.call) : Prop :=
  match c with
  | Portfolio.Buy _ _ _ quantity _ => 0 <= quantity
  | Portfolio.Sell _ price quantity =>
      0 <= price ∧ ∀ q, quantity = Some q → 0 <= q
  end.


(** ** The cross column of a calculated frame

    What [calculate] writes, row by row: [cross_state] is +1 where the
    short average of the frame is above the long one, -1 where it is below,
    0 where they are equal or one is undefined; [cross_event] is the
    direction of its change against the prior row, undefined on the first
    row and outside the frame. *)

Definition cross_state (self : TrendStrategy.t) (df : list Bar.t) (t : nat) : Z :=
  let f := TrendStrategy.calculate self df in
  match TrendStrategy.ma_short f !! t, TrendStrategy.ma_long f !! t with
  | Some (Some s), Some (Some l) =>
      if Qltb l s then 1%Z else if Qltb s l then (-1)%Z else 0%Z
  | _, _ => 0%Z
  end.

Definition cross_event (self : TrendStrategy.t) (df : list Bar.t) (t : nat)
    : option Z :=
  match t with
  | O => None
  | S p =>
      if (t <? length df)%nat
      then Some (Z.sgn (cross_state self df t - cross_state self df p))
      else None
  end.

(** ** Columns that agree on a prefix

    Two columns hold the same cells on rows [0..t]. *)

Definition agree_upto {A} (t : nat) (l1 l2 : list A) : Prop :=
  ∀ i, (i ≤ t)%nat → l1 !! i = l2 !! i.

(** The derived cells of row [t] of a calculated frame. *)

Definition trend_row (f : TrendStrategy.frame) (t : nat) :=
  (TrendStrategy.ma_short f !! t, TrendStrategy.ma_long f !! t,
   TrendStrategy.ma_cross f !! t, TrendStrategy.ma_signal f !! t).

Definition reversion_row (f : MeanReversionStrategy.frame) (t : nat) :=
  (MeanReversionStrategy.ma f !! t, MeanReversionStrategy.std f !! t,
   MeanReversionStrategy.upper f !! t, MeanReversionStrategy.lower f !! t,
   MeanReversionStrategy.position f !! t).

(** ** Mark-to-market value

    In [backtest_with_chart] the cash is [capital] and the position is
    [shares] while [position] is 1; the value at a price is cash plus
    quantity times price. *)

Definition v3_quantity (st : BacktestV3.t) : Q :=
  if bool_decide (BacktestV3.position st = 1%Z) then inject_Z (BacktestV3.shares st)
  else 0.

Definition v3_value (st : BacktestV3.t) (price : Q) : Q :=
  BacktestV3.capital st + v3_quantity st * price.

(** ** Value of the holdings under a list of quotes

    [holdings_value] adds up the value of the quoted holdings;
    [held_value] is the value of one holding at a price, 0 when the symbol
    is not held. *)

Definition holdings_value (positions : gmap string Position.t)
    (quotes : list (string * Q)) : Q :=
  foldr (λ kv acc,
         match positions !! kv.1 with
         | Some pos => acc + Position.get_value pos kv.2
         | None => acc
         end)
        0 quotes.

Definition held_value (positions : gmap string Position.t) (code : string)
    (price : Q) : Q :=
  match positions !! code with
  | Some pos => Position.get_value pos price
  | None => 0
  end.

(** ** The state of the back-test engine

    The engine is flat with a zero entry price or long; every purchase is
    counted in [total_trades], every sale as a win or a loss, and every
    trade is logged once. *)

Definition engine_consistent (self : BacktestEngine.t) : Prop :=
  (BacktestEngine.current_position self = 0%Z
   ∨ BacktestEngine.current_position self = 1%Z)
  ∧ Z.of_nat (BacktestEngine.total_trades self)
    = (Z.of_nat (BacktestEngine.winning_trades self)
       + Z.of_nat (BacktestEngine.losing_trades self)
       + BacktestEngine.current_position self)%Z
  ∧ length (BacktestEngine.trades self)
    = (BacktestEngine.total_trades self + BacktestEngine.winning_trades self
       + BacktestEngine.losing_trades self)%nat.

(** The capital is positive, an open position was entered at a positive
    price, and every recorded equity is positive. *)


(** ** Scan results

    The analyses among the results of a scan, in order, and the watch-list
    entry of an analysis. *)

Definition analyses_of (results : list Scanner.result) : list Scanner.analysis :=
  omap (λ r, match r with
             | Scanner.Analysis a => Some a
             | Scanner.Error _ _ _ => None
             end) results.

Definition watch_of (a : Scanner.analysis) : Scanner.watch :=
  Scanner.mkwatch (Scanner.code a) (Scanner.name a) (Scanner.signal a) (Scanner.score a).

(** ** The columns of pandas

    What the statements use of the operations of pandas: a rolling column
    is as long as its column, and a rolling mean is NaN while fewer rows
    than the window exist. *)

Definition pandas_shape (P : Pandas) : Prop :=
  (∀ w col, length (rolling_mean w col) = length col)
  ∧ (∀ w col, length (rolling_std w col) = length col)
  ∧ (∀ w col i x, (i + 1 < w)%nat → rolling_mean w col !! i = Some x → x = F64.nan).

(** ** Crossovers of the averages as the program computes them

    The averages are the rolling means of the closes over the two windows;
    the state and the event are those of the specification, read on these
    columns with the comparison of floats. *)

Section computed_cross.
Context `{Pandas}.

Definition computed_average (w : nat) (df : list Binary64.Bar.t) (t : nat)
    : option F64.t :=
  rolling_mean w (map Binary64.Bar.close df) !! t.

Definition computed_cross_state
    (self : Binary64.TrendStrategy.t) (df : list Binary64.Bar.t) (t : nat) : Z :=
  match computed_average (Binary64.TrendStrategy.short_ma self) df t,
        computed_average (Binary64.TrendStrategy.long_ma self) df t with
  | Some s, Some l => if F64.gt s l then 1%Z else if F64.lt s l then (-1)%Z else 0%Z
  | _, _ => 0%Z
  end.

Definition computed_cross_event
    (self : Binary64.TrendStrategy.t) (df : list Binary64.Bar.t) (t : nat)
    : option Z :=
  match t with
  | O => None
  | S p =>
      if (t <? length df)%nat
      then Some (Z.sgn (computed_cross_state self df t - computed_cross_state self df p))
      else None
  end.

End computed_cross.

(** The average of the [w] closes that end at row [t], as a number: the
    moving average of the specification. *)
Definition exact_average (w : nat) (df : list Binary64.Bar.t) (t : nat) : option Q :=
  if ((w =? 0) || (t + 1 <? w))%nat then None
  else
    xs ← mapM (λ b, F64.to_Q (Binary64.Bar.close b)) (take w (drop (t + 1 - w) df));
    Series.mean xs.

(** ** The score of the ensemble, in the words of the specification

    The strength of a signal, the weight table by regime in tenths, the
    score as a number and the decision it gives; then the same sum as the
    program evaluates it, every product and every sum rounded, from the
    left. *)

Definition strength (s : Signal) : Z :=
  match s with BUY => 1 | HOLD => 0 | SELL => -1 end.

Definition weight_table (regime : MarketRegime) : Z * Z * Z :=
  match regime with
  | TREND_UP => (5, 2, 3)
  | TREND_DOWN => (5, 1, 4)
  | MEAN_REVERSION => (2, 5, 3)
  end%Z.

Definition exact_score (regime : MarketRegime) (trend reversion advisory : Signal) : Q :=
  let '(wt, wr, wa) := weight_table regime in
  inject_Z (strength trend) * (wt # 10)
  + inject_Z (strength reversion) * (wr # 10)
  + inject_Z (strength advisory) * (wa # 10).

Definition exact_decision (regime : MarketRegime) (trend reversion advisory : Signal)
    : Signal :=
  let score := exact_score regime trend reversion advisory in
  if Qgtb score (3 # 10) then BUY
  else if Qltb score (- (3 # 10)) then SELL
  else HOLD.

Definition computed_score (regime : MarketRegime) (trend reversion advisory : Signal)
    : F64.t :=
  let '(wt, wr, wa) := weight_table regime in
  F64.add
    (F64.add (F64.mul (F64.of_Z (strength trend)) (F64.dec wt 10))
             (F64.mul (F64.of_Z (strength reversion)) (F64.dec wr 10)))
    (F64.mul (F64.of_Z (strength advisory)) (F64.dec wa 10)).

(** The cells of the table where the rounded sum leaves the threshold it
    sits on: a down-trend in which the trend strategy holds and the
    advisory signal opposes the reversion signal. *)
Definition rounds_off_threshold
    (regime : MarketRegime) (trend reversion advisory : Signal) : bool :=
  match regime, trend, reversion, advisory with
  | TREND_DOWN, HOLD, SELL, BUY | TREND_DOWN, HOLD, BUY, SELL => true
  | _, _, _, _ => false
  end.

(** ** Sample data *)

(** [n] bars that all trade at [c], dated from day [d0]. *)
Definition flat (n : nat) (c : Q) (d0 : nat) : list Bar.t :=
  map (λ i, Bar.mk (d0 + i) c c c c 0) (seq 0 n).

(** Sixty days at 100 and then a close at 96. *)
Definition sixty_flat_then_drop : list Bar.t :=
  flat 60 100 0 ++ [Bar.mk 60 96 96 96 96 0].

(** The same, followed by a close at 130. *)
Definition drop_then_rally : list Bar.t :=
  sixty_flat_then_drop ++ [Bar.mk 61 130 130 130 130 0].

(** The engine after a run over the sixty days and the drop; the new engine
    stands in if the run raises. *)
Definition engine_after_drop : BacktestEngine.t :=
  default (BacktestEngine.init "510050" "ETF" 100000)
          (@BacktestEngine.run Qsqrt (BacktestEngine.init "510050" "ETF" 100000)
             sixty_flat_then_drop).


(** Seventy-five days at 100 and a close at 110: the 20-day average moves
    above the 60-day average on the last row. *)
Definition flat_then_rise : list Bar.t :=
  flat 75 100 0 ++ [Bar.mk 75 110 110 110 110 0].

(** Twenty closes at 10 and one close at 10.000000000000002, the next
    double above 10: 5629499534213121 times 2^-49. *)
Definition twenty_flat_then_tick : list Binary64.Bar.t :=
  map (λ i, let c := F64.of_Z 10 in Binary64.Bar.mk i c c c c F64.zero) (seq 0 20)
  ++ [let c := S754_finite false 5629499534213121 (-49) in
      Binary64.Bar.mk 20 c c c c F64.zero].

(** Eight closes that rise and then fall, for windows of 2 and 3 days. *)
Definition rise_and_fall64 : list Binary64.Bar.t :=
  map (λ ic : nat * Z,
       let c := F64.of_Z (snd ic) in Binary64.Bar.mk (fst ic) c c c c F64.zero)
      [(0%nat, 10%Z); (1%nat, 10%Z); (2%nat, 10%Z); (3%nat, 13%Z); (4%nat, 14%Z);
       (5%nat, 15%Z); (6%nat, 9%Z); (7%nat, 8%Z)].

(** Twenty closes at 10, then 11, then 13: the averages crossed the day
    before, and the last close is above the upper band. *)
Definition jump_after_cross : list Binary64.Bar.t :=
  map (λ ic : nat * Z,
       let c := F64.of_Z (snd ic) in Binary64.Bar.mk (fst ic) c c c c F64.zero)
      (map (λ i, (i, 10%Z)) (seq 0 20) ++ [(20%nat, 11%Z); (21%nat, 13%Z)]).

(** Number of defined cells of a column. *)
Definition observations (col : list Series.cell) : nat := length (omap id col).


(** * Properties *)

(** ** Comparisons *)

Lemma Qltb_lt (x y : Q) : Qltb x y = true ↔ x < y.
Proof.
  unfold Qltb. rewrite negb_true_iff.
  destruct (Qle_bool y x) eqn:E.
  - apply Qle_bool_iff in E. split; [discriminate | intros; lra].
  - split; [intros _ | reflexivity].
    destruct (Qlt_le_dec x y) as [L | L]; [exact L |].
    apply Qle_bool_iff in L. congruence.
Qed.

Lemma Qltb_ge (x y : Q) : Qltb x y = false ↔ y <= x.
Proof.
  destruct (Qltb x y) eqn:E.
  - apply Qltb_lt in E. split; [discriminate | intros; lra].
  - split; [intros _ | reflexivity].
    destruct (Qlt_le_dec x y) as [L | L]; [| exact L].
    apply Qltb_lt in L. congruence.
Qed.

Lemma Qleb_le (x y : Q) : Qleb x y = true ↔ x <= y.
Proof. apply Qle_bool_iff. Qed.

Lemma Qleb_gt (x y : Q) : Qleb x y = false ↔ y < x.
Proof.
  unfold Qleb. rewrite <- Qltb_lt. unfold Qltb.
  destruct (Qle_bool x y); simpl; split; congruence.
Qed.

Lemma Qgtb_gt (x y : Q) : Qgtb x y = true ↔ y < x.
Proof. apply Qltb_lt. Qed.

Lemma Qgtb_le (x y : Q) : Qgtb x y = false ↔ x <= y.
Proof. apply Qltb_ge. Qed.

Lemma Qgeb_ge (x y : Q) : Qgeb x y = true ↔ y <= x.
Proof. apply Qle_bool_iff. Qed.

Lemma Qgeb_lt (x y : Q) : Qgeb x y = false ↔ x < y.
Proof. apply Qleb_gt. Qed.

(** ** The ledger: [Portfolio.buy] and [Portfolio.sell] *)




(** Steps of the two invariants. *)

Lemma buy_keeps_cash_nonneg
    (pf : Portfolio.t) (code name : string) (price quantity : Q) (today : string) :
  0 <= Portfolio.cash pf →
  0 <= Portfolio.cash (Portfolio.state_of (Portfolio.buy pf code name price quantity today)).
Proof.
  intros Hcash. unfold Portfolio.buy.
  destruct (Qgtb (price * quantity) (Portfolio.cash pf)) eqn:E; [exact Hcash |].
  apply Qgtb_le in E.
  destruct (Portfolio.positions pf !! code) as [pos|]; simpl.
  - destruct (Qeq_bool _ 0); simpl; [exact Hcash | lra].
  - lra.
Qed.

Lemma buy_keeps_quantities (R : Q → Prop) (pf : Portfolio.t)
    (code name : string) (price quantity : Q) (today : string) :
  (∀ code pos, Portfolio.positions pf !! code = Some pos → R (Position.quantity pos)) →
  R quantity →
  (∀ pos, Portfolio.positions pf !! code = Some pos →
          R (Position.quantity pos + quantity)) →
  ∀ k pos, Portfolio.positions
             (Portfolio.state_of (Portfolio.buy pf code name price quantity today)) !! k
           = Some pos →
           R (Position.quantity pos).
Proof.
  intros Hinv Hq Hadd k pos. unfold Portfolio.buy.
  destruct (Qgtb (price * quantity) (Portfolio.cash pf)); [apply Hinv |].
  destruct (Portfolio.positions pf !! code) as [old|] eqn:Hold; simpl.
  - destruct (Qeq_bool _ 0); simpl; rewrite lookup_insert;
      case_decide; try apply Hinv; intros [= <-]; simpl; apply Hadd; reflexivity.
  - rewrite lookup_insert. case_decide; [| apply Hinv].
    intros [= <-]. exact Hq.
Qed.


Lemma sell_quantity_nonneg (pos : Position.t) (req : option Q) :
  0 <= Position.quantity pos →
  (∀ q, req = Some q → 0 <= q) →
  0 <= Portfolio.sell_quantity pos req.
Proof.
  intros Hpos Hreq. destruct req as [q|]; simpl; [| exact Hpos].
  destruct (Qgeb q (Position.quantity pos)); [exact Hpos | auto].
Qed.

Lemma do_call_keeps_cash_nonneg (pf : Portfolio.t) (c : Portfolio.call) :
  nonneg_call c →
  0 <= Portfolio.cash pf ∧ quantities_nonneg pf →
  0 <= Portfolio.cash (Portfolio.do_call pf c)
  ∧ quantities_nonneg (Portfolio.do_call pf c).
Proof.
  intros Hc [Hcash Hinv]. destruct c as [code name price quantity today | code price req];
    simpl in *.
  - split; [apply buy_keeps_cash_nonneg; exact Hcash |].
    refine (buy_keeps_quantities (λ q, 0 <= q) pf code name price quantity today
                                 Hinv Hc _).
    intros pos Hpos. specialize (Hinv _ _ Hpos). simpl in Hinv. lra.
  - destruct Hc as [Hprice Hreq]. unfold Portfolio.sell.
    destruct (Portfolio.positions pf !! code) as [old|] eqn:Hold; simpl;
      [| split; assumption].
    pose proof (sell_quantity_nonneg old req (Hinv _ _ Hold) Hreq) as Hsold.
    split.
    + assert (0 <= price * Portfolio.sell_quantity old req)
        by (apply Qmult_le_0_compat; assumption).
      lra.
    + intros k pos. destruct (Qleb _ 0) eqn:E; simpl.
      * rewrite lookup_delete. case_decide; [discriminate | apply Hinv].
      * rewrite lookup_insert. case_decide; [| apply Hinv].
        intros [= <-]. simpl. apply Qleb_gt in E. lra.
Qed.


(** C3, as the code has it.  From a ledger with non-negative cash and no
    negative holding, any finite sequence of [buy] and [sell] calls whose
    quantities are not negative and whose sale prices are not negative
    leaves the cash non-negative. *)
Theorem cash_never_negative (pf : Portfolio.t) (cs : list Portfolio.call) :
  0 <= Portfolio.cash pf →
  quantities_nonneg pf →
  Forall nonneg_call cs →
  0 <= Portfolio.cash (Portfolio.run_calls pf cs).
Proof.
  intros Hcash Hinv Hcs.
  assert (0 <= Portfolio.cash pf ∧ quantities_nonneg pf) as H by (split; assumption).
  clear Hcash Hinv. revert pf H.
  induction Hcs as [| c cs Hc _ IH]; intros pf H; simpl.
  - apply H.
  - apply IH. apply do_call_keeps_cash_nonneg; assumption.
Qed.

Lemma cash_never_negative_witness :
  0 <= Portfolio.cash
         (Portfolio.run_calls (Portfolio.init 100000)
            [Portfolio.Buy "600519" "Moutai" 1800 10 "2026-01-05";
             Portfolio.Sell "600519" 1900 (Some 4);
             Portfolio.Buy "000001" "PingAn" 12 9000 "2026-01-06";
             Portfolio.Sell "600519" 1700 None]).
Proof.
  apply (cash_never_negative (Portfolio.init 100000)).
  - discriminate.
  - intros code pos Hpos. simpl in Hpos. rewrite lookup_empty in Hpos. discriminate.
  - repeat constructor; simpl; try discriminate; intros q [= <-]; discriminate.
Defined.

(** C3 as stated fails: a sale with a negative quantity is not refused, it
    debits the cash.  A fresh ledger of 1000 buys 100 shares at 10, then
    "sells" -5 shares at 10: the cash is -50. *)
Lemma cash_negative_after_negative_sale :
  0 <= Portfolio.cash (Portfolio.init 1000)
  ∧ Portfolio.cash
      (Portfolio.run_calls (Portfolio.init 1000)
         [Portfolio.Buy "600519" "Moutai" 10 100 "2026-01-05";
          Portfolio.Sell "600519" 10 (Some (- 5))])
    < 0.
Proof. split; [discriminate | reflexivity]. Qed.




(** ** Take-profit with trailing stop *)

(** [RiskManager.check_take_profit] answers on every non-zero entry price,
    and answers yes exactly when the gain has reached the take-profit line
    and the price is at or below the trailing-stop price under the
    high-water mark. *)
Lemma check_take_profit_iff (rm : RiskManager.t) (e c h : Q) :
  ¬ e == 0 →
  ∃ b, RiskManager.check_take_profit rm e c h = Some b
       ∧ (b = true ↔
          RiskManager.take_profit_pct rm <= (c - e) / e
          ∧ c <= h * (1 - RiskManager.trailing_stop_pct rm)).
Proof.
  intros He. unfold RiskManager.check_take_profit, RiskManager.pct.
  destruct (Qeq_bool e 0) eqn:E; [apply Qeq_bool_iff in E; contradiction |].
  destruct (Qgeb ((c - e) / e) (RiskManager.take_profit_pct rm)) eqn:G.
  - eexists. split; [reflexivity |]. apply Qgeb_ge in G.
    rewrite Qleb_le. tauto.
  - exists false. split; [reflexivity |]. apply Qgeb_lt in G.
    split; [discriminate | intros [H _]; lra].
Qed.

(** Reaching the line at the peak itself does not trigger. *)
Lemma check_take_profit_waits_for_pullback (rm : RiskManager.t) (e h : Q) :
  ¬ e == 0 → 0 < h → 0 < RiskManager.trailing_stop_pct rm →
  RiskManager.check_take_profit rm e h h = Some false.
Proof.
  intros He Hh Hts.
  destruct (check_take_profit_iff rm e h h He) as (b & -> & Hb).
  destruct b; [| reflexivity].
  destruct Hb as [Hb _]. destruct (Hb eq_refl) as [_ Hle]. nra.
Qed.

(** The first scenario of the specification, on the code: entry 100,
    high-water 130, price back at 118.  The gain is measured at the current
    price, 18%, which is under the 20% line: no exit. *)
Lemma check_take_profit_scenario :
  RiskManager.check_take_profit
    (RiskManager.mk (3 # 10) (- (10 # 100)) (20 # 100) (8 # 100)) 100 118 130
  = Some false.
Proof. reflexivity. Qed.

(** In [BacktestEngine.check_stop_loss_take_profit] the trailing price is
    taken under the current price and compared with the entry price, which
    a gain of 20% always satisfies: the engine sells as soon as the line is
    reached. *)
Lemma engine_take_profit_needs_no_pullback
    (self : BacktestEngine.t) (price : Q) (date : nat) :
  BacktestEngine.current_position self = 1%Z →
  0 < BacktestEngine.entry_price self →
  BacktestConfig.TAKE_PROFIT
    <= (price - BacktestEngine.entry_price self) / BacktestEngine.entry_price self →
  ∃ self', BacktestEngine.check_stop_loss_take_profit self price date
           = Some (true, self')
           ∧ BacktestEngine.current_position self' = 0%Z.
Proof.
  intros Hpos He Hgain. unfold BacktestEngine.check_stop_loss_take_profit.
  rewrite Hpos. simpl bool_decide. cbv iota.
  set (e := BacktestEngine.entry_price self) in *.
  set (g := (price - e) / e) in *.
  assert (g * e == price - e) as Hg by (unfold g; field; lra).
  unfold BacktestConfig.TAKE_PROFIT in Hgain.
  assert (Qleb g BacktestConfig.STOP_LOSS = false) as ->.
  { apply Qleb_gt. unfold BacktestConfig.STOP_LOSS. lra. }
  assert (Qgeb g BacktestConfig.TAKE_PROFIT = true) as ->.
  { apply Qgeb_ge. exact Hgain. }
  assert (Qltb e (price * (1 - BacktestConfig.TRAILING_STOP)) = true) as ->.
  { apply Qltb_lt. unfold BacktestConfig.TRAILING_STOP. nra. }
  unfold BacktestEngine.execute_trade. rewrite Hpos. simpl.
  eexists. split; reflexivity.
Qed.

(** C2, on [backtest.py].  The engine buys at a close of 100 (entry price
    100.25 with costs); at a close of 130, which is also the highest price
    since entry, it reports an exit and goes flat, whereas
    [RiskManager.check_take_profit] with the same thresholds, entry, price
    and high-water mark does not trigger. *)
Theorem engine_sells_at_the_peak :
  ∃ held sold,
    BacktestEngine.execute_trade (BacktestEngine.init "510050" "ETF" 100000) BUY 100 0
    = Some held
    ∧ BacktestEngine.current_position held = 1%Z
    ∧ BacktestEngine.entry_price held == 10025 # 100
    ∧ BacktestEngine.check_stop_loss_take_profit held 130 1 = Some (true, sold)
    ∧ BacktestEngine.current_position sold = 0%Z
    ∧ RiskManager.check_take_profit
        (RiskManager.mk (3 # 10) BacktestConfig.STOP_LOSS BacktestConfig.TAKE_PROFIT
                        BacktestConfig.TRAILING_STOP)
        (BacktestEngine.entry_price held) 130 130
      = Some false.
Proof.
  eexists. eexists.
  split; [vm_compute; reflexivity |].
  split; [reflexivity |].
  split; [reflexivity |].
  split; [vm_compute; reflexivity |].
  split; reflexivity.
Qed.

(** ** Columns: rows of the derived columns, and their locality *)

Lemma map_lookup {A B} (f : A → B) (l : list A) (i : nat) :
  map f l !! i = f <$> l !! i.
Proof. exact (list_lookup_fmap f l i). Qed.

Lemma map_seq_lookup {A} (g : nat → A) (n i : nat) :
  map g (seq 0 n) !! i = if decide (i < n)%nat then Some (g i) else None.
Proof.
  rewrite map_lookup. case_decide.
  - rewrite lookup_seq_lt by assumption. reflexivity.
  - rewrite lookup_seq_ge by lia. reflexivity.
Qed.

Lemma rolling_lookup (w : nat) (agg : list Q → Series.cell)
    (col : list Series.cell) (i : nat) :
  Series.rolling w agg col !! i
  = if decide (i < length col)%nat then Some (Series.window w col i ≫= agg) else None.
Proof. exact (map_seq_lookup (λ i, Series.window w col i ≫= agg) (length col) i). Qed.

Lemma rolling_length (w : nat) (agg : list Q → Series.cell) (col : list Series.cell) :
  length (Series.rolling w agg col) = length col.
Proof. unfold Series.rolling. rewrite length_map, length_seq. reflexivity. Qed.

Lemma diff_lookup (col : list Z) (i : nat) :
  Series.diff col !! i
  = if decide (i < length col)%nat
    then Some (match i with
               | O => None
               | S j => Some (col !!! i - col !!! j)%Z
               end)
    else None.
Proof.
  exact (map_seq_lookup
           (λ i, match i with
                 | O => None
                 | S j => Some (col !!! i - col !!! j)%Z
                 end)
           (length col) i).
Qed.

Lemma diff_length (col : list Z) : length (Series.diff col) = length col.
Proof. unfold Series.diff. rewrite length_map, length_seq. reflexivity. Qed.

Lemma agree_take {A} (t : nat) (l : list A) : agree_upto t (take (S t) l) l.
Proof. intros i Hi. apply lookup_take_lt. lia. Qed.

Lemma agree_in_range {A} (t : nat) (l1 l2 : list A) (i : nat) :
  agree_upto t l1 l2 → (i ≤ t)%nat → (i < length l1)%nat ↔ (i < length l2)%nat.
Proof.
  intros H Hi. rewrite <- !lookup_lt_is_Some, (H i Hi). reflexivity.
Qed.

Lemma agree_map {A B} (f : A → B) (t : nat) (l1 l2 : list A) :
  agree_upto t l1 l2 → agree_upto t (map f l1) (map f l2).
Proof. intros H i Hi. rewrite !map_lookup, (H i Hi). reflexivity. Qed.

Lemma agree_zip_with {A B C} (f : A → B → C) (t : nat)
    (l1 l2 : list A) (k1 k2 : list B) :
  agree_upto t l1 l2 → agree_upto t k1 k2 →
  agree_upto t (zip_with f l1 k1) (zip_with f l2 k2).
Proof.
  intros Hl Hk i Hi. rewrite !lookup_zip_with, (Hl i Hi), (Hk i Hi). reflexivity.
Qed.

Lemma agree_window (w t : nat) (c1 c2 : list Series.cell) (i : nat) :
  agree_upto t c1 c2 → (i ≤ t)%nat → Series.window w c1 i = Series.window w c2 i.
Proof.
  intros H Hi. unfold Series.window.
  destruct ((w =? 0)%nat || (i + 1 <? w)%nat) eqn:E; [reflexivity |].
  apply orb_false_iff in E as [_ E]. apply Nat.ltb_ge in E.
  f_equal. apply list_eq. intros j.
  rewrite !lookup_take. case_decide; [| reflexivity].
  rewrite !lookup_drop. apply H. lia.
Qed.

Lemma agree_rolling (w : nat) (agg : list Q → Series.cell) (t : nat)
    (c1 c2 : list Series.cell) :
  agree_upto t c1 c2 → agree_upto t (Series.rolling w agg c1) (Series.rolling w agg c2).
Proof.
  intros H i Hi. rewrite !rolling_lookup.
  pose proof (agree_in_range t c1 c2 i H Hi) as Hr.
  rewrite (agree_window w t c1 c2 i H Hi).
  repeat case_decide; tauto || reflexivity.
Qed.

Lemma agree_diff (t : nat) (c1 c2 : list Z) :
  agree_upto t c1 c2 → agree_upto t (Series.diff c1) (Series.diff c2).
Proof.
  intros H i Hi. rewrite !diff_lookup.
  pose proof (agree_in_range t c1 c2 i H Hi) as Hr.
  assert (c1 !!! i = c2 !!! i) as Ei.
  { rewrite !list_lookup_total_alt, (H i Hi). reflexivity. }
  assert (∀ j, i = S j → c1 !!! j = c2 !!! j) as Ej.
  { intros j ->. rewrite !list_lookup_total_alt, (H j) by lia. reflexivity. }
  repeat case_decide; try tauto; try reflexivity.
  destruct i as [| j]; [reflexivity |].
  rewrite Ei, (Ej j eq_refl). reflexivity.
Qed.

Lemma trend_columns_local (self : TrendStrategy.t) (t : nat) (df1 df2 : list Bar.t) :
  agree_upto t df1 df2 →
  let f1 := TrendStrategy.calculate self df1 in
  let f2 := TrendStrategy.calculate self df2 in
  agree_upto t (TrendStrategy.ma_short f1) (TrendStrategy.ma_short f2)
  ∧ agree_upto t (TrendStrategy.ma_long f1) (TrendStrategy.ma_long f2)
  ∧ agree_upto t (TrendStrategy.ma_cross f1) (TrendStrategy.ma_cross f2)
  ∧ agree_upto t (TrendStrategy.ma_signal f1) (TrendStrategy.ma_signal f2).
Proof.
  intros H. simpl.
  pose proof (agree_map (λ b, Some (Bar.close b)) t df1 df2 H) as Hclose.
  pose proof (agree_rolling (TrendStrategy.short_ma self) Series.mean t _ _ Hclose) as Hs.
  pose proof (agree_rolling (TrendStrategy.long_ma self) Series.mean t _ _ Hclose) as Hl.
  split; [exact Hs |]. split; [exact Hl |].
  match goal with
  | |- agree_upto t (zip_with ?f _ _) _ ∧ _ =>
      pose proof (agree_zip_with f t _ _ _ _ Hs Hl) as Hc
  end.
  split; [exact Hc |].
  apply agree_map, agree_diff, Hc.
Qed.

Section reversion_columns.
Context `{Sqrt}.

Lemma reversion_columns_local (self : MeanReversionStrategy.t) (t : nat)
    (df1 df2 : list Bar.t) :
  agree_upto t df1 df2 →
  let f1 := MeanReversionStrategy.calculate self df1 in
  let f2 := MeanReversionStrategy.calculate self df2 in
  agree_upto t (MeanReversionStrategy.ma f1) (MeanReversionStrategy.ma f2)
  ∧ agree_upto t (MeanReversionStrategy.std f1) (MeanReversionStrategy.std f2)
  ∧ agree_upto t (MeanReversionStrategy.upper f1) (MeanReversionStrategy.upper f2)
  ∧ agree_upto t (MeanReversionStrategy.lower f1) (MeanReversionStrategy.lower f2)
  ∧ agree_upto t (MeanReversionStrategy.position f1) (MeanReversionStrategy.position f2).
Proof.
  intros Hdf. simpl.
  pose proof (agree_map (λ b, Some (Bar.close b)) t df1 df2 Hdf) as Hclose.
  pose proof (agree_rolling (MeanReversionStrategy.window self) Series.mean t _ _ Hclose)
    as Hma.
  pose proof (agree_rolling (MeanReversionStrategy.window self) Series.std t _ _ Hclose)
    as Hstd.
  split; [exact Hma |]. split; [exact Hstd |].
  match goal with
  | |- agree_upto t (zip_with ?f _ _) _ ∧ agree_upto t (zip_with ?g _ _) _ ∧ _ =>
      pose proof (agree_zip_with f t _ _ _ _ Hma Hstd) as Hup;
      pose proof (agree_zip_with g t _ _ _ _ Hma Hstd) as Hlo
  end.
  split; [exact Hup |]. split; [exact Hlo |].
  apply agree_zip_with; [exact Hclose |].
  apply agree_zip_with; assumption.
Qed.

(** C9.  For every row [t] of a bar sequence, the derived cells of row [t]
    (moving averages, cross state, cross event, band mean, deviation and
    bounds, band position) are the same whether the columns are calculated
    on the prefix [bars[0..t]] or on the whole sequence; and row [t] exists
    in both. *)
Theorem indicators_have_no_look_ahead
    (trend : TrendStrategy.t) (reversion : MeanReversionStrategy.t)
    (df : list Bar.t) (t : nat) :
  (t < length df)%nat →
  trend_row (TrendStrategy.calculate trend (take (S t) df)) t
  = trend_row (TrendStrategy.calculate trend df) t
  ∧ reversion_row (MeanReversionStrategy.calculate reversion (take (S t) df)) t
    = reversion_row (MeanReversionStrategy.calculate reversion df) t
  ∧ is_Some (TrendStrategy.ma_signal (TrendStrategy.calculate trend df) !! t)
  ∧ is_Some (MeanReversionStrategy.position
               (MeanReversionStrategy.calculate reversion df) !! t).
Proof.
  intros Ht.
  pose proof (agree_take t df) as Hdf.
  destruct (trend_columns_local trend t _ _ Hdf) as (T1 & T2 & T3 & T4).
  destruct (reversion_columns_local reversion t _ _ Hdf) as (R1 & R2 & R3 & R4 & R5).
  unfold trend_row, reversion_row.
  rewrite (T1 t), (T2 t), (T3 t), (T4 t), (R1 t), (R2 t), (R3 t), (R4 t), (R5 t)
    by reflexivity.
  split; [reflexivity |]. split; [reflexivity |].
  split; apply lookup_lt_is_Some; simpl.
  - rewrite length_map, diff_length, length_zip_with, !rolling_length, length_map. lia.
  - rewrite length_zip_with, length_zip, !length_zip_with, !rolling_length, length_map.
    lia.
Qed.

End reversion_columns.

(** ** The trend strategy *)

Lemma clip_sgn (z : Z) : TrendStrategy.clip (Some z) = Some (Z.sgn z).
Proof.
  unfold TrendStrategy.clip. f_equal.
  destruct (0 <? z)%Z eqn:P; [apply Z.ltb_lt in P; lia |].
  destruct (z <? 0)%Z eqn:N; [apply Z.ltb_lt in N; lia |].
  apply Z.ltb_ge in P, N. lia.
Qed.

(** The cross column of the code holds the cross state of the
    specification on every row. *)
Lemma ma_cross_lookup (self : TrendStrategy.t) (df : list Bar.t) (t : nat) :
  TrendStrategy.ma_cross (TrendStrategy.calculate self df) !! t
  = if decide (t < length df)%nat then Some (cross_state self df t) else None.
Proof.
  unfold cross_state. simpl.
  rewrite lookup_zip_with, !rolling_lookup, length_map.
  case_decide; [| reflexivity]. simpl.
  generalize (Series.window (TrendStrategy.short_ma self)
                (map (λ b, Some (Bar.close b)) df) t ≫= Series.mean).
  generalize (Series.window (TrendStrategy.long_ma self)
                (map (λ b, Some (Bar.close b)) df) t ≫= Series.mean).
  intros [l|] [s|]; try reflexivity. simpl.
  destruct (Qltb l s) eqn:G, (Qltb s l) eqn:L; try reflexivity.
  apply Qltb_lt in G, L. lra.
Qed.

Lemma ma_cross_total (self : TrendStrategy.t) (df : list Bar.t) (t : nat) :
  (t < length df)%nat →
  TrendStrategy.ma_cross (TrendStrategy.calculate self df) !!! t = cross_state self df t.
Proof.
  intros Ht. rewrite list_lookup_total_alt, ma_cross_lookup.
  case_decide; [reflexivity | lia].
Qed.

Lemma ma_cross_length (self : TrendStrategy.t) (df : list Bar.t) :
  length (TrendStrategy.ma_cross (TrendStrategy.calculate self df)) = length df.
Proof. simpl. rewrite length_zip_with, !rolling_length, length_map. lia. Qed.

(** The signal column of the code holds the cross event of the
    specification on every row. *)
Lemma ma_signal_lookup (self : TrendStrategy.t) (df : list Bar.t) (t : nat) :
  TrendStrategy.ma_signal (TrendStrategy.calculate self df) !! t
  = if decide (t < length df)%nat then Some (cross_event self df t) else None.
Proof.
  change (TrendStrategy.ma_signal (TrendStrategy.calculate self df))
    with (map TrendStrategy.clip
              (Series.diff (TrendStrategy.ma_cross (TrendStrategy.calculate self df)))).
  rewrite map_lookup, diff_lookup, ma_cross_length.
  case_decide as Ht; [| reflexivity].
  unfold cross_event. destruct t as [| p]; [reflexivity |].
  pose proof (proj2 (Nat.ltb_lt _ _) Ht) as Hb. rewrite Hb.
  rewrite !ma_cross_total by lia.
  cbn [fmap option_fmap option_map]. rewrite clip_sgn. reflexivity.
Qed.

(** What [get_signal] returns, in terms of the cross event of the last
    row. *)
Lemma trend_get_signal_spec (self : TrendStrategy.t) (df : list Bar.t) :
  TrendStrategy.get_signal self df
  = if (length df <? TrendStrategy.long_ma self)%nat then Some HOLD
    else match df with
         | [] => None
         | _ =>
             let event := cross_event self df (length df - 1) in
             Some (if bool_decide (event = Some 1%Z) then BUY
                   else if bool_decide (event = Some (-1)%Z) then SELL
                   else HOLD)
         end.
Proof.
  unfold TrendStrategy.get_signal.
  change (TrendStrategy.bars (TrendStrategy.calculate self df)) with df.
  destruct (length df <? TrendStrategy.long_ma self)%nat; [reflexivity |].
  unfold Series.iloc_last.
  assert (length (TrendStrategy.ma_signal (TrendStrategy.calculate self df)) = length df)
    as ->.
  { simpl. rewrite length_map, diff_length, length_zip_with, !rolling_length, length_map.
    lia. }
  rewrite ma_cross_length, ma_signal_lookup, ma_cross_lookup.
  destruct df as [| b df']; [reflexivity |].
  case_decide as Ht; [| simpl in Ht; lia].
  cbv zeta. repeat case_bool_decide; reflexivity.
Qed.

(** With a positive long window [get_signal] always answers. *)
Lemma trend_get_signal_total (self : TrendStrategy.t) (df : list Bar.t) :
  (0 < TrendStrategy.long_ma self)%nat → is_Some (TrendStrategy.get_signal self df).
Proof.
  intros Hw. rewrite trend_get_signal_spec.
  destruct (length df <? TrendStrategy.long_ma self)%nat eqn:E; [eexists; reflexivity |].
  destruct df as [| b df']; [| eexists; reflexivity].
  apply Nat.ltb_ge in E. simpl in E. lia.
Qed.

(** ** The regime detector *)

(** C8, as the code has it.  A series of fewer than 20 bars is classified
    MEAN_REVERSION, whatever its prices. *)
Theorem detect_short_series_is_mean_reverting `{Sqrt} (df : list Bar.t) :
  (length df < 20)%nat → MarketRegimeDetector.detect df = MEAN_REVERSION.
Proof.
  intros Hlen. unfold MarketRegimeDetector.detect.
  apply Nat.ltb_lt in Hlen. rewrite Hlen. reflexivity.
Qed.

Lemma detect_short_series_is_mean_reverting_witness :
  @MarketRegimeDetector.detect Qsqrt (take 19 sixty_flat_then_drop) = MEAN_REVERSION.
Proof.
  apply (@detect_short_series_is_mean_reverting Qsqrt (take 19 sixty_flat_then_drop)).
  vm_compute. lia.
Defined.

(** C8 as stated fails: twenty bars yield no rolling-volatility observation
    at all (the first one needs twenty returns, hence twenty-one bars), yet
    the length guard lets them through, every comparison on the undefined
    cells is false, and the answer is TREND_DOWN. *)
Lemma detect_twenty_bars_is_trend_down :
  (observations (@MarketRegimeDetector.volatility Qsqrt (flat 20 100 0)) < 20)%nat
  ∧ @MarketRegimeDetector.detect Qsqrt (flat 20 100 0) = TREND_DOWN.
Proof. split; [vm_compute; lia | vm_compute; reflexivity]. Qed.

(** ** Equity points *)

(** [backtest_with_chart]: the point appended for a day is the
    mark-to-market value of the state after that day's trades, at that day's
    close. *)
Lemma v3_day_records_mark_to_market
    (strategy : MAStrategy.t) (df : MAStrategy.frame) (st st' : BacktestV3.t) (i : nat) :
  BacktestV3.day strategy df st i = Some st' →
  ∃ bar e,
    MAStrategy.bars df !! i = Some bar
    ∧ BacktestV3.equity_curve st'
      = BacktestV3.equity_curve st ++ [BacktestV3.mkpoint (Bar.date bar) e]
    ∧ e == v3_value st' (Bar.close bar).
Proof.
  unfold BacktestV3.day.
  destruct (MAStrategy.bars df !! i) as [bar|]; simpl; [| discriminate].
  destruct (MAStrategy.get_signal strategy df i) as [signal|]; simpl; [| discriminate].
  intros Hday. exists bar.
  destruct (bool_decide (signal = 1%Z) && bool_decide (BacktestV3.position st = 0%Z)).
  - destruct (Qeq_bool (Bar.close bar) 0); simpl in Hday; [discriminate |].
    injection Hday as <-. eexists. split; [reflexivity |]. split; [reflexivity |].
    unfold v3_value, v3_quantity. simpl. reflexivity.
  - destruct (bool_decide (signal = (-1)%Z) && bool_decide (BacktestV3.position st = 1%Z));
      simpl in Hday; injection Hday as <-;
      (eexists; split; [reflexivity |]; split; [reflexivity |]);
      unfold v3_value, v3_quantity; simpl.
    + ring.
    + destruct (bool_decide (BacktestV3.position st = 1%Z)); ring.
Qed.

(** [backtest_with_chart]: a sale moves the value of the shares into the
    cash, where it stays for the following days. *)
Lemma v3_sale_keeps_value
    (strategy : MAStrategy.t) (df : MAStrategy.frame) (st st' : BacktestV3.t)
    (i : nat) (bar : Bar.t) :
  MAStrategy.bars df !! i = Some bar →
  BacktestV3.day strategy df st i = Some st' →
  BacktestV3.position st = 1%Z → BacktestV3.position st' = 0%Z →
  BacktestV3.capital st' == v3_value st (Bar.close bar).
Proof.
  intros Hbar. unfold BacktestV3.day. rewrite Hbar. simpl.
  destruct (MAStrategy.get_signal strategy df i) as [signal|]; simpl; [| discriminate].
  intros Hday Hopen Hflat. unfold v3_value, v3_quantity. rewrite Hopen in *. simpl in *.
  rewrite andb_false_r in Hday.
  destruct (bool_decide (signal = (-1)%Z)); simpl in Hday; injection Hday as <-;
    simpl in *; [reflexivity | congruence].
Qed.

(** C1, on [backtest.py].  On sixty closes at 100 followed by a close at 96
    the engine buys 311 shares at 96.24 on the last day and records an
    equity of about 29,925 for it; a ledger that starts from the same
    100,000 and makes that purchase is worth 99,925.36 at that close. *)
Theorem engine_equity_is_not_mark_to_market :
  ∃ self t e,
    @BacktestEngine.loop Qsqrt (BacktestEngine.init "510050" "ETF" 100000)
                         sixty_flat_then_drop
    = Some self
    ∧ BacktestEngine.current_position self = 1%Z
    ∧ BacktestEngine.entry_price self == 9624 # 100
    ∧ BacktestEngine.trades self = [t]
    ∧ BacktestEngine.action t = BUY ∧ BacktestEngine.shares t = 311%Z
    ∧ BacktestEngine.equity_curve self !! 60%nat = Some (BacktestEngine.mkpoint 60 e)
    ∧ e == 12000000 # 401
    ∧ Portfolio.get_portfolio_value
        (Portfolio.state_of
           (Portfolio.buy (Portfolio.init 100000) "510050" "ETF"
                          (BacktestEngine.entry_price self) 311 "2026-03-02"))
        {[ "510050" := 96 ]}
      == 9992536 # 100
    ∧ e < 9992536 # 100.
Proof.
  eexists. eexists. eexists.
  split; [vm_compute; reflexivity |].
  split; [reflexivity |].
  split; [reflexivity |].
  split; [reflexivity |].
  split; [reflexivity |].
  split; [reflexivity |].
  split; [reflexivity |].
  split; [reflexivity |].
  split; [vm_compute; reflexivity | reflexivity].
Qed.

(** [backtest.py]: while the engine is flat the equity it records is the
    initial capital, whatever the trades before. *)
Lemma engine_equity_when_flat (self : BacktestEngine.t) (close : Q) :
  BacktestEngine.current_position self = 0%Z →
  BacktestEngine.equity_of self close = BacktestEngine.initial_capital self.
Proof. intros Hflat. unfold BacktestEngine.equity_of. rewrite Hflat. reflexivity. Qed.

(** [backtest.py]: while the engine is long the equity it records is the
    value of a stake of 30% of the initial capital bought at the entry
    price; the other 70% are not in it. *)
Lemma engine_equity_when_long (self : BacktestEngine.t) (close : Q) :
  BacktestEngine.current_position self = 1%Z →
  ¬ BacktestEngine.entry_price self == 0 →
  BacktestEngine.equity_of self close
  == BacktestEngine.initial_capital self * (3 # 10)
     * (close / BacktestEngine.entry_price self).
Proof.
  intros Hlong He. unfold BacktestEngine.equity_of. rewrite Hlong. simpl.
  field. exact He.
Qed.

Lemma iloc_last_snoc {A} (l : list A) (x : A) : Series.iloc_last (l ++ [x]) = Some x.
Proof.
  unfold Series.iloc_last. rewrite length_app. simpl.
  rewrite lookup_app_r by lia.
  replace (length l + 1 - 1 - length l)%nat with O by lia. reflexivity.
Qed.

(** [backtest.py]: the point appended for a day is that formula on the
    state after the day's trades. *)
Lemma engine_day_records_equity_of `{Sqrt}
    (df : list Bar.t) (self self' : BacktestEngine.t) (i : nat) :
  BacktestEngine.day df self i = Some self' →
  ∃ bar,
    df !! i = Some bar
    ∧ Series.iloc_last (BacktestEngine.equity_curve self')
      = Some (BacktestEngine.mkpoint (Bar.date bar)
                (BacktestEngine.equity_of self' (Bar.close bar))).
Proof.
  unfold BacktestEngine.day. intros Hday.
  destruct (df !! i) as [bar|]; simpl in Hday; [| discriminate].
  destruct (BacktestEngine.check_stop_loss_take_profit self _ _) as [[b self1]|];
    simpl in Hday; [| discriminate].
  destruct (if bool_decide (BacktestEngine.current_position self1 = 0%Z)
            then _ else Some self1) as [self2|];
    simpl in Hday; [| discriminate].
  injection Hday as <-. exists bar. split; [reflexivity |].
  unfold BacktestEngine.record_equity. simpl. apply iloc_last_snoc.
Qed.

(** On the same series followed by a close at 130 the engine sells with a
    gain of more than a third on the next day and records an equity of
    100,000 for that day. *)
Lemma engine_equity_forgets_realized_gain :
  ∃ self buy sale gain,
    @BacktestEngine.loop Qsqrt (BacktestEngine.init "510050" "ETF" 100000)
                         drop_then_rally
    = Some self
    ∧ BacktestEngine.trades self = [buy; sale]
    ∧ BacktestEngine.action sale = SELL
    ∧ BacktestEngine.profit_pct sale = Some gain ∧ 34 < gain
    ∧ BacktestEngine.equity_curve self !! 61%nat
      = Some (BacktestEngine.mkpoint 61 100000).
Proof.
  eexists. eexists. eexists. eexists.
  split; [vm_compute; reflexivity |].
  split; [reflexivity |].
  split; [reflexivity |].
  split; [reflexivity |].
  split; reflexivity.
Qed.

(** ** Witnesses and the ensemble on frames *)

Lemma indicators_have_no_look_ahead_witness :
  trend_row (TrendStrategy.calculate TrendStrategy.default
               (take 31 sixty_flat_then_drop)) 30
  = trend_row (TrendStrategy.calculate TrendStrategy.default sixty_flat_then_drop) 30
  ∧ reversion_row (@MeanReversionStrategy.calculate Qsqrt MeanReversionStrategy.default
                     (take 31 sixty_flat_then_drop)) 30
    = reversion_row (@MeanReversionStrategy.calculate Qsqrt MeanReversionStrategy.default
                       sixty_flat_then_drop) 30.
Proof.
  destruct (@indicators_have_no_look_ahead Qsqrt TrendStrategy.default
              MeanReversionStrategy.default sixty_flat_then_drop 30)
    as (Ht & Hr & _).
  - vm_compute. lia.
  - split; [exact Ht | exact Hr].
Defined.

Section ensemble_on_frames.
Context `{Sqrt}.

Lemma last_cell_exists {A} (col : list A) (n : nat) :
  length col = n → (0 < n)%nat → is_Some (Series.iloc_last col).
Proof. intros <- Hn. apply lookup_lt_is_Some. lia. Qed.

(** With a positive window the reversion strategy always answers. *)
Lemma reversion_get_signal_total (self : MeanReversionStrategy.t) (df : list Bar.t) :
  (0 < MeanReversionStrategy.window self)%nat →
  is_Some (MeanReversionStrategy.get_signal self df).
Proof.
  intros Hw. unfold MeanReversionStrategy.get_signal.
  change (MeanReversionStrategy.bars (MeanReversionStrategy.calculate self df)) with df.
  destruct (length df <? MeanReversionStrategy.window self)%nat eqn:E;
    [eexists; reflexivity |].
  apply Nat.ltb_ge in E. assert (0 < length df)%nat as Hlen by lia.
  destruct (last_cell_exists df _ eq_refl Hlen) as [bar ->].
  destruct (last_cell_exists
              (MeanReversionStrategy.upper (MeanReversionStrategy.calculate self df))
              (length df)) as [upper ->]; [| exact Hlen |].
  { simpl. rewrite length_zip_with, !rolling_length, length_map. lia. }
  destruct (last_cell_exists
              (MeanReversionStrategy.lower (MeanReversionStrategy.calculate self df))
              (length df)) as [lower ->]; [| exact Hlen |].
  { simpl. rewrite length_zip_with, !rolling_length, length_map. lia. }
  destruct (last_cell_exists
              (MeanReversionStrategy.position (MeanReversionStrategy.calculate self df))
              (length df)) as [position ->]; [| exact Hlen |].
  { simpl. rewrite length_zip_with, length_zip, !length_zip_with, !rolling_length,
      length_map. lia. }
  repeat match goal with
         | |- is_Some (if ?c then _ else _) => destruct c
         end; eexists; reflexivity.
Qed.


End ensemble_on_frames.

(** * Further properties of the code *)

(** ** The high-water price *)

(** X1.  After any sequence of price updates the high-water price of a
    position is at least what it was and at least every price seen; it is
    the old mark or one of the prices; quantity and average cost are
    untouched. *)
Theorem update_price_keeps_high_water (p : Position.t) (prices : list Q) :
  let p' := foldl Position.update_price p prices in
  Position.highest_price p <= Position.highest_price p'
  ∧ Forall (λ x, x <= Position.highest_price p') prices
  ∧ (Position.highest_price p' = Position.highest_price p
     ∨ Position.highest_price p' ∈ prices)
  ∧ Position.quantity p' = Position.quantity p
  ∧ Position.avg_cost p' = Position.avg_cost p.
Proof.
  revert p. induction prices as [| x prices IH]; intros p; simpl.
  - split; [lra |]. split; [constructor |]. split; [left; reflexivity |].
    split; reflexivity.
  - destruct (IH (Position.update_price p x)) as (Hge & Hall & Hin & Hq & Hc).
    assert (Position.highest_price p <= Position.highest_price (Position.update_price p x)
            ∧ x <= Position.highest_price (Position.update_price p x)
            ∧ (Position.highest_price (Position.update_price p x)
               = Position.highest_price p
               ∨ Position.highest_price (Position.update_price p x) = x)
            ∧ Position.quantity (Position.update_price p x) = Position.quantity p
            ∧ Position.avg_cost (Position.update_price p x) = Position.avg_cost p)
      as (H1 & H2 & H3 & H4 & H5).
    { unfold Position.update_price.
      destruct (Qgtb x (Position.highest_price p)) eqn:E; simpl.
      - apply Qgtb_gt in E. repeat split; try lra. right; reflexivity.
      - apply Qgtb_le in E. repeat split; try lra. left; reflexivity. }
    split; [lra |].
    split; [constructor; [lra | exact Hall] |].
    split.
    + destruct Hin as [Hin | Hin].
      * destruct H3 as [H3 | H3]; [left; congruence |].
        right. rewrite Hin, H3. apply list_elem_of_here.
      * right. apply list_elem_of_further. exact Hin.
    + split; congruence.
Qed.

(** X2.  [update_positions] changes neither the cash nor the set of held
    symbols: every held symbol that is quoted gets its high-water price
    updated with the quote, every other holding stays as it is. *)
Theorem update_positions_lookup
    (pf : Portfolio.t) (market_data : gmap string Q) (code : string) :
  Portfolio.cash (Portfolio.update_positions pf market_data) = Portfolio.cash pf
  ∧ Portfolio.positions (Portfolio.update_positions pf market_data) !! code
    = (λ pos, match market_data !! code with
              | Some price => Position.update_price pos price
              | None => pos
              end) <$> Portfolio.positions pf !! code.
Proof.
  unfold Portfolio.update_positions.
  apply (map_fold_weak_ind
           (λ (r : Portfolio.t) (m : gmap string Q),
              Portfolio.cash r = Portfolio.cash pf
              ∧ Portfolio.positions r !! code
                = (λ pos, match m !! code with
                          | Some price => Position.update_price pos price
                          | None => pos
                          end) <$> Portfolio.positions pf !! code)).
  - split; [reflexivity |]. rewrite lookup_empty.
    destruct (Portfolio.positions pf !! code); reflexivity.
  - intros i x m r Hfresh [Hcash Hlook].
    destruct (Portfolio.positions r !! i) as [pos|] eqn:Hi; simpl.
    + split; [exact Hcash |].
      destruct (decide (i = code)) as [-> | Hne].
      * rewrite !lookup_insert_eq. rewrite Hlook, Hfresh in Hi.
        destruct (Portfolio.positions pf !! code); simpl in *; congruence.
      * rewrite !lookup_insert_ne by exact Hne. exact Hlook.
    + split; [exact Hcash |].
      destruct (decide (i = code)) as [-> | Hne].
      * rewrite lookup_insert_eq. rewrite Hlook, Hfresh in Hi.
        destruct (Portfolio.positions pf !! code); simpl in *; congruence.
      * rewrite lookup_insert_ne by exact Hne. exact Hlook.
Qed.

(** ** Portfolio value across a trade *)

Lemma get_portfolio_value_quotes (pf : Portfolio.t) (market_data : gmap string Q) :
  Portfolio.get_portfolio_value pf market_data
  = Portfolio.cash pf
    + holdings_value (Portfolio.positions pf) (map_to_list market_data).
Proof.
  unfold Portfolio.get_portfolio_value, holdings_value.
  rewrite map_fold_foldr. f_equal.
  induction (map_to_list market_data) as [| [k x] l IH]; simpl; [reflexivity |].
  rewrite IH. reflexivity.
Qed.

(** Two position maps that differ at one symbol only give values that
    differ by the value of that symbol, when it is quoted. *)
Lemma holdings_value_one_symbol
    (P P' : gmap string Position.t) (code : string) (price : Q)
    (quotes : list (string * Q)) :
  (∀ k, k ≠ code → P' !! k = P !! k) →
  NoDup quotes.*1 →
  (∀ x, (code, x) ∈ quotes → x = price) →
  holdings_value P' quotes
  == holdings_value P quotes
     + (if decide (code ∈ quotes.*1)
        then held_value P' code price - held_value P code price
        else 0).
Proof.
  intros Hoff. induction quotes as [| [k x] l IH]; intros Hnd Hprice; simpl.
  - lra.
  - change (NoDup (k :: l.*1)) in Hnd.
    pose proof (NoDup_cons_1_1 _ _ Hnd) as Hk. apply NoDup_cons_1_2 in Hnd.
    assert (∀ y, (code, y) ∈ l → y = price) as Hprice'.
    { intros y Hy. apply Hprice. apply list_elem_of_further. exact Hy. }
    specialize (IH Hnd Hprice').
    destruct (decide (k = code)) as [-> | Hne].
    + assert (x = price) as -> by (apply Hprice; apply list_elem_of_here).
      rewrite decide_False in IH by exact Hk.
      rewrite decide_True by apply list_elem_of_here.
      unfold held_value.
      destruct (P' !! code), (P !! code); lra.
    + rewrite (Hoff k Hne).
      assert (code ∈ k :: l.*1 ↔ code ∈ l.*1) as Hiff.
      { rewrite elem_of_cons. split; [intros [? | ?]; [congruence | assumption] | auto]. }
      destruct (decide (code ∈ l.*1)) as [Hin | Hin].
      * rewrite decide_True by (apply Hiff; exact Hin).
        destruct (P !! k); lra.
      * rewrite decide_False by (rewrite Hiff; exact Hin).
        destruct (P !! k); lra.
Qed.

Lemma portfolio_value_one_symbol
    (pf pf' : Portfolio.t) (code : string) (price : Q) (market_data : gmap string Q) :
  (∀ k, k ≠ code → Portfolio.positions pf' !! k = Portfolio.positions pf !! k) →
  market_data !! code = Some price →
  Portfolio.cash pf' + held_value (Portfolio.positions pf') code price
  == Portfolio.cash pf + held_value (Portfolio.positions pf) code price →
  Portfolio.get_portfolio_value pf' market_data
  == Portfolio.get_portfolio_value pf market_data.
Proof.
  intros Hoff Hquote Hbal. rewrite !get_portfolio_value_quotes.
  rewrite (holdings_value_one_symbol (Portfolio.positions pf) (Portfolio.positions pf')
             code price (map_to_list market_data) Hoff).
  - rewrite decide_True; [lra |].
    apply list_elem_of_fmap. exists (code, price). split; [reflexivity |].
    apply elem_of_map_to_list. exact Hquote.
  - apply NoDup_fst_map_to_list.
  - intros x Hx. apply elem_of_map_to_list in Hx. congruence.
Qed.

(** X3.  A purchase that [buy] carries out at the quoted price leaves the
    value of the portfolio as it was, whatever else is quoted: the cash
    paid is the value gained. *)
Theorem buy_keeps_portfolio_value
    (pf pf' : Portfolio.t) (code name : string) (price quantity : Q) (today : string)
    (answer : bool) (market_data : gmap string Q) :
  Portfolio.buy pf code name price quantity today = Portfolio.Returned answer pf' →
  market_data !! code = Some price →
  Portfolio.get_portfolio_value pf' market_data
  == Portfolio.get_portfolio_value pf market_data.
Proof.
  intros Hbuy Hquote. apply (portfolio_value_one_symbol pf pf' code price);
    [| exact Hquote |]; revert Hbuy; unfold Portfolio.buy;
    destruct (Qgtb (price * quantity) (Portfolio.cash pf));
    try (intros [= _ <-]; (reflexivity || (intros; reflexivity))).
  - destruct (Portfolio.positions pf !! code) as [pos|]; simpl.
    + destruct (Qeq_bool _ 0); [discriminate |]. intros [= _ <-] k Hk. simpl.
      apply lookup_insert_ne. congruence.
    + intros [= _ <-] k Hk. simpl. apply lookup_insert_ne. congruence.
  - unfold held_value.
    destruct (Portfolio.positions pf !! code) as [pos|] eqn:Hpos; simpl.
    + destruct (Qeq_bool _ 0); [discriminate |]. intros [= _ <-]. simpl.
      rewrite lookup_insert_eq. unfold Position.get_value. simpl. ring.
    + intros [= _ <-]. simpl. rewrite lookup_insert_eq.
      unfold Position.get_value. simpl. ring.
Qed.

Lemma buy_keeps_portfolio_value_witness :
  let pf := Portfolio.state_of
              (Portfolio.buy (Portfolio.init 100000) "000001" "PingAn" 12 1000
                             "2026-01-05") in
  let pf' := Portfolio.state_of
               (Portfolio.buy pf "600519" "Moutai" 1800 10 "2026-01-06") in
  Portfolio.get_portfolio_value pf' {[ "600519" := 1800; "000001" := 13 ]}
  == Portfolio.get_portfolio_value pf {[ "600519" := 1800; "000001" := 13 ]}.
Proof.
  intros pf pf'.
  apply (buy_keeps_portfolio_value pf pf' "600519" "Moutai" 1800 10 "2026-01-06" true
           {[ "600519" := 1800; "000001" := 13 ]}); reflexivity.
Defined.

(** X4.  A sale at the quoted price leaves the value of the portfolio as it
    was, whatever the quantity asked for and whatever else is quoted. *)
Theorem sell_keeps_portfolio_value
    (pf : Portfolio.t) (code : string) (price : Q) (req : option Q)
    (market_data : gmap string Q) :
  market_data !! code = Some price →
  Portfolio.get_portfolio_value (snd (Portfolio.sell pf code price req)) market_data
  == Portfolio.get_portfolio_value pf market_data.
Proof.
  intros Hquote.
  apply (portfolio_value_one_symbol pf _ code price); [| exact Hquote |].
  - intros k Hk. unfold Portfolio.sell.
    destruct (Portfolio.positions pf !! code) as [pos|]; simpl; [| reflexivity].
    destruct (Qleb _ 0); simpl.
    + apply lookup_delete_ne. congruence.
    + apply lookup_insert_ne. congruence.
  - unfold Portfolio.sell, held_value.
    destruct (Portfolio.positions pf !! code) as [pos|] eqn:Hpos; simpl;
      [| rewrite Hpos; reflexivity].
    destruct (Qleb _ 0) eqn:E; simpl.
    + rewrite lookup_delete_eq. apply Qleb_le in E.
      assert (Portfolio.sell_quantity pos req <= Position.quantity pos) as Hle.
      { destruct req as [q|]; simpl; [| lra].
        destruct (Qgeb q (Position.quantity pos)) eqn:G; [lra |].
        apply Qgeb_lt in G. lra. }
      assert (Portfolio.sell_quantity pos req == Position.quantity pos) as Hs by lra.
      unfold Position.get_value. rewrite Hs. ring.
    + rewrite lookup_insert_eq. unfold Position.get_value. simpl. ring.
Qed.

Lemma sell_keeps_portfolio_value_witness :
  let pf := Portfolio.state_of
              (Portfolio.buy (Portfolio.init 100000) "600519" "Moutai" 1800 10
                             "2026-01-05") in
  Portfolio.get_portfolio_value (snd (Portfolio.sell pf "600519" 1900 (Some 4)))
                                {[ "600519" := 1900 ]}
  == Portfolio.get_portfolio_value pf {[ "600519" := 1900 ]}.
Proof.
  intros pf.
  apply (sell_keeps_portfolio_value pf "600519" 1900 (Some 4) {[ "600519" := 1900 ]}).
  reflexivity.
Defined.

(** ** Adding to a position, and selling twice *)

(** X5.  When [buy] adds a positive quantity to a holding of positive
    quantity, the new average cost is the mean of the old cost and the
    price weighted by the quantities: it lies between the two, and the cost
    basis, average cost times quantity, grows by exactly the amount paid. *)
Theorem buy_averages_cost
    (pf : Portfolio.t) (code name : string) (price quantity : Q) (today : string)
    (pos : Position.t) :
  Portfolio.positions pf !! code = Some pos →
  0 < Position.quantity pos → 0 < quantity →
  price * quantity <= Portfolio.cash pf →
  ∃ pf' pos',
    Portfolio.buy pf code name price quantity today = Portfolio.Returned true pf'
    ∧ Portfolio.positions pf' !! code = Some pos'
    ∧ Position.quantity pos' = Position.quantity pos + quantity
    ∧ Position.avg_cost pos' * Position.quantity pos'
      == Position.avg_cost pos * Position.quantity pos + price * quantity
    ∧ (Position.avg_cost pos <= price →
       Position.avg_cost pos <= Position.avg_cost pos' ∧ Position.avg_cost pos' <= price)
    ∧ (price <= Position.avg_cost pos →
       price <= Position.avg_cost pos' ∧ Position.avg_cost pos' <= Position.avg_cost pos)
    ∧ Position.highest_price pos' = Position.highest_price pos.
Proof.
  intros Hpos Hq0 Hq Hcash. unfold Portfolio.buy.
  apply Qgtb_le in Hcash. rewrite Hcash, Hpos. simpl.
  destruct (Qeq_bool (Position.quantity pos + quantity) 0) eqn:E.
  { apply Qeq_bool_iff in E. lra. }
  eexists. eexists. split; [reflexivity |]. simpl.
  split; [apply lookup_insert_eq |]. simpl.
  split; [reflexivity |].
  set (a := Position.avg_cost pos) in *. set (q0 := Position.quantity pos) in *.
  assert ((a * q0 + price * quantity) / (q0 + quantity) * (q0 + quantity)
          == a * q0 + price * quantity) as Hmean by (field; lra).
  split; [exact Hmean |].
  set (m := (a * q0 + price * quantity) / (q0 + quantity)) in *.
  split; [| split; [| reflexivity]]; intros Hle; split; nra.
Qed.

Lemma buy_averages_cost_witness :
  let pf := Portfolio.state_of
              (Portfolio.buy (Portfolio.init 100000) "600519" "Moutai" 1800 10
                             "2026-01-05") in
  ∃ pf' pos',
    Portfolio.buy pf "600519" "Moutai" 2000 30 "2026-01-06" = Portfolio.Returned true pf'
    ∧ Portfolio.positions pf' !! "600519" = Some pos'
    ∧ Position.avg_cost pos' * Position.quantity pos' == 1800 * 10 + 2000 * 30.
Proof.
  intros pf.
  destruct (buy_averages_cost pf "600519" "Moutai" 2000 30 "2026-01-06"
              (Position.init "600519" "Moutai" 10 1800 "2026-01-05")
              eq_refl eq_refl eq_refl)
    as (pf' & pos' & Hbuy & Hpos & _ & Hbasis & _); [discriminate |].
  exists pf', pos'. split; [exact Hbuy |]. split; [exact Hpos |]. exact Hbasis.
Defined.


(** X7.  A purchase whose quantity cancels the holding (a negative quantity
    on a long position) is not refused: it raises [ZeroDivisionError] after
    the quantity of the position has been set to zero, so the ledger is left
    with a position that holds nothing, at the old average cost, and with
    the cash not debited. *)
Theorem buy_cancelling_holding_raises
    (pf : Portfolio.t) (code name : string) (price quantity : Q) (today : string)
    (pos : Position.t) :
  Portfolio.positions pf !! code = Some pos →
  Position.quantity pos + quantity == 0 →
  price * quantity <= Portfolio.cash pf →
  ∃ pf' pos',
    Portfolio.buy pf code name price quantity today
    = Portfolio.Raised ZeroDivisionError pf'
    ∧ Portfolio.cash pf' = Portfolio.cash pf
    ∧ Portfolio.positions pf' !! code = Some pos'
    ∧ Position.quantity pos' == 0
    ∧ Position.avg_cost pos' = Position.avg_cost pos
    ∧ ∀ k, k ≠ code → Portfolio.positions pf' !! k = Portfolio.positions pf !! k.
Proof.
  intros Hpos Hzero Hcash. unfold Portfolio.buy.
  apply Qgtb_le in Hcash. rewrite Hcash, Hpos. simpl.
  apply Qeq_bool_iff in Hzero as Hb. rewrite Hb.
  eexists. eexists. split; [reflexivity |]. simpl.
  split; [reflexivity |]. split; [apply lookup_insert_eq |]. simpl.
  split; [exact Hzero |]. split; [reflexivity |].
  intros k Hk. apply lookup_insert_ne. congruence.
Qed.

Lemma buy_cancelling_holding_raises_witness :
  let pf := Portfolio.state_of
              (Portfolio.buy (Portfolio.init 100000) "600519" "Moutai" 1800 10
                             "2026-01-05") in
  ∃ pf', Portfolio.buy pf "600519" "Moutai" 1800 (- 10) "2026-01-06"
         = Portfolio.Raised ZeroDivisionError pf'
         ∧ Portfolio.cash pf' = Portfolio.cash pf.
Proof.
  intros pf.
  destruct (buy_cancelling_holding_raises pf "600519" "Moutai" 1800 (- 10) "2026-01-06"
              (Position.init "600519" "Moutai" 10 1800 "2026-01-05")
              eq_refl eq_refl)
    as (pf' & pos' & Hbuy & Hcash & _); [discriminate |].
  exists pf'. split; assumption.
Defined.

(** ** The risk rules *)

(** X9.  When the stop-loss line is below the take-profit line, no price
    triggers both exits of a position. *)
Theorem stop_loss_and_take_profit_exclude (rm : RiskManager.t) (e c h : Q) :
  RiskManager.max_loss_pct rm < RiskManager.take_profit_pct rm →
  ¬ (RiskManager.check_stop_loss rm e c = Some true
     ∧ RiskManager.check_take_profit rm e c h = Some true).
Proof.
  intros Hlines [Hs Ht].
  unfold RiskManager.check_stop_loss, RiskManager.check_take_profit in *.
  destruct (RiskManager.pct e c) as [g|]; [| discriminate].
  injection Hs as Hs. apply Qleb_le in Hs.
  destruct (Qgeb g (RiskManager.take_profit_pct rm)) eqn:G; [| discriminate].
  apply Qgeb_ge in G. lra.
Qed.

Lemma stop_loss_and_take_profit_exclude_witness :
  ¬ (RiskManager.check_stop_loss RiskManager.default 100 90 = Some true
     ∧ RiskManager.check_take_profit RiskManager.default 100 90 120 = Some true).
Proof.
  apply (stop_loss_and_take_profit_exclude RiskManager.default 100 90 120).
  reflexivity.
Defined.


(** X10.  The position size never exceeds the cap [balance *
    max_position_pct]; for a non-negative balance and maximum fraction it
    is not negative and at least a quarter of the cap. *)
Theorem position_size_bounds
    (rm : RiskManager.t) (strength : Q) (regime : string) (balance : Q) :
  let size := RiskManager.calculate_position_size rm strength regime balance in
  let cap := balance * RiskManager.max_position_pct rm in
  size <= cap
  ∧ (0 <= balance → 0 <= RiskManager.max_position_pct rm →
     0 <= size ∧ cap * (1 # 4) <= size).
Proof.
  intros size cap. unfold size, RiskManager.calculate_position_size.
  fold cap.
  set (m := RiskManager.max_position_pct rm) in *.
  set (f := if Qgeb strength (8 # 10) then m
            else if Qgeb strength (5 # 10) then m * (75 # 100) else m * (5 # 10)).
  set (g := if String.eqb regime "mean_reversion" then f * (7 # 10)
            else if String.eqb regime "trend_down" then f * (5 # 10) else f).
  split.
  - unfold pymin. destruct (Qltb cap (balance * g)) eqn:E; [lra |].
    apply Qltb_ge in E. exact E.
  - intros Hb Hm.
    assert (m * (5 # 10) <= f ∧ f <= m) as [Hf1 Hf2].
    { unfold f. destruct (Qgeb strength (8 # 10)); [lra |].
      destruct (Qgeb strength (5 # 10)); lra. }
    assert (m * (1 # 4) <= g ∧ g <= m) as [Hg1 Hg2].
    { unfold g. destruct (String.eqb regime "mean_reversion"); [lra |].
      destruct (String.eqb regime "trend_down"); lra. }
    unfold pymin. destruct (Qltb cap (balance * g)); unfold cap; nra.
Qed.

Lemma position_size_bounds_witness :
  0 <= RiskManager.calculate_position_size RiskManager.default (6 # 10)
         "trend_down" 100000
  ∧ 100000 * (3 # 10) * (1 # 4)
    <= RiskManager.calculate_position_size RiskManager.default (6 # 10)
         "trend_down" 100000.
Proof.
  apply (position_size_bounds RiskManager.default (6 # 10) "trend_down" 100000);
    discriminate.
Defined.

(** X11.  For a non-negative balance and maximum fraction, a stronger
    signal never gets a smaller position in the same regime. *)
Theorem position_size_monotone
    (rm : RiskManager.t) (s1 s2 : Q) (regime : string) (balance : Q) :
  0 <= balance → 0 <= RiskManager.max_position_pct rm → s1 <= s2 →
  RiskManager.calculate_position_size rm s1 regime balance
  <= RiskManager.calculate_position_size rm s2 regime balance.
Proof.
  intros Hb Hm Hs. unfold RiskManager.calculate_position_size.
  set (m := RiskManager.max_position_pct rm) in *.
  set (f1 := if Qgeb s1 (8 # 10) then m
             else if Qgeb s1 (5 # 10) then m * (75 # 100) else m * (5 # 10)).
  set (f2 := if Qgeb s2 (8 # 10) then m
             else if Qgeb s2 (5 # 10) then m * (75 # 100) else m * (5 # 10)).
  assert (f1 <= f2 ∧ 0 <= f1 ∧ f2 <= m) as (Hf & Hf0 & Hfm).
  { unfold f1, f2.
    destruct (Qgeb s1 (8 # 10)) eqn:A1, (Qgeb s2 (8 # 10)) eqn:A2,
             (Qgeb s1 (5 # 10)) eqn:B1, (Qgeb s2 (5 # 10)) eqn:B2;
      repeat match goal with
             | H : Qgeb _ _ = true |- _ => apply Qgeb_ge in H
             | H : Qgeb _ _ = false |- _ => apply Qgeb_lt in H
             end; lra. }
  set (g1 := if String.eqb regime "mean_reversion" then f1 * (7 # 10)
             else if String.eqb regime "trend_down" then f1 * (5 # 10) else f1).
  set (g2 := if String.eqb regime "mean_reversion" then f2 * (7 # 10)
             else if String.eqb regime "trend_down" then f2 * (5 # 10) else f2).
  assert (g1 <= g2 ∧ g2 <= m) as (Hg & Hgm).
  { unfold g1, g2. destruct (String.eqb regime "mean_reversion"); [lra |].
    destruct (String.eqb regime "trend_down"); lra. }
  unfold pymin.
  destruct (Qltb (balance * m) (balance * g1)) eqn:E1,
           (Qltb (balance * m) (balance * g2)) eqn:E2;
    repeat match goal with
           | H : Qltb _ _ = true |- _ => apply Qltb_lt in H
           | H : Qltb _ _ = false |- _ => apply Qltb_ge in H
           end; nra.
Qed.

Lemma position_size_monotone_witness :
  RiskManager.calculate_position_size RiskManager.default (4 # 10) "trend_up" 100000
  <= RiskManager.calculate_position_size RiskManager.default (9 # 10) "trend_up" 100000.
Proof.
  apply (position_size_monotone RiskManager.default (4 # 10) (9 # 10) "trend_up" 100000);
    discriminate.
Defined.

(** ** Rounding and truncation *)

Lemma pow10_pos (nd : nat) : 0 < inject_Z (10 ^ Z.of_nat nd).
Proof.
  change 0 with (inject_Z 0). rewrite <- Zlt_Qlt.
  apply Z.pow_pos_nonneg; lia.
Qed.

(** ** The trade recommendation *)

(** X13.  With an entry price of zero [get_trade_recommendation] raises
    [ZeroDivisionError] whatever the other arguments: the guard on the
    entry price covers the reported gain only, not the two exit checks. *)
Theorem trade_recommendation_zero_entry
    (rm : RiskManager.t) (e c h : Q) (signal : string) :
  e == 0 →
  TradeRecommendation.get_trade_recommendation rm e c h signal = None.
Proof.
  intros He. unfold TradeRecommendation.get_trade_recommendation,
    RiskManager.check_stop_loss, RiskManager.pct.
  apply Qeq_bool_iff in He. rewrite He. reflexivity.
Qed.

Lemma trade_recommendation_zero_entry_witness :
  TradeRecommendation.get_trade_recommendation RiskManager.default 0 10 12 "HOLD" = None.
Proof.
  apply (trade_recommendation_zero_entry RiskManager.default 0 10 12 "HOLD").
  reflexivity.
Defined.

(** X14.  The recommendation follows the two checks: whatever they answer
    for the prices given, it is SELL exactly when the signal is "SELL" or
    one of the checks answers yes, and HOLD otherwise; the reason it gives
    is the stop-loss when that check answers yes, else the signal when it is
    "SELL", else the take-profit. *)
Theorem trade_recommendation_follows_checks
    (rm : RiskManager.t) (e c h : Q) (signal : string) (stop profit : bool) :
  RiskManager.check_stop_loss rm e c = Some stop →
  RiskManager.check_take_profit rm e c h = Some profit →
  ∃ r,
    TradeRecommendation.get_trade_recommendation rm e c h signal = Some r
    ∧ (TradeRecommendation.action r = "SELL" ↔
       signal = "SELL" ∨ stop = true ∨ profit = true)
    ∧ (TradeRecommendation.action r ≠ "SELL" → TradeRecommendation.action r = "HOLD")
    ∧ (stop = true → ∃ p, TradeRecommendation.why r = TradeRecommendation.StopLoss p)
    ∧ (stop = false → signal = "SELL" →
       TradeRecommendation.why r = TradeRecommendation.SignalTurnedShort)
    ∧ (stop = false → signal ≠ "SELL" → profit = true →
       ∃ p, TradeRecommendation.why r = TradeRecommendation.TakeProfitOrTrailing p).
Proof.
  intros Hstop Hprofit. unfold TradeRecommendation.get_trade_recommendation.
  rewrite Hstop, Hprofit. cbn [mbind option_bind].
  destruct (String.eqb signal "SELL") eqn:S.
  - apply String.eqb_eq in S. subst signal.
    eexists. split; [reflexivity |]. destruct stop; simpl.
    + split; [split; [intros _; left; reflexivity | reflexivity] |].
      split; [intros E; exfalso; apply E; reflexivity |].
      split; [intros _; eexists; reflexivity |].
      split; [discriminate |]. intros _ E. exfalso. apply E. reflexivity.
    + split; [split; [intros _; left; reflexivity | reflexivity] |].
      split; [intros E; exfalso; apply E; reflexivity |].
      split; [discriminate |].
      split; [reflexivity |]. intros _ E. exfalso. apply E. reflexivity.
  - apply String.eqb_neq in S.
    destruct stop, profit; simpl; try destruct (String.eqb signal "BUY");
      (eexists; split; [reflexivity |]); simpl;
      repeat split; try discriminate; try reflexivity; try tauto;
      try (intros; eexists; reflexivity);
      try (intros E; exfalso; apply E; reflexivity);
      try (intros [? | [? | ?]]; congruence);
      try (intros _; right; left; reflexivity);
      try (intros _; right; right; reflexivity).
Qed.

Lemma trade_recommendation_follows_checks_witness :
  ∃ r,
    TradeRecommendation.get_trade_recommendation RiskManager.default 10 (95 # 10) 12
                                                 "HOLD"
    = Some r
    ∧ TradeRecommendation.action r = "HOLD".
Proof.
  destruct (trade_recommendation_follows_checks RiskManager.default 10 (95 # 10) 12
              "HOLD" false false eq_refl eq_refl) as (r & Hr & Hsell & Hhold & _).
  exists r. split; [exact Hr |]. apply Hhold. intros Hact. apply Hsell in Hact.
  destruct Hact as [Hact | [Hact | Hact]]; discriminate.
Defined.

(** ** Regime and ensemble decisions *)

Lemma rolling_last_undefined (w : nat) (agg : list Q → Series.cell)
    (col : list Series.cell) :
  (length col < w)%nat →
  default None (Series.iloc_last (Series.rolling w agg col)) = None.
Proof.
  intros Hlen. unfold Series.iloc_last. rewrite rolling_length, rolling_lookup.
  case_decide; [| reflexivity]. simpl. unfold Series.window.
  assert ((length col - 1 + 1 <? w)%nat = true) as -> by (apply Nat.ltb_lt; lia).
  rewrite orb_true_r. reflexivity.
Qed.

(** X15.  On fewer than 60 bars the regime detector never answers
    TREND_UP: the 60-day average of the last row is undefined and the
    comparison with it is false. *)
Theorem detect_trend_up_needs_sixty_bars `{Sqrt} (df : list Bar.t) :
  (length df < 60)%nat → MarketRegimeDetector.detect df ≠ TREND_UP.
Proof.
  intros Hlen. unfold MarketRegimeDetector.detect.
  destruct (length df <? 20)%nat; [discriminate |].
  destruct (Series.gt _ (Series.mul _ _)); [discriminate |].
  rewrite (rolling_last_undefined 60) by (rewrite length_map; exact Hlen).
  unfold Series.gt, Series.lt. discriminate.
Qed.

Lemma detect_trend_up_needs_sixty_bars_witness :
  @MarketRegimeDetector.detect Qsqrt (take 59 sixty_flat_then_drop) ≠ TREND_UP.
Proof.
  apply (@detect_trend_up_needs_sixty_bars Qsqrt (take 59 sixty_flat_then_drop)).
  vm_compute. lia.
Defined.




(** ** The mean-reversion strategy *)

Section reversion_signal.
Context `{Sqrt}.




End reversion_signal.



(** ** The back-test engine *)

Section engine.
Context `{Sqrt}.

(** X21.  From row 60 on, the signal of the engine follows the regime of
    the bars up to that row: in a mean-reverting market it is the answer of
    the reversion strategy; in a trend, up or down, it is the answer of the
    trend strategy unless the reversion strategy says the opposite, in
    which case it is HOLD.  Before row 60 it is HOLD. *)
Theorem engine_signal_by_regime
    (self : BacktestEngine.t) (df : list Bar.t) (i : nat) (trend reversion : Signal) :
  TrendStrategy.get_signal (BacktestEngine.trend self) (take (i + 1) df) = Some trend →
  MeanReversionStrategy.get_signal (BacktestEngine.reversion self) (take (i + 1) df)
  = Some reversion →
  BacktestEngine.get_signal self df i
  = Some (if (i <? 60)%nat then HOLD
          else match MarketRegimeDetector.detect (take (i + 1) df) with
               | MEAN_REVERSION => reversion
               | _ =>
                   match trend, reversion with
                   | BUY, SELL | SELL, BUY => HOLD
                   | _, _ => trend
                   end
               end).
Proof.
  intros Ht Hr. unfold BacktestEngine.get_signal.
  destruct (i <? 60)%nat; [reflexivity |].
  rewrite Ht, Hr. simpl.
  destruct (MarketRegimeDetector.detect (take (i + 1) df)), trend, reversion;
    reflexivity.
Qed.

Lemma execute_trade_keeps
    (self self' : BacktestEngine.t) (signal : Signal) (price : Q) (date : nat) :
  BacktestEngine.execute_trade self signal price date = Some self' →
  engine_consistent self →
  engine_consistent self'
  ∧ BacktestEngine.equity_curve self' = BacktestEngine.equity_curve self
  ∧ BacktestEngine.initial_capital self' = BacktestEngine.initial_capital self
  ∧ BacktestEngine.trend self' = BacktestEngine.trend self
  ∧ BacktestEngine.reversion self' = BacktestEngine.reversion self.
Proof.
  unfold BacktestEngine.execute_trade, engine_consistent.
  intros Hex (Hpos & Hcount & Hlog).
  destruct signal.
  - case_bool_decide as Hflat; [| injection Hex as <-; tauto].
    destruct (Qeq_bool _ 0); [discriminate |].
    destruct (0 <? _)%Z; injection Hex as <-; [| tauto].
    simpl. rewrite length_app. simpl. rewrite Hflat in Hcount.
    repeat split; try reflexivity; [right; reflexivity | lia | lia].
  - case_bool_decide as Hlong; [| injection Hex as <-; tauto].
    injection Hex as <-. simpl. rewrite length_app. simpl. rewrite Hlong in Hcount.
    destruct (Qgtb _ 0); repeat split; try reflexivity; try (left; reflexivity); lia.
  - injection Hex as <-. tauto.
Qed.

Lemma check_keeps
    (self self' : BacktestEngine.t) (price : Q) (date : nat) (b : bool) :
  BacktestEngine.check_stop_loss_take_profit self price date = Some (b, self') →
  engine_consistent self →
  engine_consistent self'
  ∧ BacktestEngine.equity_curve self' = BacktestEngine.equity_curve self
  ∧ BacktestEngine.initial_capital self' = BacktestEngine.initial_capital self
  ∧ BacktestEngine.trend self' = BacktestEngine.trend self
  ∧ BacktestEngine.reversion self' = BacktestEngine.reversion self.
Proof.
  unfold BacktestEngine.check_stop_loss_take_profit. intros Hck Hc.
  case_bool_decide; [injection Hck as _ <-; tauto |].
  destruct (Qleb _ BacktestConfig.STOP_LOSS).
  { destruct (BacktestEngine.execute_trade self SELL price date) as [s|] eqn:E;
      [| discriminate].
    simpl in Hck. injection Hck as _ <-. exact (execute_trade_keeps _ _ _ _ _ E Hc). }
  destruct (Qgeb _ BacktestConfig.TAKE_PROFIT); [| injection Hck as _ <-; tauto].
  destruct (Qltb _ _); [| injection Hck as _ <-; tauto].
  destruct (BacktestEngine.execute_trade self SELL price date) as [s|] eqn:E;
    [| discriminate].
  simpl in Hck. injection Hck as _ <-. exact (execute_trade_keeps _ _ _ _ _ E Hc).
Qed.

Lemma day_keeps (df : list Bar.t) (self self' : BacktestEngine.t) (i : nat) :
  BacktestEngine.day df self i = Some self' →
  engine_consistent self →
  engine_consistent self'
  ∧ length (BacktestEngine.equity_curve self')
    = S (length (BacktestEngine.equity_curve self))
  ∧ BacktestEngine.initial_capital self' = BacktestEngine.initial_capital self
  ∧ BacktestEngine.trend self' = BacktestEngine.trend self
  ∧ BacktestEngine.reversion self' = BacktestEngine.reversion self.
Proof.
  unfold BacktestEngine.day. intros Hday Hc.
  destruct (df !! i) as [bar|]; simpl in Hday; [| discriminate].
  destruct (BacktestEngine.check_stop_loss_take_profit self _ _) as [[b s1]|] eqn:E1;
    simpl in Hday; [| discriminate].
  destruct (check_keeps _ _ _ _ _ E1 Hc) as (Hc1 & He1 & Hi1 & Ht1 & Hr1).
  assert (∃ s2, (if bool_decide (BacktestEngine.current_position s1 = 0%Z)
                 then signal ← BacktestEngine.get_signal s1 df i;
                      BacktestEngine.execute_trade s1 signal (Bar.close bar)
                                                   (Bar.date bar)
                 else Some s1) = Some s2
                ∧ self' = BacktestEngine.record_equity s2 (Bar.date bar)
                            (BacktestEngine.equity_of s2 (Bar.close bar)))
    as (s2 & E2 & ->).
  { destruct (if bool_decide (BacktestEngine.current_position s1 = 0%Z) then _
              else Some s1) as [s2|]; simpl in Hday; [| discriminate].
    injection Hday as <-. eexists. split; reflexivity. }
  assert (engine_consistent s2
          ∧ BacktestEngine.equity_curve s2 = BacktestEngine.equity_curve s1
          ∧ BacktestEngine.initial_capital s2 = BacktestEngine.initial_capital s1
          ∧ BacktestEngine.trend s2 = BacktestEngine.trend s1
          ∧ BacktestEngine.reversion s2 = BacktestEngine.reversion s1)
    as (Hc2 & He2 & Hi2 & Ht2 & Hr2).
  { case_bool_decide; [| injection E2 as <-; tauto].
    destruct (BacktestEngine.get_signal s1 df i) as [signal|]; simpl in E2;
      [| discriminate].
    exact (execute_trade_keeps _ _ _ _ _ E2 Hc1). }
  unfold BacktestEngine.record_equity, engine_consistent in *. simpl.
  rewrite length_app. simpl.
  repeat split; try tauto; try congruence.
  rewrite He2, He1. lia.
Qed.

Lemma steps_from_none (df : list Bar.t) (days : list nat) :
  foldl (λ acc i, self ← acc; BacktestEngine.day df self i) None days = None.
Proof. induction days as [| i days IH]; [reflexivity | exact IH]. Qed.

Lemma steps_keep (df : list Bar.t) (days : list nat) (self final : BacktestEngine.t) :
  foldl (λ acc i, self ← acc; BacktestEngine.day df self i) (Some self) days
  = Some final →
  engine_consistent self →
  engine_consistent final
  ∧ length (BacktestEngine.equity_curve final)
    = (length (BacktestEngine.equity_curve self) + length days)%nat
  ∧ BacktestEngine.initial_capital final = BacktestEngine.initial_capital self.
Proof.
  revert self. induction days as [| i days IH]; intros self Hrun Hc; simpl in *.
  - injection Hrun as <-. split; [exact Hc |]. split; [lia | reflexivity].
  - destruct (BacktestEngine.day df self i) as [s|] eqn:E.
    + destruct (day_keeps df self s i E Hc) as (Hc' & Hl & Hi & _).
      destruct (IH s Hrun Hc') as (Hc'' & Hl' & Hi').
      split; [exact Hc'' |]. split; [lia | congruence].
    + rewrite steps_from_none in Hrun. discriminate.
Qed.

(** X22.  From a consistent state, in particular from a new engine, a run
    that returns leaves the engine flat, with as many wins and losses as
    purchases, two log entries per purchase, one equity point more per bar,
    and the initial capital untouched. *)
Theorem run_ends_flat (self final : BacktestEngine.t) (df : list Bar.t) :
  engine_consistent self →
  BacktestEngine.run self df = Some final →
  BacktestEngine.current_position final = 0%Z
  ∧ BacktestEngine.total_trades final
    = (BacktestEngine.winning_trades final + BacktestEngine.losing_trades final)%nat
  ∧ length (BacktestEngine.trades final) = (2 * BacktestEngine.total_trades final)%nat
  ∧ length (BacktestEngine.equity_curve final)
    = (length (BacktestEngine.equity_curve self) + length df)%nat
  ∧ BacktestEngine.initial_capital final = BacktestEngine.initial_capital self.
Proof.
  intros Hc. unfold BacktestEngine.run, BacktestEngine.loop.
  destruct (Series.iloc_last df) as [last_bar|]; cbn [mbind option_bind];
    [| discriminate].
  destruct (foldl _ (Some self) (seq 0 (length df))) as [s|] eqn:E;
    cbn [mbind option_bind]; [| discriminate].
  destruct (steps_keep df _ self s E Hc) as (Hcs & Hl & Hi).
  rewrite length_seq in Hl.
  assert (∀ f, engine_consistent f → BacktestEngine.current_position f = 0%Z →
               BacktestEngine.total_trades f
               = (BacktestEngine.winning_trades f + BacktestEngine.losing_trades f)%nat
               ∧ length (BacktestEngine.trades f)
                 = (2 * BacktestEngine.total_trades f)%nat) as Hflat.
  { intros f (_ & Hcount & Hlog) Hz. rewrite Hz in Hcount. lia. }
  case_bool_decide as Hlong.
  - intros Hsell.
    destruct (execute_trade_keeps _ _ _ _ _ Hsell Hcs) as (Hcf & He & Hi' & _).
    assert (BacktestEngine.current_position final = 0%Z) as Hz.
    { unfold BacktestEngine.execute_trade in Hsell. rewrite Hlong in Hsell.
      simpl in Hsell. injection Hsell as <-. reflexivity. }
    destruct (Hflat final Hcf Hz). repeat split; try assumption; congruence.
  - intros [= <-].
    assert (BacktestEngine.current_position s = 0%Z) as Hz.
    { destruct Hcs as ([Hz | Ho] & _); [exact Hz | contradiction]. }
    destruct (Hflat s Hcs Hz). repeat split; assumption.
Qed.

End engine.

Lemma init_consistent (symbol name : string) (capital : Q) :
  engine_consistent (BacktestEngine.init symbol name capital).
Proof. unfold engine_consistent. simpl. split; [left; reflexivity | split; reflexivity]. Qed.

Lemma engine_signal_by_regime_witness :
  @BacktestEngine.get_signal Qsqrt (BacktestEngine.init "510050" "ETF" 100000)
     sixty_flat_then_drop 60
  = Some BUY.
Proof.
  rewrite (@engine_signal_by_regime Qsqrt (BacktestEngine.init "510050" "ETF" 100000)
             sixty_flat_then_drop 60 SELL BUY).
  - vm_compute. reflexivity.
  - vm_compute. reflexivity.
  - vm_compute. reflexivity.
Defined.

Lemma run_ends_flat_witness :
  ∃ final,
    @BacktestEngine.run Qsqrt (BacktestEngine.init "510050" "ETF" 100000)
                        drop_then_rally = Some final
    ∧ BacktestEngine.current_position final = 0%Z
    ∧ length (BacktestEngine.equity_curve final) = 62%nat.
Proof.
  destruct (@BacktestEngine.run Qsqrt (BacktestEngine.init "510050" "ETF" 100000)
                                drop_then_rally) as [final|] eqn:E;
    [| vm_compute in E; discriminate].
  exists final. split; [reflexivity |].
  destruct (@run_ends_flat Qsqrt (BacktestEngine.init "510050" "ETF" 100000) final
              drop_then_rally (init_consistent _ _ _) E) as (Hz & _ & _ & Hl & _).
  split; [exact Hz | exact Hl].
Defined.

Section engine_runs.
Context `{Sqrt}.

Lemma warm_up_state (self : BacktestEngine.t) (bars : list Bar.t) :
  let s := foldl (λ s bar, BacktestEngine.record_equity s (Bar.date bar)
                             (BacktestEngine.initial_capital s)) self bars in
  BacktestEngine.current_position s = BacktestEngine.current_position self
  ∧ BacktestEngine.initial_capital s = BacktestEngine.initial_capital self
  ∧ BacktestEngine.trades s = BacktestEngine.trades self
  ∧ BacktestEngine.equity_curve s
    = BacktestEngine.equity_curve self
      ++ map (λ bar, BacktestEngine.mkpoint (Bar.date bar)
                       (BacktestEngine.initial_capital self)) bars.
Proof.
  revert self. induction bars as [| bar bars IH]; intros self; simpl.
  - rewrite app_nil_r. repeat split; reflexivity.
  - destruct (IH (BacktestEngine.record_equity self (Bar.date bar)
                    (BacktestEngine.initial_capital self))) as (H1 & H2 & H3 & H4).
    simpl in *. rewrite H1, H2, H3, H4, <- app_assoc. repeat split; reflexivity.
Qed.

Lemma warm_up_loop (self : BacktestEngine.t) (df : list Bar.t) (n : nat) :
  BacktestEngine.current_position self = 0%Z →
  (n ≤ length df)%nat → (n ≤ 60)%nat →
  foldl (λ acc i, self ← acc; BacktestEngine.day df self i) (Some self) (seq 0 n)
  = Some (foldl (λ s bar, BacktestEngine.record_equity s (Bar.date bar)
                            (BacktestEngine.initial_capital s)) self (take n df)).
Proof.
  intros Hflat. induction n as [| n IH]; intros Hlen Hsixty.
  - rewrite take_0. reflexivity.
  - rewrite seq_S, foldl_app, IH by lia. simpl.
    destruct (df !! n) as [bar|] eqn:Hbar;
      [| apply lookup_ge_None in Hbar; lia].
    rewrite (take_S_r df n bar Hbar), foldl_app. simpl.
    set (s := foldl _ self (take n df)).
    destruct (warm_up_state self (take n df)) as (Hp & _). fold s in Hp.
    rewrite Hflat in Hp.
    unfold BacktestEngine.day. rewrite Hbar. simpl.
    unfold BacktestEngine.check_stop_loss_take_profit. rewrite Hp. simpl.
    rewrite Hp. simpl. unfold BacktestEngine.get_signal.
    assert ((n <? 60)%nat = true) as -> by (apply Nat.ltb_lt; lia). simpl.
    unfold BacktestEngine.equity_of. rewrite Hp. reflexivity.
Qed.

(** X23.  On a frame of at most 60 bars a flat engine never trades: the run
    returns the engine as it was, with one equity point per bar, each equal
    to the initial capital. *)
Theorem run_warm_up (self : BacktestEngine.t) (df : list Bar.t) :
  BacktestEngine.current_position self = 0%Z →
  df ≠ [] → (length df ≤ 60)%nat →
  ∃ final,
    BacktestEngine.run self df = Some final
    ∧ BacktestEngine.trades final = BacktestEngine.trades self
    ∧ BacktestEngine.current_position final = 0%Z
    ∧ BacktestEngine.equity_curve final
      = BacktestEngine.equity_curve self
        ++ map (λ bar, BacktestEngine.mkpoint (Bar.date bar)
                         (BacktestEngine.initial_capital self)) df.
Proof.
  intros Hflat Hne Hlen. unfold BacktestEngine.run, BacktestEngine.loop.
  destruct (Series.iloc_last df) as [last_bar|] eqn:Hlast.
  - cbn [mbind option_bind]. rewrite (warm_up_loop self df (length df) Hflat) by lia.
    rewrite take_ge by lia. cbn [mbind option_bind].
    destruct (warm_up_state self df) as (Hp & _ & Ht & He).
    rewrite Hp, Hflat. simpl. eexists. split; [reflexivity |].
    rewrite Hp, Ht, He. repeat split; assumption || reflexivity.
  - exfalso. unfold Series.iloc_last in Hlast. apply lookup_ge_None in Hlast.
    destruct df; [contradiction | simpl in Hlast; lia].
Qed.





End engine_runs.

Lemma run_warm_up_witness :
  ∃ final,
    @BacktestEngine.run Qsqrt (BacktestEngine.init "510050" "ETF" 100000) (flat 60 100 0)
    = Some final
    ∧ BacktestEngine.trades final = []
    ∧ length (BacktestEngine.equity_curve final) = 60%nat.
Proof.
  destruct (@run_warm_up Qsqrt (BacktestEngine.init "510050" "ETF" 100000) (flat 60 100 0))
    as (final & Hrun & Ht & _ & He).
  - reflexivity.
  - discriminate.
  - vm_compute. lia.
  - exists final. split; [exact Hrun |]. split; [exact Ht |]. rewrite He. reflexivity.
Defined.

(** ** [backtest_with_chart] *)

Lemma v3_frame_lengths (strategy : MAStrategy.t) (df : list Bar.t) :
  MAStrategy.bars (MAStrategy.calculate strategy df) = df
  ∧ length (MAStrategy.cross_change (MAStrategy.calculate strategy df)) = length df.
Proof.
  split; [reflexivity |]. simpl.
  rewrite diff_length, length_zip_with, !rolling_length, length_map. lia.
Qed.

(** X26.  When the frame has more than 70 rows and [backtest_with_chart]
    returns, the final capital, from which the returns are computed, is the
    equity of the last point of the curve: the closing sale happens at the
    close that the last point was marked at. *)
Theorem backtest_with_chart_final_capital (df : list Bar.t) (st : BacktestV3.t) :
  (70 < length df)%nat →
  BacktestV3.backtest_with_chart df = Some st →
  ∃ p, Series.iloc_last (BacktestV3.equity_curve st) = Some p
       ∧ BacktestV3.capital st == BacktestV3.equity p.
Proof.
  intros Hlen. unfold BacktestV3.backtest_with_chart, BacktestV3.loop.
  destruct (Series.iloc_last df) as [last_bar|] eqn:Hlast; [| discriminate].
  cbn [mbind option_bind].
  destruct (v3_frame_lengths (MAStrategy.mk 20 60) df) as [Hbars _].
  rewrite Hbars.
  replace (length df - 70)%nat with (S (length df - 71)) by lia.
  rewrite seq_S, foldl_app.
  replace (70 + (length df - 71))%nat with (length df - 1)%nat by lia.
  cbn [foldl].
  destruct (foldl _ (Some BacktestV3.start) (seq 70 (length df - 71))) as [s0|];
    cbn [mbind option_bind]; [| discriminate].
  destruct (BacktestV3.day (MAStrategy.mk 20 60)
              (MAStrategy.calculate (MAStrategy.mk 20 60) df) s0 (length df - 1))
    as [s1|] eqn:Eday;
    cbn [mbind option_bind]; [| discriminate].
  destruct (v3_day_records_mark_to_market _ _ _ _ _ Eday) as (bar & e & Hbar & Hcurve & He).
  rewrite Hbars in Hbar. unfold Series.iloc_last in Hlast.
  assert (bar = last_bar) as -> by congruence.
  unfold v3_value, v3_quantity in He.
  case_bool_decide as Hlong; intros [= <-]; simpl; rewrite Hcurve, iloc_last_snoc;
    eexists; (split; [reflexivity |]); simpl; rewrite He.
  - reflexivity.
  - ring.
Qed.

Lemma backtest_with_chart_final_capital_witness :
  ∃ st p,
    BacktestV3.backtest_with_chart flat_then_rise = Some st
    ∧ Series.iloc_last (BacktestV3.equity_curve st) = Some p
    ∧ BacktestV3.capital st == BacktestV3.equity p
    ∧ BacktestV3.position st = 1%Z
    ∧ BacktestV3.shares st = 909%Z
    ∧ BacktestV3.capital st == 100000.
Proof.
  destruct (BacktestV3.backtest_with_chart flat_then_rise) as [st|] eqn:E;
    [| vm_compute in E; discriminate].
  destruct (backtest_with_chart_final_capital flat_then_rise st) as (p & Hp & Hcap).
  - vm_compute. lia.
  - exact E.
  - exists st, p. split; [reflexivity |]. split; [exact Hp |]. split; [exact Hcap |].
    vm_compute in E. injection E as <-. repeat split.
Defined.

(** ** The scanner *)

Section scanner.
Context `{Sqrt}.

(** X27.  On a frame of at least five rows [analyze] of a new scanner
    returns an analysis: it reports the answers of the two strategies and
    the detected regime, says BUY exactly when one strategy says BUY and the
    other does not say SELL, SELL exactly when one says SELL and the other
    does not say BUY; on fewer than 20 rows the signal is HOLD in a
    mean-reverting regime.  On fewer than five rows it returns the shortage
    error with the number of rows. *)
Theorem scanner_analysis (code name : string) (df : list Bar.t) :
  ((length df < 5)%nat →
   Scanner.analyze Scanner.init code name df
   = Scanner.Error code name (Scanner.InsufficientData (length df)))
  ∧ ((5 ≤ length df)%nat →
     ∃ t r a,
       TrendStrategy.get_signal TrendStrategy.default df = Some t
       ∧ MeanReversionStrategy.get_signal MeanReversionStrategy.default df = Some r
       ∧ Scanner.analyze Scanner.init code name df = Scanner.Analysis a
       ∧ Scanner.code a = code ∧ Scanner.name a = name
       ∧ Scanner.trend a = Signal_name t
       ∧ Scanner.reversion a = Signal_name r
       ∧ Scanner.regime a = MarketRegime_value (MarketRegimeDetector.detect df)
       ∧ (Scanner.signal a = "BUY" ↔ (t = BUY ∧ r ≠ SELL) ∨ (r = BUY ∧ t ≠ SELL))
       ∧ (Scanner.signal a = "SELL" ↔ (t = SELL ∧ r ≠ BUY) ∨ (r = SELL ∧ t ≠ BUY))
       ∧ ((length df < 20)%nat →
          Scanner.signal a = "HOLD" ∧ Scanner.regime a = "mean_reversion")).
Proof.
  split.
  - intros Hlen. unfold Scanner.analyze.
    apply Nat.ltb_lt in Hlen. rewrite Hlen. reflexivity.
  - intros Hlen. unfold Scanner.analyze.
    assert ((length df <? 5)%nat = false) as -> by (apply Nat.ltb_ge; exact Hlen).
    destruct (trend_get_signal_total TrendStrategy.default df) as [t Ht];
      [simpl; unfold Config.LONG_MA; lia |].
    destruct (reversion_get_signal_total MeanReversionStrategy.default df) as [r Hr];
      [simpl; unfold Config.REVERSION_WINDOW; lia |].
    destruct (last_cell_exists df (length df) eq_refl) as [latest Hlatest]; [lia |].
    destruct (last_cell_exists
                (TrendStrategy.ma_short (TrendStrategy.calculate TrendStrategy.default df))
                (length df)) as [ms Hms]; [| lia |].
    { simpl. rewrite rolling_length, length_map. reflexivity. }
    destruct (last_cell_exists
                (TrendStrategy.ma_long (TrendStrategy.calculate TrendStrategy.default df))
                (length df)) as [ml Hml]; [| lia |].
    { simpl. rewrite rolling_length, length_map. reflexivity. }
    exists t, r. eexists.
    split; [exact Ht |]. split; [exact Hr |].
    cbn [Scanner.trend_strategy Scanner.reversion_strategy Scanner.init].
    rewrite Ht, Hr, Hlatest, Hms, Hml.
    split; [reflexivity |].
    cbn [Scanner.code Scanner.name Scanner.trend Scanner.reversion Scanner.regime
         Scanner.signal].
    do 5 (split; [reflexivity |]).
    split; [| split].
    + destruct t, r;
        match goal with
        | |- ?x = _ ↔ _ => let v := eval vm_compute in x in change x with v
        end; intuition congruence.
    + destruct t, r;
        match goal with
        | |- ?x = _ ↔ _ => let v := eval vm_compute in x in change x with v
        end; intuition congruence.
    + intros Hshort.
      assert (t = HOLD) as ->.
      { unfold TrendStrategy.get_signal in Ht.
        change (TrendStrategy.bars (TrendStrategy.calculate TrendStrategy.default df))
          with df in Ht.
        assert ((length df <? TrendStrategy.long_ma TrendStrategy.default)%nat = true)
          as E by (apply Nat.ltb_lt; exact Hshort).
        rewrite E in Ht. congruence. }
      assert (r = HOLD) as ->.
      { unfold MeanReversionStrategy.get_signal in Hr.
        change (MeanReversionStrategy.bars
                  (MeanReversionStrategy.calculate MeanReversionStrategy.default df))
          with df in Hr.
        assert ((length df <? MeanReversionStrategy.window MeanReversionStrategy.default)%nat
                = true) as E by (apply Nat.ltb_lt; exact Hshort).
        rewrite E in Hr. congruence. }
      split; [reflexivity |].
      unfold MarketRegimeDetector.detect.
      assert ((length df <? 20)%nat = true) as -> by (apply Nat.ltb_lt; exact Hshort).
      reflexivity.
Qed.

End scanner.

Lemma scanner_analysis_witness :
  ∃ a, @Scanner.analyze Qsqrt Scanner.init "510050" "ETF" (drop 1 sixty_flat_then_drop)
       = Scanner.Analysis a
       ∧ Scanner.trend a = "SELL" ∧ Scanner.reversion a = "BUY".
Proof.
  destruct (@scanner_analysis Qsqrt "510050" "ETF" (drop 1 sixty_flat_then_drop))
    as [_ Hlong].
  destruct Hlong as (t & r & a & Ht & Hr & Ha & _ & _ & Htrend & Hrev & _).
  - vm_compute. lia.
  - exists a. split; [exact Ha |].
    assert (t = SELL) as -> by (vm_compute in Ht; congruence).
    assert (r = BUY) as -> by (vm_compute in Hr; congruence).
    split; assumption.
Defined.

(** X28.  [find_opportunities] keeps the order of the results: the buy
    list is the analyses whose signal is "BUY", the sell list those whose
    signal is "SELL", and the watch list has one entry for every analysis;
    error results are in none of them. *)
Theorem find_opportunities_lists (results : list Scanner.result) :
  let found := Scanner.find_opportunities results in
  Scanner.buy_signals found
  = filter (λ a, Scanner.signal a = "BUY"%string) (analyses_of results)
  ∧ Scanner.sell_signals found
    = filter (λ a, Scanner.signal a = "SELL"%string) (analyses_of results)
  ∧ Scanner.watch_list found = map watch_of (analyses_of results).
Proof.
  unfold Scanner.find_opportunities.
  assert (∀ acc,
            let found := foldl Scanner.note acc results in
            Scanner.buy_signals found
            = Scanner.buy_signals acc
              ++ filter (λ a, Scanner.signal a = "BUY"%string) (analyses_of results)
            ∧ Scanner.sell_signals found
              = Scanner.sell_signals acc
                ++ filter (λ a, Scanner.signal a = "SELL"%string) (analyses_of results)
            ∧ Scanner.watch_list found
              = Scanner.watch_list acc ++ map watch_of (analyses_of results)) as Hacc.
  { induction results as [| r results IH]; intros acc.
    - simpl. rewrite !app_nil_r. repeat split; reflexivity.
    - destruct r as [c n e | a]; [exact (IH acc) |].
      destruct (IH (Scanner.note acc (Scanner.Analysis a))) as (Hb & Hs & Hw).
      cbn zeta in Hb, Hs, Hw. cbn [foldl]. cbn zeta.
      change (analyses_of (Scanner.Analysis a :: results))
        with (a :: analyses_of results).
      rewrite Hb, Hs, Hw. unfold Scanner.note. rewrite !filter_cons.
      destruct (String.eqb (Scanner.signal a) "BUY") eqn:B.
      + apply String.eqb_eq in B as Hbuy.
        rewrite decide_True by exact Hbuy.
        rewrite decide_False by (rewrite Hbuy; discriminate).
        simpl. rewrite <- !app_assoc. repeat split; reflexivity.
      + apply String.eqb_neq in B as Hbuy.
        rewrite decide_False by exact Hbuy.
        destruct (String.eqb (Scanner.signal a) "SELL") eqn:S.
        * apply String.eqb_eq in S as Hsell. rewrite decide_True by exact Hsell.
          simpl. rewrite <- !app_assoc. repeat split; reflexivity.
        * apply String.eqb_neq in S as Hsell. rewrite decide_False by exact Hsell.
          simpl. rewrite <- !app_assoc. repeat split; reflexivity. }
  exact (Hacc (Scanner.mkopportunities [] [] [])).
Qed.

(** ** The report of a back-test *)

(** [round(x, nd)] does not cross an integer: a bound of [x] that is an
    integer is a bound of the rounded number. *)
Lemma pyround_grid (x : Q) (nd : nat) (k : Z) :
  (inject_Z k <= x → inject_Z k <= pyround x nd)
  ∧ (x <= inject_Z k → pyround x nd <= inject_Z k).
Proof.
  unfold pyround.
  pose proof (pow10_pos nd) as Hs.
  set (S := (10 ^ Z.of_nat nd)%Z) in *.
  set (s := inject_Z S) in *.
  set (y := x * s).
  pose proof (Qfloor_le y) as Hlo.
  set (f := Qfloor y) in *.
  assert (inject_Z k * s == inject_Z (k * S)) as Hks.
  { unfold s. rewrite inject_Z_mult. reflexivity. }
  assert (∀ n : Z, (k * S <= n)%Z → inject_Z k <= inject_Z n / s) as Hge.
  { intros n Hn. apply Qle_shift_div_l; [exact Hs |].
    rewrite Hks. rewrite <- Zle_Qle. exact Hn. }
  assert (∀ n : Z, (n <= k * S)%Z → inject_Z n / s <= inject_Z k) as Hle.
  { intros n Hn. apply Qle_shift_div_r; [exact Hs |].
    rewrite Hks. rewrite <- Zle_Qle. exact Hn. }
  assert (inject_Z k <= x → (k * S <= f)%Z) as Hlow.
  { intros Hk. unfold f. rewrite <- (Qfloor_Z (k * S)).
    apply Qfloor_resp_le. rewrite <- Hks. unfold y. nra. }
  assert (x <= inject_Z k → (f <= k * S)%Z) as Hup.
  { intros Hk. unfold f. rewrite <- (Qfloor_Z (k * S)).
    apply Qfloor_resp_le. rewrite <- Hks. unfold y. nra. }
  assert (x <= inject_Z k → inject_Z f < y → (f + 1 <= k * S)%Z) as Hup'.
  { intros Hk Hf.
    assert (inject_Z f < inject_Z (k * S)) as Hlt.
    { rewrite <- Hks. unfold y in Hf. nra. }
    rewrite <- Zlt_Qlt in Hlt. lia. }
  destruct (Qltb (y - inject_Z f) (1 # 2)) eqn:A.
  { split; intros Hk; [apply Hge | apply Hle]; auto. }
  apply Qltb_ge in A.
  assert (inject_Z f < y) as Hf by lra.
  destruct (Qgtb (y - inject_Z f) (1 # 2)).
  { split; intros Hk; [apply Hge | apply Hle]; auto.
    specialize (Hlow Hk). lia. }
  destruct (Z.even f); split; intros Hk; try (apply Hge); try (apply Hle); auto.
  specialize (Hlow Hk). lia.
Qed.

(** The running maximum is as long as the column, not under the column,
    and not under its first cell. *)
Lemma cummax_step (rest : list Q) (top : Q) (acc : list Q) :
  ∃ tl,
    snd (foldl (λ (acc : Q * list Q) y,
                let top := if Qgtb y (fst acc) then y else fst acc in
                (top, snd acc ++ [top]))
               (top, acc) rest)
    = acc ++ tl
    ∧ Forall2 (λ e t, e <= t ∧ top <= t) rest tl.
Proof.
  set (step := λ (acc : Q * list Q) y,
                let top := if Qgtb y (fst acc) then y else fst acc in
                (top, snd acc ++ [top])).
  revert top acc. induction rest as [| y rest IH]; intros top acc.
  - exists []. simpl. rewrite app_nil_r. split; [reflexivity | constructor].
  - set (top' := if Qgtb y top then y else top).
    change (foldl step (top, acc) (y :: rest))
      with (foldl step (top', acc ++ [top']) rest).
    assert (y <= top' ∧ top <= top') as [Hy Ht].
    { unfold top'. destruct (Qgtb y top) eqn:G.
      - apply Qgtb_gt in G. split; lra.
      - apply Qgtb_le in G. split; lra. }
    destruct (IH top' (acc ++ [top'])) as (tl & Htl & Hall).
    exists (top' :: tl). split.
    + rewrite Htl, <- app_assoc. reflexivity.
    + constructor; [split; assumption |].
      eapply Forall2_impl; [| exact Hall].
      intros e t [He Ht']. split; [exact He | lra].
Qed.

Lemma cummax_above (x : Q) (rest : list Q) :
  Forall2 (λ e t, e <= t ∧ x <= t) (x :: rest) (Series.cummax (x :: rest)).
Proof.
  destruct (cummax_step rest x []) as (tl & Htl & Hall).
  change (Series.cummax (x :: rest))
    with (x :: snd (foldl (λ (acc : Q * list Q) y,
                           let top := if Qgtb y (fst acc) then y else fst acc in
                           (top, snd acc ++ [top]))
                          (x, []) rest)).
  rewrite Htl. constructor; [split; lra | exact Hall].
Qed.

(** On a positive curve every draw-down is a number between -1 and 0. *)
Lemma drawdown_cells (equity : list Q) :
  Forall (λ e, 0 < e) equity →
  ∃ ds, BacktestReport.drawdown equity = map Some ds
        ∧ length ds = length equity
        ∧ Forall (λ d, -1 <= d ∧ d <= 0) ds.
Proof.
  intros Hpos. unfold BacktestReport.drawdown.
  destruct equity as [| x rest].
  { exists []. repeat split; constructor. }
  assert (0 < x) as Hx by (inversion Hpos; assumption).
  pose proof (cummax_above x rest) as Hall.
  revert Hall Hpos. generalize (Series.cummax (x :: rest)). generalize (x :: rest).
  intros es ts Hall. induction Hall as [| e t es ts [Het Hxt] _ IH]; intros Hpos.
  - exists []. repeat split; constructor.
  - inversion Hpos as [| ? ? He Hes]; subst.
    destruct (IH Hes) as (ds & Hds & Hlen & Hin).
    exists ((e - t) / t :: ds). cbn [zip_with]. rewrite Hds.
    unfold Series.sub, Series.div.
    destruct (Qeq_bool t 0) eqn:Z.
    { apply Qeq_bool_iff in Z. lra. }
    split; [reflexivity |]. split; [simpl; lia |].
    constructor; [| exact Hin].
    assert (0 < t) as Ht by lra.
    split.
    + apply Qle_shift_div_l; [exact Ht | lra].
    + apply Qle_shift_div_r; [exact Ht | lra].
Qed.

Lemma omap_id_Some {A} (xs : list A) : omap id (map Some xs) = xs.
Proof.
  induction xs as [| x xs IH]; [reflexivity |].
  change (x :: omap id (map Some xs) = x :: xs). rewrite IH. reflexivity.
Qed.

(** The minimum of a column of numbers is one of them. *)
Lemma min_skipna_in (ds : list Q) :
  ds ≠ [] → ∃ d, Series.min_skipna (map Some ds) = Some d ∧ d ∈ ds.
Proof.
  intros Hne. unfold Series.min_skipna. rewrite omap_id_Some.
  destruct ds as [| x rest]; [contradiction |].
  eexists. split; [reflexivity |].
  assert (∀ low, low ∈ x :: rest →
                 foldl (λ low y, if Qltb y low then y else low) low rest ∈ x :: rest) as H.
  { assert (∀ l low, low ∈ x :: rest → l ⊆ x :: rest →
                     foldl (λ low y, if Qltb y low then y else low) low l ∈ x :: rest) as G.
    { induction l as [| y l IH]; intros low Hlow Hsub; [exact Hlow |].
      cbn [foldl]. apply IH.
      - destruct (Qltb y low); [apply Hsub; left | exact Hlow].
      - intros z Hz. apply Hsub. right. exact Hz. }
    intros low Hlow. apply G; [exact Hlow |].
    intros z Hz. right. exact Hz. }
  apply H. left.
Qed.

(** The deepest draw-down of a positive curve is a number between -1 and 0. *)
Lemma drawdown_min (equity : list Q) :
  equity ≠ [] →
  Forall (λ e, 0 < e) equity →
  ∃ d, Series.min_skipna (BacktestReport.drawdown equity) = Some d
       ∧ -1 <= d ∧ d <= 0.
Proof.
  intros Hne Hpos.
  destruct (drawdown_cells equity Hpos) as (ds & Hds & Hlen & Hin).
  destruct (min_skipna_in ds) as (d & Hd & Hmem).
  { intros ->. destruct equity; [contradiction | discriminate]. }
  exists d. rewrite Hds. split; [exact Hd |].
  exact (proj1 (list.Forall_forall _ _) Hin d Hmem).
Qed.


Section report.
Context `{Sqrt} `{Power}.

(** X29.  When every recorded equity is positive, the report exists and its
    maximum draw-down, in percent, is a number between -100 and 0. *)
Theorem report_max_drawdown (self : BacktestEngine.t) :
  BacktestEngine.equity_curve self ≠ [] →
  Forall (λ p, 0 < BacktestEngine.equity p) (BacktestEngine.equity_curve self) →
  ∃ r d,
    BacktestReport.generate_report self = Some r
    ∧ BacktestReport.max_drawdown r = Some d
    ∧ -100 <= d ∧ d <= 0.
Proof.
  intros Hne Hpos. unfold BacktestReport.generate_report.
  destruct (BacktestEngine.equity_curve self) as [| first curve] eqn:E;
    [contradiction |].
  rewrite <- E in *.
  destruct (drawdown_min (map BacktestEngine.equity (BacktestEngine.equity_curve self)))
    as (d & Hd & Hlo & Hhi).
  { rewrite E. discriminate. }
  { apply Forall_fmap. exact Hpos. }
  eexists. exists (pyround (d * 100) 2). split; [reflexivity |].
  cbn [BacktestReport.max_drawdown]. rewrite Hd. cbn [Series.map_cell].
  split; [reflexivity |].
  split.
  - apply (pyround_grid (d * 100) 2 (-100)). change (inject_Z (-100)) with (-100). lra.
  - apply (pyround_grid (d * 100) 2 0). change (inject_Z 0) with 0. lra.
Qed.

End report.
Lemma report_max_drawdown_witness :
  ∃ r d,
    @BacktestReport.generate_report Qsqrt power_of_integer engine_after_drop = Some r
    ∧ BacktestReport.max_drawdown r = Some d
    ∧ -100 <= d ∧ d <= 0.
Proof.
  apply (@report_max_drawdown Qsqrt power_of_integer engine_after_drop).
  - vm_compute. discriminate.
  - vm_compute. repeat constructor.
Defined.

(** ** The report of a run *)

Section report_of_a_run.
Context `{Sqrt} `{Power}.









End report_of_a_run.




(** * Properties in binary64 *)

(** ** The trend strategy *)

Lemma windowed_cells_lookup (w : nat) (agg : list F64.t → F64.t) (col : list F64.t)
    (i : nat) :
  windowed_cells w agg col !! i
  = if decide (i < length col)%nat
    then Some (if ((w =? 0) || (i + 1 <? w))%nat then F64.nan
               else agg (take w (drop (i + 1 - w) col)))
    else None.
Proof.
  exact (map_seq_lookup
           (λ i, if ((w =? 0) || (i + 1 <? w))%nat then F64.nan
                 else agg (take w (drop (i + 1 - w) col)))
           (length col) i).
Qed.

Lemma windowed_shape : pandas_shape windowed.
Proof.
  split; [| split].
  - intros w col. simpl. unfold windowed_cells. rewrite length_map, length_seq. reflexivity.
  - intros w col. simpl. unfold windowed_cells. rewrite length_map, length_seq. reflexivity.
  - intros w col i x Hi. simpl. rewrite windowed_cells_lookup.
    case_decide; [| discriminate].
    apply Nat.ltb_lt in Hi. rewrite Hi, orb_true_r. congruence.
Qed.

Lemma gt_nan_r (x : F64.t) : F64.gt x F64.nan = false.
Proof. destruct x as [| | | [] ? ?]; reflexivity. Qed.

Lemma lt_nan_r (x : F64.t) : F64.lt x F64.nan = false.
Proof. destruct x as [| | | [] ? ?]; reflexivity. Qed.

(** The comparison of floats is antisymmetric. *)
Lemma SFcompare_antisym (x y : spec_float) (c : comparison) :
  SFcompare x y = Some c → SFcompare y x = Some (CompOpp c).
Proof.
  destruct x as [sx|sx| |sx mx ex], y as [sy|sy| |sy my ey]; simpl;
    try discriminate; intros [= <-];
    try (destruct sx; reflexivity); try (destruct sy; reflexivity);
    try (destruct sx, sy; reflexivity).
  destruct sx, sy; simpl; try reflexivity.
  - rewrite (Z.compare_antisym ex ey). destruct (ex ?= ey)%Z; simpl; try reflexivity.
    change (Pos.compare_cont Eq my mx) with (Pos.compare_cont (CompOpp Eq) my mx).
    rewrite <- (Pos.compare_cont_antisym mx my Eq).
    destruct (Pos.compare_cont Eq mx my); reflexivity.
  - rewrite (Z.compare_antisym ex ey). destruct (ex ?= ey)%Z; simpl; try reflexivity.
    change (Pos.compare_cont Eq my mx) with (Pos.compare_cont (CompOpp Eq) my mx).
    rewrite <- (Pos.compare_cont_antisym mx my Eq). reflexivity.
Qed.

(** Of two floats at most one is above the other. *)
Lemma gt_lt_exclusive (x y : F64.t) : F64.gt x y = true → F64.lt x y = true → False.
Proof.
  unfold F64.gt, F64.lt, SFltb. intros G L.
  destruct (SFcompare x y) as [c|] eqn:C; [| discriminate].
  rewrite (SFcompare_antisym x y c C) in G. destruct c; discriminate.
Qed.

Section trend64.
Context `{Pandas}.
Hypothesis shape : pandas_shape _.

Lemma ma_cross64_length (self : Binary64.TrendStrategy.t) (df : list Binary64.Bar.t) :
  length (Binary64.TrendStrategy.ma_cross (Binary64.TrendStrategy.calculate self df))
  = length df.
Proof.
  destruct shape as (Hm & _). simpl.
  rewrite length_zip_with, !Hm, length_map. lia.
Qed.

(** The cross column of the code holds the cross state on every row. *)
Lemma ma_cross64_lookup
    (self : Binary64.TrendStrategy.t) (df : list Binary64.Bar.t) (t : nat) :
  Binary64.TrendStrategy.ma_cross (Binary64.TrendStrategy.calculate self df) !! t
  = if decide (t < length df)%nat then Some (computed_cross_state self df t) else None.
Proof.
  destruct shape as (Hm & _).
  unfold computed_cross_state, computed_average. simpl.
  rewrite lookup_zip_with.
  set (close := map Binary64.Bar.close df).
  assert (length close = length df) as Hc by (unfold close; apply length_map).
  case_decide as Ht.
  - destruct (lookup_lt_is_Some_2
                (rolling_mean (Binary64.TrendStrategy.short_ma self) close) t)
      as [s Hs]; [rewrite Hm; lia |].
    destruct (lookup_lt_is_Some_2
                (rolling_mean (Binary64.TrendStrategy.long_ma self) close) t)
      as [l Hl]; [rewrite Hm; lia |].
    rewrite Hs, Hl. simpl. f_equal.
    destruct (F64.gt s l) eqn:G, (F64.lt s l) eqn:L; try reflexivity.
    destruct (gt_lt_exclusive s l G L).
  - rewrite (lookup_ge_None_2
               (rolling_mean (Binary64.TrendStrategy.short_ma self) close) t)
      by (rewrite Hm; lia).
    reflexivity.
Qed.

Lemma ma_cross64_total
    (self : Binary64.TrendStrategy.t) (df : list Binary64.Bar.t) (t : nat) :
  (t < length df)%nat →
  Binary64.TrendStrategy.ma_cross (Binary64.TrendStrategy.calculate self df) !!! t
  = computed_cross_state self df t.
Proof.
  intros Ht. rewrite list_lookup_total_alt, ma_cross64_lookup.
  case_decide; [reflexivity | lia].
Qed.

(** The signal column of the code holds the cross event on every row. *)
Lemma ma_signal64_lookup
    (self : Binary64.TrendStrategy.t) (df : list Binary64.Bar.t) (t : nat) :
  Binary64.TrendStrategy.ma_signal (Binary64.TrendStrategy.calculate self df) !! t
  = if decide (t < length df)%nat then Some (computed_cross_event self df t) else None.
Proof.
  change (Binary64.TrendStrategy.ma_signal (Binary64.TrendStrategy.calculate self df))
    with (map TrendStrategy.clip
              (Series.diff (Binary64.TrendStrategy.ma_cross
                              (Binary64.TrendStrategy.calculate self df)))).
  rewrite map_lookup, diff_lookup, ma_cross64_length.
  case_decide as Ht; [| reflexivity].
  unfold computed_cross_event. destruct t as [| p]; [reflexivity |].
  pose proof (proj2 (Nat.ltb_lt _ _) Ht) as Hb. rewrite Hb.
  rewrite !ma_cross64_total by lia.
  cbn [fmap option_fmap option_map]. rewrite clip_sgn. reflexivity.
Qed.

(** A cross state other than 0 needs a full long window. *)
Lemma computed_cross_state_defined
    (self : Binary64.TrendStrategy.t) (df : list Binary64.Bar.t) (t : nat) :
  computed_cross_state self df t ≠ 0%Z →
  (Binary64.TrendStrategy.long_ma self ≤ t + 1)%nat.
Proof.
  destruct shape as (_ & _ & Hwarm).
  unfold computed_cross_state, computed_average. intros Hs.
  destruct (decide (t + 1 < Binary64.TrendStrategy.long_ma self)%nat) as [Hlt|]; [| lia].
  exfalso. apply Hs.
  destruct (rolling_mean (Binary64.TrendStrategy.short_ma self) _ !! t) as [s|];
    [| reflexivity].
  destruct (rolling_mean (Binary64.TrendStrategy.long_ma self) _ !! t) as [l|] eqn:El;
    [| reflexivity].
  rewrite (Hwarm _ _ _ _ Hlt El), gt_nan_r, lt_nan_r. reflexivity.
Qed.

Lemma computed_cross_state_range
    (self : Binary64.TrendStrategy.t) (df : list Binary64.Bar.t) (t : nat) :
  (-1 ≤ computed_cross_state self df t ≤ 1)%Z.
Proof.
  unfold computed_cross_state.
  repeat match goal with
         | |- context [match ?x with _ => _ end] => destruct x
         end; lia.
Qed.

Lemma computed_cross_event_defined
    (self : Binary64.TrendStrategy.t) (df : list Binary64.Bar.t) (t : nat) (z : Z) :
  computed_cross_event self df t = Some z → z ≠ 0%Z →
  (Binary64.TrendStrategy.long_ma self ≤ t + 1)%nat ∧ (t < length df)%nat.
Proof.
  unfold computed_cross_event. destruct t as [| p]; [discriminate |].
  destruct (S p <? length df)%nat eqn:Ht; [| discriminate].
  apply Nat.ltb_lt in Ht. intros [= <-] Hz. split; [| exact Ht].
  destruct (Z.eq_dec (computed_cross_state self df (S p)) 0%Z) as [E1 | E1].
  - destruct (Z.eq_dec (computed_cross_state self df p) 0%Z) as [E0 | E0].
    + rewrite E1, E0 in Hz. contradiction.
    + pose proof (computed_cross_state_defined self df p E0). lia.
  - exact (computed_cross_state_defined self df (S p) E1).
Qed.

(** What [get_signal] returns, in terms of the cross event of the last
    row. *)
Lemma trend64_get_signal_spec
    (self : Binary64.TrendStrategy.t) (df : list Binary64.Bar.t) :
  Binary64.TrendStrategy.get_signal self df
  = if (length df <? Binary64.TrendStrategy.long_ma self)%nat then Some HOLD
    else match df with
         | [] => None
         | _ =>
             let event := computed_cross_event self df (length df - 1) in
             Some (if bool_decide (event = Some 1%Z) then BUY
                   else if bool_decide (event = Some (-1)%Z) then SELL
                   else HOLD)
         end.
Proof.
  unfold Binary64.TrendStrategy.get_signal.
  change (Binary64.TrendStrategy.bars (Binary64.TrendStrategy.calculate self df)) with df.
  destruct (length df <? Binary64.TrendStrategy.long_ma self)%nat; [reflexivity |].
  unfold Series.iloc_last.
  assert (length (Binary64.TrendStrategy.ma_signal
                    (Binary64.TrendStrategy.calculate self df)) = length df) as ->.
  { change (Binary64.TrendStrategy.ma_signal (Binary64.TrendStrategy.calculate self df))
      with (map TrendStrategy.clip
                (Series.diff (Binary64.TrendStrategy.ma_cross
                                (Binary64.TrendStrategy.calculate self df)))).
    rewrite length_map, diff_length. apply ma_cross64_length. }
  rewrite ma_cross64_length, ma_signal64_lookup, ma_cross64_lookup.
  destruct df as [| b df']; [reflexivity |].
  case_decide as Ht; [| simpl in Ht; lia].
  cbv zeta. repeat case_bool_decide; reflexivity.
Qed.

(** C7, as the code has it.  With the two averages as the program computes
    them, the trend strategy answers BUY exactly when the cross event of the
    latest row is +1, SELL exactly when it is -1, and HOLD on every other
    non-empty series; in particular it answers HOLD when the series is
    shorter than the long window, and when the latest row is in the
    golden-cross state without a new crossover. *)
Theorem trend_signal_follows_computed_cross
    (self : Binary64.TrendStrategy.t) (df : list Binary64.Bar.t) :
  let last := (length df - 1)%nat in
  let event := computed_cross_event self df last in
  (Binary64.TrendStrategy.get_signal self df = Some BUY ↔ event = Some 1%Z)
  ∧ (Binary64.TrendStrategy.get_signal self df = Some SELL ↔ event = Some (-1)%Z)
  ∧ (df ≠ [] → event ≠ Some 1%Z → event ≠ Some (-1)%Z →
     Binary64.TrendStrategy.get_signal self df = Some HOLD)
  ∧ ((length df < Binary64.TrendStrategy.long_ma self)%nat →
     Binary64.TrendStrategy.get_signal self df = Some HOLD)
  ∧ (computed_cross_state self df last = 1%Z → event ≠ Some 1%Z →
     Binary64.TrendStrategy.get_signal self df = Some HOLD).
Proof.
  intros last event.
  assert (∀ z, event = Some z → z ≠ 0%Z →
               (length df <? Binary64.TrendStrategy.long_ma self)%nat = false
               ∧ df ≠ []) as Hdef.
  { intros z Hz Hnz.
    destruct (computed_cross_event_defined self df last z Hz Hnz) as [Hl Ht].
    split; [apply Nat.ltb_ge; unfold last in *; lia |].
    intros ->. simpl in Ht. lia. }
  assert (df ≠ [] → event ≠ Some 1%Z → event ≠ Some (-1)%Z →
          Binary64.TrendStrategy.get_signal self df = Some HOLD) as Hhold.
  { intros Hne H1 H2. rewrite trend64_get_signal_spec.
    destruct (length df <? Binary64.TrendStrategy.long_ma self)%nat; [reflexivity |].
    destruct df as [| b df']; [contradiction |].
    cbv zeta. fold last. fold event.
    rewrite !bool_decide_eq_false_2 by assumption. reflexivity. }
  rewrite trend64_get_signal_spec. fold last. fold event.
  split; [| split; [| split; [| split]]].
  - split.
    + destruct (length df <? Binary64.TrendStrategy.long_ma self)%nat; [discriminate |].
      destruct df as [| b df']; [discriminate |]. cbv zeta.
      repeat case_bool_decide; congruence.
    + intros Hev. destruct (Hdef 1%Z Hev) as [-> Hne]; [lia |].
      destruct df as [| b df']; [contradiction |]. cbv zeta.
      rewrite bool_decide_eq_true_2 by exact Hev. reflexivity.
  - split.
    + destruct (length df <? Binary64.TrendStrategy.long_ma self)%nat; [discriminate |].
      destruct df as [| b df']; [discriminate |]. cbv zeta.
      repeat case_bool_decide; congruence.
    + intros Hev. destruct (Hdef (-1)%Z Hev) as [-> Hne]; [lia |].
      destruct df as [| b df']; [contradiction |]. cbv zeta.
      rewrite bool_decide_eq_false_2 by congruence.
      rewrite bool_decide_eq_true_2 by exact Hev. reflexivity.
  - rewrite <- trend64_get_signal_spec. exact Hhold.
  - intros Hshort. apply Nat.ltb_lt in Hshort. rewrite Hshort. reflexivity.
  - rewrite <- trend64_get_signal_spec. intros Hstate Hnew. apply Hhold.
    + intros ->. subst last. unfold computed_cross_state, computed_average in Hstate.
      destruct shape as (Hm & _).
      rewrite (lookup_ge_None_2 (rolling_mean _ _) _) in Hstate
        by (rewrite Hm; simpl; lia).
      discriminate.
    + exact Hnew.
    + unfold event, computed_cross_event. destruct last as [| p]; [discriminate |].
      destruct (S p <? length df)%nat; [| discriminate].
      rewrite Hstate. intros [= Hsgn]. apply Z.sgn_neg_iff in Hsgn.
      pose proof (computed_cross_state_range self df p). lia.
Qed.

End trend64.

(** A series of four closes whose computed 2-day average moves above the
    3-day average on the last row, and one that is too short. *)
Lemma trend_signal_follows_computed_cross_witness :
  @Binary64.TrendStrategy.get_signal windowed (Binary64.TrendStrategy.mk 2 3)
     (take 4 rise_and_fall64) = Some BUY
  ∧ @Binary64.TrendStrategy.get_signal windowed (Binary64.TrendStrategy.mk 2 3)
       (take 2 rise_and_fall64) = Some HOLD.
Proof.
  split.
  - destruct (@trend_signal_follows_computed_cross windowed windowed_shape
                (Binary64.TrendStrategy.mk 2 3) (take 4 rise_and_fall64)) as (Hbuy & _).
    apply Hbuy. vm_compute. reflexivity.
  - destruct (@trend_signal_follows_computed_cross windowed windowed_shape
                (Binary64.TrendStrategy.mk 2 3) (take 2 rise_and_fall64))
      as (_ & _ & _ & Hshort & _).
    apply Hshort. vm_compute. lia.
Defined.

(** The crossover scenario of the specification in small: with windows of 2
    and 3 days the averages cross upward on day 3 and downward on day 6; the
    strategy, asked day after day, answers BUY once, HOLD while the golden
    cross lasts, SELL once, then HOLD. *)
Lemma computed_trend_signals_on_a_rise_and_fall :
  map (λ n, @Binary64.TrendStrategy.get_signal windowed (Binary64.TrendStrategy.mk 2 3)
              (take n rise_and_fall64))
      [3; 4; 5; 6; 7; 8]%nat
  = [Some HOLD; Some BUY; Some HOLD; Some HOLD; Some SELL; Some HOLD].
Proof. vm_compute. reflexivity. Qed.

(** C7 as stated fails.  After twenty closes at 10 the two averages are
    equal; a close of 10.000000000000002 then lifts the 5-day average above
    the 20-day average, a cross above at that row.  Both averages round to
    10, the program sees no cross and answers HOLD. *)
Lemma trend_buy_missed_when_averages_round_together :
  (∃ s l, exact_average 5 twenty_flat_then_tick 19 = Some s
          ∧ exact_average 20 twenty_flat_then_tick 19 = Some l ∧ s == l)
  ∧ (∃ s l, exact_average 5 twenty_flat_then_tick 20 = Some s
            ∧ exact_average 20 twenty_flat_then_tick 20 = Some l ∧ l < s)
  ∧ @computed_average windowed 5 twenty_flat_then_tick 20 = Some (F64.of_Z 10)
  ∧ @computed_average windowed 20 twenty_flat_then_tick 20 = Some (F64.of_Z 10)
  ∧ @Binary64.TrendStrategy.get_signal windowed Binary64.TrendStrategy.default
       twenty_flat_then_tick = Some HOLD.
Proof.
  split; [| split; [| split; [| split]]].
  - eexists _, _. split; [vm_compute; reflexivity |].
    split; [vm_compute; reflexivity |]. reflexivity.
  - eexists _, _. split; [vm_compute; reflexivity |].
    split; [vm_compute; reflexivity |]. reflexivity.
  - vm_compute. reflexivity.
  - vm_compute. reflexivity.
  - vm_compute. reflexivity.
Qed.

(** ** The ensemble *)

Section ensemble64.
Context `{Pandas}.
Hypothesis shape : pandas_shape _.

Lemma trend64_get_signal_total
    (self : Binary64.TrendStrategy.t) (df : list Binary64.Bar.t) :
  (0 < Binary64.TrendStrategy.long_ma self)%nat →
  is_Some (Binary64.TrendStrategy.get_signal self df).
Proof.
  intros Hw. rewrite (trend64_get_signal_spec shape).
  destruct (length df <? Binary64.TrendStrategy.long_ma self)%nat eqn:E;
    [eexists; reflexivity |].
  destruct df as [| b df']; [| eexists; reflexivity].
  apply Nat.ltb_ge in E. simpl in E. lia.
Qed.

Lemma reversion64_get_signal_total
    (self : Binary64.MeanReversionStrategy.t) (df : list Binary64.Bar.t) :
  (0 < Binary64.MeanReversionStrategy.window self)%nat →
  is_Some (Binary64.MeanReversionStrategy.get_signal self df).
Proof.
  destruct shape as (Hm & Hs & _).
  intros Hw. unfold Binary64.MeanReversionStrategy.get_signal.
  change (Binary64.MeanReversionStrategy.bars
            (Binary64.MeanReversionStrategy.calculate self df)) with df.
  destruct (length df <? Binary64.MeanReversionStrategy.window self)%nat eqn:E;
    [eexists; reflexivity |].
  apply Nat.ltb_ge in E. assert (0 < length df)%nat as Hlen by lia.
  destruct (last_cell_exists df _ eq_refl Hlen) as [bar ->].
  destruct (last_cell_exists
              (Binary64.MeanReversionStrategy.upper
                 (Binary64.MeanReversionStrategy.calculate self df))
              (length df)) as [upper ->]; [| exact Hlen |].
  { simpl. rewrite length_zip_with, Hm, Hs, length_map. lia. }
  destruct (last_cell_exists
              (Binary64.MeanReversionStrategy.lower
                 (Binary64.MeanReversionStrategy.calculate self df))
              (length df)) as [lower ->]; [| exact Hlen |].
  { simpl. rewrite length_zip_with, Hm, Hs, length_map. lia. }
  destruct (last_cell_exists
              (Binary64.MeanReversionStrategy.position
                 (Binary64.MeanReversionStrategy.calculate self df))
              (length df)) as [position ->]; [| exact Hlen |].
  { simpl. rewrite length_zip_with, length_zip, !length_zip_with, !Hm, !Hs, length_map.
    lia. }
  repeat match goal with
         | |- is_Some (if ?c then _ else _) => destruct c
         end; eexists; reflexivity.
Qed.

(** C5, as the code has it.  The engine as constructed answers on every
    frame.  Its score is the sum of the three strengths times the weights of
    the regime, evaluated in binary64 from the left, the advisory strength
    being 0 without an API key; its decision is BUY exactly when that score
    is above 0.3, SELL exactly when it is below -0.3, HOLD otherwise.  The
    decision is the one of the exact sum in every cell of the table but two,
    where the rounded sum leaves the threshold and the advisory signal
    decides. *)
Theorem ensemble_score_as_computed
    (api_key : string) (advisor : list Binary64.Bar.t → Signal)
    (df : list Binary64.Bar.t) (market_regime : option MarketRegime) :
  let regime :=
    match market_regime with
    | Some r => r
    | None => Binary64.MarketRegimeDetector.detect df
    end in
  let advisory := if decide (api_key = ""%string) then HOLD else advisor df in
  ∃ trend reversion res,
    Binary64.TrendStrategy.get_signal Binary64.TrendStrategy.default df = Some trend
    ∧ Binary64.MeanReversionStrategy.get_signal Binary64.MeanReversionStrategy.default df
      = Some reversion
    ∧ Binary64.StrategyEnsemble.get_ensemble_signal
        (Binary64.StrategyEnsemble.init api_key advisor) df market_regime
      = Some res
    ∧ Binary64.StrategyEnsemble.trend_signal res = trend
    ∧ Binary64.StrategyEnsemble.reversion_signal res = reversion
    ∧ Binary64.StrategyEnsemble.llm_signal res = advisory
    ∧ Binary64.StrategyEnsemble.market_regime res = MarketRegime_value regime
    ∧ Binary64.StrategyEnsemble.score res = computed_score regime trend reversion advisory
    ∧ (Binary64.StrategyEnsemble.signal res = BUY
       ↔ F64.gt (Binary64.StrategyEnsemble.score res) (F64.dec 3 10) = true)
    ∧ (Binary64.StrategyEnsemble.signal res = SELL
       ↔ F64.lt (Binary64.StrategyEnsemble.score res) (F64.opp (F64.dec 3 10)) = true)
    ∧ (Binary64.StrategyEnsemble.signal res = HOLD
       ↔ F64.gt (Binary64.StrategyEnsemble.score res) (F64.dec 3 10) = false
         ∧ F64.lt (Binary64.StrategyEnsemble.score res) (F64.opp (F64.dec 3 10)) = false)
    ∧ Binary64.StrategyEnsemble.signal res
      = if rounds_off_threshold regime trend reversion advisory then advisory
        else exact_decision regime trend reversion advisory.
Proof.
  intros regime advisory.
  destruct (trend64_get_signal_total Binary64.TrendStrategy.default df) as [trend Ht];
    [simpl; unfold Config.LONG_MA; lia |].
  destruct (reversion64_get_signal_total Binary64.MeanReversionStrategy.default df)
    as [reversion Hr]; [simpl; unfold Config.REVERSION_WINDOW; lia |].
  exists trend, reversion.
  unfold Binary64.StrategyEnsemble.get_ensemble_signal.
  change (Binary64.StrategyEnsemble.trend_strategy
            (Binary64.StrategyEnsemble.init api_key advisor))
    with Binary64.TrendStrategy.default.
  change (Binary64.StrategyEnsemble.reversion_strategy
            (Binary64.StrategyEnsemble.init api_key advisor))
    with Binary64.MeanReversionStrategy.default.
  rewrite Ht, Hr. cbn [mbind option_bind].
  change (Binary64.StrategyEnsemble.llm_api_key
            (Binary64.StrategyEnsemble.init api_key advisor)) with api_key.
  change (Binary64.StrategyEnsemble.llm_analyze_technical
            (Binary64.StrategyEnsemble.init api_key advisor) df) with (advisor df).
  assert ((if String.eqb api_key "" then HOLD else advisor df) = advisory) as ->.
  { unfold advisory. destruct (String.eqb api_key "") eqn:E.
    - apply String.eqb_eq in E. rewrite decide_True by exact E. reflexivity.
    - apply String.eqb_neq in E. rewrite decide_False by exact E. reflexivity. }
  fold regime.
  eexists. split; [reflexivity |]. split; [reflexivity |]. split; [reflexivity |].
  cbn [Binary64.StrategyEnsemble.trend_signal Binary64.StrategyEnsemble.reversion_signal
       Binary64.StrategyEnsemble.llm_signal Binary64.StrategyEnsemble.market_regime
       Binary64.StrategyEnsemble.score Binary64.StrategyEnsemble.signal].
  split; [reflexivity |]. split; [reflexivity |]. split; [reflexivity |].
  split; [reflexivity |].
  generalize regime advisory. clear. intros regime advisory.
  destruct regime, trend, reversion, advisory;
    (split; [vm_compute; reflexivity |]);
    (split; [vm_compute; split; congruence |]);
    (split; [vm_compute; split; congruence |]);
    (split; [vm_compute; split; [intros ?; split; congruence | intros [? ?]; congruence] |]);
    vm_compute; reflexivity.
Qed.

End ensemble64.

(** A down-trend given to the engine, an advisory BUY, on a frame where
    the trend strategy holds and the reversion strategy says SELL. *)
Lemma ensemble_score_as_computed_witness :
  ∃ res,
    @Binary64.StrategyEnsemble.get_ensemble_signal windowed
      (Binary64.StrategyEnsemble.init "key" (λ _, BUY)) jump_after_cross (Some TREND_DOWN)
    = Some res
    ∧ Binary64.StrategyEnsemble.trend_signal res = HOLD
    ∧ Binary64.StrategyEnsemble.reversion_signal res = SELL
    ∧ Binary64.StrategyEnsemble.score res = computed_score TREND_DOWN HOLD SELL BUY
    ∧ Binary64.StrategyEnsemble.signal res = BUY.
Proof.
  destruct (@ensemble_score_as_computed windowed windowed_shape "key" (λ _, BUY)
              jump_after_cross (Some TREND_DOWN))
    as (trend & reversion & res & Ht & Hr & He & Hst & Hsr & _ & _ & Hscore & _ & _ & _ & Hd).
  assert (trend = HOLD) as -> by (vm_compute in Ht; congruence).
  assert (reversion = SELL) as -> by (vm_compute in Hr; congruence).
  exists res. split; [exact He |]. split; [exact Hst |]. split; [exact Hsr |].
  split; [exact Hscore |]. rewrite Hd. reflexivity.
Defined.

(** C5 as stated fails.  In a down-trend with the trend strategy holding,
    the reversion strategy selling and an advisory BUY, the sum of the
    strengths times the weights is 0 - 0.1 + 0.4 = 0.3, which is not above
    0.3: the decision of the claim is HOLD.  The program computes
    0.30000000000000004 and decides BUY. *)
Lemma ensemble_buys_on_a_score_of_three_tenths :
  exact_score TREND_DOWN HOLD SELL BUY == 3 # 10
  ∧ exact_decision TREND_DOWN HOLD SELL BUY = HOLD
  ∧ ∃ res,
      @Binary64.StrategyEnsemble.get_ensemble_signal windowed
        (Binary64.StrategyEnsemble.init "key" (λ _, BUY)) jump_after_cross
        (Some TREND_DOWN)
      = Some res
      ∧ Binary64.StrategyEnsemble.trend_signal res = HOLD
      ∧ Binary64.StrategyEnsemble.reversion_signal res = SELL
      ∧ Binary64.StrategyEnsemble.llm_signal res = BUY
      ∧ Binary64.StrategyEnsemble.score res = S754_finite false 5404319552844596 (-54)
      ∧ F64.dec 3 10 = S754_finite false 5404319552844595 (-54)
      ∧ Binary64.StrategyEnsemble.signal res = BUY.
Proof.
  split; [reflexivity |]. split; [reflexivity |].
  eexists. split; [vm_compute; reflexivity |].
  repeat split; reflexivity.
Qed.

(** ** The ledger *)

(** C6, as the code has it.  A purchase whose cost as the program computes
    it, the product of price and quantity rounded to binary64, exceeds the
    cash is refused: [buy] returns [False] and the ledger it leaves is the
    ledger it was given, cash and positions alike. *)
Theorem buy_rejected_when_computed_cost_exceeds_cash
    (pf : Binary64.Portfolio.t) (code name : string) (price quantity : F64.t)
    (today : string) :
  F64.gt (F64.mul price quantity) (Binary64.Portfolio.cash pf) = true →
  Binary64.Portfolio.buy pf code name price quantity today
  = Binary64.Portfolio.Returned false pf.
Proof.
  intros Hcost. unfold Binary64.Portfolio.buy. rewrite Hcost. reflexivity.
Qed.

(** The scenario of the specification: 1000 shares at 50 with 10,000 in
    cash. *)
Lemma buy_rejected_when_computed_cost_exceeds_cash_witness :
  Binary64.Portfolio.buy (Binary64.Portfolio.init (F64.of_Z 10000)) "600519" "Moutai"
    (F64.of_Z 50) (F64.of_Z 1000) "2026-01-05"
  = Binary64.Portfolio.Returned false (Binary64.Portfolio.init (F64.of_Z 10000)).
Proof.
  apply (buy_rejected_when_computed_cost_exceeds_cash
           (Binary64.Portfolio.init (F64.of_Z 10000)) "600519" "Moutai"
           (F64.of_Z 50) (F64.of_Z 1000) "2026-01-05").
  reflexivity.
Defined.

(** C6 as stated fails.  With 100,000 in cash, three shares at
    33333.333333333336, the double nearest to a third of the cash, cost more
    than the cash; the product rounds to 100000.0, which is not above the
    cash, and the purchase is carried out with all the cash. *)
Lemma buy_accepted_when_exact_cost_exceeds_cash :
  let cash := F64.of_Z 100000 in
  let price := F64.div (F64.of_Z 100000) (F64.of_Z 3) in
  let quantity := F64.of_Z 3 in
  (∃ c p q, F64.to_Q cash = Some c ∧ F64.to_Q price = Some p
            ∧ F64.to_Q quantity = Some q ∧ c < p * q)
  ∧ F64.mul price quantity = cash
  ∧ ∃ pf,
      Binary64.Portfolio.buy (Binary64.Portfolio.init cash) "600519" "Moutai"
        price quantity "2026-01-05"
      = Binary64.Portfolio.Returned true pf
      ∧ Binary64.Portfolio.cash pf = F64.zero
      ∧ Binary64.Position.quantity <$> Binary64.Portfolio.positions pf !! "600519"
        = Some quantity.
Proof.
  intros cash price quantity.
  split; [| split].
  - eexists _, _, _. split; [vm_compute; reflexivity |].
    split; [vm_compute; reflexivity |]. split; [vm_compute; reflexivity |].
    reflexivity.
  - vm_compute. reflexivity.
  - unfold Binary64.Portfolio.buy.
    assert (F64.gt (F64.mul price quantity)
              (Binary64.Portfolio.cash (Binary64.Portfolio.init cash)) = false) as ->
      by (vm_compute; reflexivity).
    simpl Binary64.Portfolio.positions. rewrite lookup_empty.
    eexists. split; [reflexivity |].
    split; [vm_compute; reflexivity |].
    simpl. rewrite lookup_insert. reflexivity.
Qed.
